(** * finplot: the time-series store, the viewport controller and the
      deferred-render gate of [finplot.py], embedded in Rocq.

    Numbers.  The program computes with Python and numpy floats.  A float is
    modelled as [num]: either [NaN] or an exact rational [Fin q].  Arithmetic
    is exact (no rounding, no overflow to infinity); NaN propagates through
    arithmetic and makes every comparison false, as IEEE 754 and pandas have
    it.  The float literals 0.2, 0.5, 0.8 and 1.02 stand for the rationals
    they are written as.

    The toolkit (pyqtgraph / Qt) is outside the repository.  The model keeps
    of it the state the program reads back (the target rectangle, the
    visibility flag of each heavy item, the limits handed to [setLimits])
    and what [ViewBox.setRange(rect, padding=0)] does to a rectangle before
    it becomes the target: an empty range is widened, a NaN range raises,
    the limits are applied.

    Exceptions.  A call that raises is [None]; where a claim looks at what
    a raise leaves behind ([setRange], [_setRange]) the call ends in an
    [Outcome] that carries the view box either way. *)

From Stdlib Require Import ZArith QArith Qfield List String Ascii Bool Lia Lqa.
From Stdlib Require Import DecimalString Sorted.
Import ListNotations.

Local Open Scope Z_scope.

(* ================================================================= *)
(** ** Floats                                                         *)
(* ================================================================= *)

Inductive num : Type :=
| NaN
| Fin (q : Q).

Module Num.

Definition lift2 (f : Q -> Q -> Q) (a b : num) : num :=
  match a, b with
  | Fin x, Fin y => Fin (f x y)
  | _, _ => NaN
  end.

Definition add := lift2 Qplus.
Definition sub := lift2 Qminus.
Definition mul := lift2 Qmult.

(** Python float division: [ZeroDivisionError] (here [None]) on a zero
    divisor, NaN if an operand is NaN. *)
Definition div (a b : num) : option num :=
  match b with
  | Fin y => if Qeq_bool y 0 then None
             else Some (match a with Fin x => Fin (x / y) | NaN => NaN end)
  | NaN => Some NaN
  end.

(** Comparisons: false as soon as one side is NaN. *)
Definition leb (a b : num) : bool :=
  match a, b with
  | Fin x, Fin y => Qle_bool x y
  | _, _ => false
  end.

Definition ltb (a b : num) : bool :=
  match a, b with
  | Fin x, Fin y => negb (Qle_bool y x)
  | _, _ => false
  end.

Definition geb (a b : num) : bool := leb b a.
Definition gtb (a b : num) : bool := ltb b a.

Definition eqb (a b : num) : bool :=
  match a, b with
  | Fin x, Fin y => Qeq_bool x y
  | _, _ => false
  end.

Definition le (a b : num) : Prop :=
  match a, b with
  | Fin x, Fin y => (x <= y)%Q
  | _, _ => False
  end.

Definition lt (a b : num) : Prop :=
  match a, b with
  | Fin x, Fin y => (x < y)%Q
  | _, _ => False
  end.

Definition is_nan (a : num) : bool :=
  match a with NaN => true | Fin _ => false end.

(** [max] and [min] of pandas with [skipna=True]: NaN cells are skipped,
    the result is NaN when nothing is left. *)
Definition max2 (a b : num) : num :=
  match a, b with
  | NaN, _ => b
  | _, NaN => a
  | Fin x, Fin y => if Qle_bool x y then b else a
  end.

Definition min2 (a b : num) : num :=
  match a, b with
  | NaN, _ => b
  | _, NaN => a
  | Fin x, Fin y => if Qle_bool x y then a else b
  end.

Definition nanmax (l : list num) : num := fold_left max2 l NaN.
Definition nanmin (l : list num) : num := fold_left min2 l NaN.

Definition of_Z (z : Z) : num := Fin (inject_Z z).

End Num.

(* ================================================================= *)
(** ** ['%.9g'] formatting, the key of the range cache                *)
(* ================================================================= *)

Module Fmt.

Local Open Scope string_scope.
Local Open Scope Z_scope.

(** Decimal digits of a positive integer, most significant first. *)
Definition digits (z : Z) : string :=
  match z with
  | Zpos p => NilEmpty.string_of_uint (Pos.to_uint p)
  | _ => "0"
  end.

Definition ndigits (z : Z) : Z := Z.of_nat (String.length (digits z)).

(** [scale10 n d k] is the fraction [n/d * 10^k], as a pair. *)
Definition scale10 (n d k : Z) : Z * Z :=
  if 0 <=? k then (n * 10 ^ k, d) else (n, d * 10 ^ (- k)).

(** Exponent [e] of [n/d > 0]: [10^e <= n/d < 10^(e+1)]. *)
Definition exponent10 (n d : Z) : Z :=
  let e0 := ndigits n - ndigits d in
  let '(n', d') := scale10 n d (- e0) in
  if n' <? d' then e0 - 1 else e0.

(** Nearest integer to [n/d], ties to even. *)
Definition round_half_even (n d : Z) : Z :=
  let q := n / d in
  let r := n mod d in
  match 2 * r ?= d with
  | Lt => q
  | Gt => q + 1
  | Eq => if Z.even q then q else q + 1
  end.

Fixpoint strip_zeros (s : string) : string :=
  match s with
  | EmptyString => EmptyString
  | String c r =>
      match strip_zeros r with
      | EmptyString => if Ascii.eqb c "0"%char then EmptyString else String c EmptyString
      | r' => String c r'
      end
  end.

Fixpoint zeros (n : nat) : string :=
  match n with O => EmptyString | S k => String "0"%char (zeros k) end.

Definition with_fraction (int_part frac : string) : string :=
  match strip_zeros frac with
  | EmptyString => int_part
  | f => int_part ++ "." ++ f
  end.

Definition exponent_text (x : Z) : string :=
  let a := Z.abs x in
  (if x <? 0 then "-" else "+") ++ (if a <? 10 then "0" else "") ++ digits a.

(** ['%.9g' % x] for [x = n/d > 0]: nine significant digits, correctly
    rounded; fixed notation when the decimal exponent [X] satisfies
    [-4 <= X < 9], scientific otherwise; trailing zeros removed. *)
Definition fmt9g_pos (n d : Z) : string :=
  let e := exponent10 n d in
  let '(n', d') := scale10 n d (8 - e) in
  let m0 := round_half_even n' d' in
  let '(m, X) := if m0 =? 10 ^ 9 then (10 ^ 8, e + 1) else (m0, e) in
  let ds := digits m in
  if (-4 <=? X) && (X <? 9) then
    if 0 <=? X then
      let k := Z.to_nat (X + 1) in
      with_fraction (substring 0 k ds) (substring k (String.length ds - k) ds)
    else
      "0." ++ zeros (Z.to_nat (- X - 1)) ++ strip_zeros ds
  else
    with_fraction (substring 0 1 ds) (substring 1 (String.length ds - 1) ds)
      ++ "e" ++ exponent_text X.

Definition fmt9g (x : num) : string :=
  match x with
  | NaN => "nan"
  | Fin q =>
      match Qnum q with
      | Z0 => "0"
      | Zpos p => fmt9g_pos (Zpos p) (Zpos (Qden q))
      | Zneg p => "-" ++ fmt9g_pos (Zpos p) (Zpos (Qden q))
      end
  end.

End Fmt.

(* ================================================================= *)
(** ** The table: a pandas DataFrame                                  *)
(* ================================================================= *)

(** A frame is kept row by row, under the labels of its columns; every row
    has one cell per column and the time is column 0.
    [PandasDataSource.__init__] reads [df.columns[0]], so a store never
    holds a frame without a time column.  Rows carry the default positional
    index 0, 1, 2, ...  Labels may repeat: [addcols] joins frames without
    renaming their columns.  The label of the time column, and in the
    candle methods those of the open and close columns, are taken not to
    repeat: [df[timecol]] and [df.loc[:, opencol]] are then one column. *)
Definition row : Type := list num.

Record DataFrame : Type := mkDF {
  columns : list string;
  rows : list row
}.

Definition ncols (d : DataFrame) : nat := List.length (columns d).

Definition cell (r : row) (k : nat) : num := nth k r NaN.
Definition time (r : row) : num := cell r 0.

(** The cells of column [k] of a list of rows. *)
Definition column (rs : list row) (k : nat) : list num :=
  map (fun r => cell r k) rs.

(** The positions, from [i] on, of the columns labelled [label]. *)
Fixpoint positions (i : nat) (label : string) (labels : list string) : list nat :=
  match labels with
  | [] => []
  | c :: cs =>
      if String.eqb c label then i :: positions (S i) label cs
      else positions (S i) label cs
  end.

(** [df[key]] for a list of labels of [df]: for each label of the key in
    turn, every column that carries it. *)
Definition get_indexer (labels key : list string) : list nat :=
  flat_map (fun label => positions 0 label labels) key.

Definition getitem (d : DataFrame) (key : list string) : DataFrame :=
  let ix := get_indexer (columns d) key in
  mkDF (map (fun k => nth k (columns d) EmptyString) ix)
       (map (fun r => map (cell r) ix) (rows d)).

(** [pd.concat([a, b], axis=1)] on positional indexes: the rows are joined
    by position, the shorter frame is padded with NaN cells. *)
Fixpoint concat_rows (wa wb : nat) (a b : list row) : list row :=
  match a with
  | [] => map (fun rb => repeat NaN wa ++ rb) b
  | ra :: a' =>
      match b with
      | [] => (ra ++ repeat NaN wb) :: concat_rows wa wb a' []
      | rb :: b' => (ra ++ rb) :: concat_rows wa wb a' b'
      end
  end.

Definition concat_axis1 (a b : DataFrame) : DataFrame :=
  mkDF (columns a ++ columns b) (concat_rows (ncols a) (ncols b) (rows a) (rows b)).

(** [df[df.columns[1:]]] *)
Definition drop_first_column (d : DataFrame) : DataFrame :=
  getitem d (tl (columns d)).

(* ================================================================= *)
(** ** PandasDataSource                                               *)
(* ================================================================= *)

(** The five values [t0, t1, hi, lo, cnt] that [hilo] returns. *)
Record HiLo : Type := mkHiLo {
  t0 : num;
  t1 : num;
  hi : num;
  lo : num;
  cnt : nat
}.

Record PandasDataSource : Type := mkDS {
  df : DataFrame;
  skip_scale_colcnt : nat;
  cache_hilo_query : string;
  cache_hilo_answer : option HiLo
}.

Module DS.

(** [__init__(df)], for a frame with at least one row (on an empty frame
    the source raises [IndexError], from [t.iloc[0]] in [_pdtime2epoch]).
    The frame is taken with its time column already in epoch seconds,
    where [_pdtime2epoch] is the identity. *)
Definition __init__ (d : DataFrame) : PandasDataSource :=
  mkDS d 1 EmptyString None.

(** [period]: [IndexError] (here [None]) with fewer than two rows. *)
Definition period (s : PandasDataSource) : option num :=
  match rows (df s) with
  | r0 :: r1 :: _ => Some (Num.sub (time r1) (time r0))
  | _ => None
  end.

Definition addcols (s : PandasDataSource) (d : DataFrame) : PandasDataSource :=
  let newcols := drop_first_column d in
  mkDS (concat_axis1 (df s) newcols)
       (skip_scale_colcnt s) (cache_hilo_query s) (cache_hilo_answer s).

Definition set_skip_scale_colcnt (s : PandasDataSource) (k : nat) : PandasDataSource :=
  mkDS (df s) k (cache_hilo_query s) (cache_hilo_answer s).

(** [get_time]: the time [offset_from_end] rows before the last one. *)
Definition get_time (s : PandasDataSource) (offset_from_end : nat) (per : Q)
  : option num :=
  let n := List.length (rows (df s)) in
  let offset := if (n <=? offset_from_end)%nat then (n - 1)%nat else offset_from_end in
  match nth_error (rows (df s)) (n - 1 - offset) with
  | None => None
  | Some r =>
      let t := time r in
      if Qeq_bool per 0 then Some t
      else match period s with
           | Some p => Some (Num.add t (Num.mul (Fin per) p))
           | None => None
           end
  end.

Definition in_window (x0 x1 : num) (r : row) : bool :=
  Num.geb (time r) x0 && Num.leb (time r) x1.

Definition sentinel : HiLo := mkHiLo (Fin 0) (Fin 0) (Fin 0) (Fin 0) 0.

Definition _hilo (s : PandasDataSource) (x0 x1 : num) : HiLo :=
  let d := filter (in_window x0 x1) (rows (df s)) in
  match d with
  | [] => sentinel
  | first :: _ =>
      let t0 := time first in
      let t1 := time (last d first) in
      let valcols := skipn (skip_scale_colcnt s) (columns (df s)) in
      let scaled := get_indexer (columns (df s)) valcols in
      let hi := Num.nanmax (map (fun c => Num.nanmax (column d c)) scaled) in
      let lo := Num.nanmin (map (fun c => Num.nanmin (column d c)) scaled) in
      mkHiLo t0 t1 hi lo (List.length d)
  end.

(** ['%.9g,%.9g' % (x0, x1)] *)
Definition query_of (x0 x1 : num) : string :=
  (Fmt.fmt9g x0 ++ "," ++ Fmt.fmt9g x1)%string.

(** [hilo]: the answer together with the store as the call leaves it. *)
Definition hilo (s : PandasDataSource) (x0 x1 : num)
  : option HiLo * PandasDataSource :=
  let query := query_of x0 x1 in
  if negb (String.eqb query (cache_hilo_query s)) then
    let answer := _hilo s x0 x1 in
    (Some answer, mkDS (df s) (skip_scale_colcnt s) query (Some answer))
  else
    (cache_hilo_answer s, s).

(** [bear_rows] and [bull_rows]: [IndexError] (here [None]) when the
    frame has no column 1 or 2. *)
Definition is_bear (r : row) : bool := Num.gtb (cell r 1) (cell r 2).
Definition is_bull (r : row) : bool := Num.leb (cell r 1) (cell r 2).

Definition bear_rows (s : PandasDataSource) : option (list row) :=
  if (ncols (df s) <? 3)%nat then None
  else Some (filter is_bear (rows (df s))).

Definition bull_rows (s : PandasDataSource) : option (list row) :=
  if (ncols (df s) <? 3)%nat then None
  else Some (filter is_bull (rows (df s))).

End DS.

(* ================================================================= *)
(** ** FinViewBox: the viewport controller and the heavy-item gate    *)
(* ================================================================= *)

Record Point : Type := mkPoint {
  px : num;
  py : num
}.

(** [QRectF(topLeft, bottomRight)], kept by its corners. *)
Record QRectF : Type := mkRect {
  rect_left : num;
  rect_top : num;
  rect_right : num;
  rect_bottom : num
}.

Definition rect_of_points (p0 p1 : Point) : QRectF :=
  mkRect (px p0) (py p0) (px p1) (py p1).

Definition rect_width (r : QRectF) : num := Num.sub (rect_right r) (rect_left r).
Definition rect_height (r : QRectF) : num := Num.sub (rect_bottom r) (rect_top r).

Definition half : num := Fin (1 # 2).

Definition rect_center (r : QRectF) : Point :=
  mkPoint (Num.add (rect_left r) (Num.mul (rect_width r) half))
          (Num.add (rect_top r) (Num.mul (rect_height r) half)).

(** The state of a [FinViewBox].  [heavies] holds the visibility flag of
    each registered item, oldest first.  [targetRect], [wheelScaleFactor]
    and the four limits are the toolkit's state as the program uses it:
    [targetRect()] reads the target rectangle, [setLimits] stores limits,
    [setRange] moves the rectangle. *)
Record FinViewBox : Type := mkVB {
  datasrc : option PandasDataSource;
  auto_scale_y : bool;
  init_steps : nat;
  heavies : list bool;
  heavies_blind_cnt : Z;
  targetRect : QRectF;
  wheelScaleFactor : Q;
  xMin : option num;
  xMax : option num;
  yMin : option num;
  yMax : option num
}.

(** A wheel event: [ev.delta()] and [ev.pos()] already mapped through the
    inverse of the child group's transform, that is in data coordinates. *)
Record WheelEvent : Type := mkWheel {
  delta : Z;
  pos : Point
}.

(** How a call that can raise after it has changed the view box ends:
    it returns, or it raises, and either way it leaves a view box. *)
Inductive Outcome : Type :=
| Returns (vb : FinViewBox)
| Raises (vb : FinViewBox).

(** The view box a call returns; [None] when it raises. *)
Definition returned (o : Outcome) : option FinViewBox :=
  match o with
  | Returns vb => Some vb
  | Raises _ => None
  end.

Module VB.

Definition with_datasrc (vb : FinViewBox) (d : option PandasDataSource) : FinViewBox :=
  mkVB d (auto_scale_y vb) (init_steps vb) (heavies vb) (heavies_blind_cnt vb)
       (targetRect vb) (wheelScaleFactor vb) (xMin vb) (xMax vb) (yMin vb) (yMax vb).

Definition with_heavies (vb : FinViewBox) (h : list bool) (c : Z) : FinViewBox :=
  mkVB (datasrc vb) (auto_scale_y vb) (init_steps vb) h c
       (targetRect vb) (wheelScaleFactor vb) (xMin vb) (xMax vb) (yMin vb) (yMax vb).

Definition with_targetRect (vb : FinViewBox) (r : QRectF) : FinViewBox :=
  mkVB (datasrc vb) (auto_scale_y vb) (init_steps vb) (heavies vb)
       (heavies_blind_cnt vb) r (wheelScaleFactor vb)
       (xMin vb) (xMax vb) (yMin vb) (yMax vb).

(** Python's [min] and [max] of the list [[a, b]]: the first element,
    unless the second is strictly smaller (greater). *)
Definition py_min (a b : num) : num := if Num.ltb b a then b else a.
Definition py_max (a b : num) : num := if Num.gtb b a then b else a.

(** The limits of one axis applied to the range [mn, mx], as the
    toolkit's [setRange] does: a range wider than the limits is shrunk
    about its middle to their width, then a range that starts below the
    lower limit is shifted up to it, or else one that ends above the upper
    limit is shifted down to it. *)
Definition within_limits (lmn lmx : option num) (mn mx : num) : num * num :=
  let '(mn, mx) :=
    match lmn, lmx with
    | Some l, Some u =>
        let maxRng := Num.sub u l in
        let diff := Num.sub mx mn in
        if Num.gtb diff maxRng then
          let delta := Num.sub maxRng diff in
          (Num.sub mn (Num.mul delta half), Num.add mx (Num.mul delta half))
        else (mn, mx)
    | _, _ => (mn, mx)
    end in
  match lmn, lmx with
  | Some l, _ =>
      if Num.ltb mn l then (l, Num.add mx (Num.sub l mn))
      else match lmx with
           | Some u => if Num.gtb mx u then (Num.add mn (Num.sub u mx), u) else (mn, mx)
           | None => (mn, mx)
           end
  | None, Some u =>
      if Num.gtb mx u then (Num.add mn (Num.sub u mx), u) else (mn, mx)
  | None, None => (mn, mx)
  end.

(** The toolkit's [quantization_limit] of a range, [(mn+mx) * 1.5e-15],
    and its test for a range too narrow to hold some ten steps of double
    resolution, [mx-mn < 2*quantization_limit]. *)
Definition quantization_limit (mn mx : num) : num :=
  Num.mul (Num.add mn mx) (Fin (15 # 10000000000000000)).

Definition too_narrow (mn mx : num) : bool :=
  Num.ltb (Num.sub mx mn) (Num.mul (Fin 2) (quantization_limit mn mx)).

(** One axis of the toolkit's [setRange(rect, padding=0)], where the
    view shows [view_lo, view_hi] and the rectangle asks for [a, b]: the
    range is [min, max] of the two; an empty range ([min == max]) is
    widened by half the extent shown (by 0.5 if that is zero) on each side;
    a range too narrow is widened by its quantization limit on each side;
    a NaN bound raises (here [None]); the limits are applied last.  The
    padding is zero. *)
Definition set_axis (view_lo view_hi : num) (lmn lmx : option num) (a b : num)
  : option (num * num) :=
  let mn := py_min a b in
  let mx := py_max a b in
  let '(mn, mx) :=
    if Num.eqb mn mx then
      let dy := Num.sub view_hi view_lo in
      let dy := if Num.eqb dy (Fin 0) then Fin 1 else dy in
      (Num.sub mn (Num.mul dy half), Num.add mx (Num.mul dy half))
    else (mn, mx) in
  let '(mn, mx) :=
    if too_narrow mn mx then
      (Num.sub mn (quantization_limit mn mx), Num.add mx (quantization_limit mn mx))
    else (mn, mx) in
  if Num.is_nan mn || Num.is_nan mx then None
  else Some (within_limits lmn lmx mn mx).

(** The rectangle that [setRange(rect, padding=0)] makes the target:
    the X axis first, then the Y axis.  The view is taken to show its
    target rectangle (no locked aspect ratio). *)
Definition fit_rect (vb : FinViewBox) (r : QRectF) : option QRectF :=
  let tr := targetRect vb in
  match set_axis (rect_left tr) (rect_right tr) (xMin vb) (xMax vb)
                 (rect_left r) (rect_right r) with
  | None => None
  | Some (x0, x1) =>
      match set_axis (rect_top tr) (rect_bottom tr) (yMin vb) (yMax vb)
                     (rect_top r) (rect_bottom r) with
      | None => None
      | Some (y0, y1) => Some (mkRect x0 y0 x1 y1)
      end
  end.

(** The toolkit's [setRange(rect, padding=0)].  It raises ("Cannot set
    range") on a NaN range; the X range is set by then when the raise
    comes from Y. *)
Definition setRange (vb : FinViewBox) (r : QRectF) : Outcome :=
  let tr := targetRect vb in
  match set_axis (rect_left tr) (rect_right tr) (xMin vb) (xMax vb)
                 (rect_left r) (rect_right r) with
  | None => Raises vb
  | Some (x0, x1) =>
      match set_axis (rect_top tr) (rect_bottom tr) (yMin vb) (yMax vb)
                     (rect_top r) (rect_bottom r) with
      | None => Raises (with_targetRect vb (mkRect x0 (rect_top tr) x1 (rect_bottom tr)))
      | Some (y0, y1) => Returns (with_targetRect vb (mkRect x0 y0 x1 y1))
      end
  end.

(** [set_datasrc]; [None] when the call raises. *)
Definition set_datasrc (vb : FinViewBox) (d : option PandasDataSource)
  : option FinViewBox :=
  let vb := with_datasrc vb d in
  match d with
  | None => Some vb
  | Some s =>
      match DS.get_time s (init_steps vb) (- (1 # 2)),
            DS.get_time s 0 (1 # 2) with
      | Some x0, Some x1 =>
          match DS.hilo s x0 x1 with
          | (Some a, s') =>
              let vb := with_datasrc vb (Some s') in
              if (20 <=? cnt a)%nat then
                returned (setRange vb (rect_of_points (mkPoint (t0 a) (lo a))
                                                      (mkPoint (t1 a) (hi a))))
              else Some vb
          | (None, _) => None
          end
      | _, _ => None
      end
  end.

(** [__init__(win, init_steps)]: no data, nothing registered, and the
    toolkit's defaults for the rest. *)
Definition __init__ (init_steps : nat) : FinViewBox :=
  mkVB None true init_steps [] 50
       (mkRect (Fin 0) (Fin 0) (Fin 1) (Fin 1)) (- (1 # 8)) None None None None.

Definition add_heavy_item (vb : FinViewBox) : FinViewBox :=
  with_heavies vb (heavies vb ++ [false]) 50.

(** The loop of [_setRange]: every heavy item hidden. *)
Definition hide_heavies (vb : FinViewBox) : FinViewBox :=
  with_heavies vb (map (fun _ => false) (heavies vb)) (heavies_blind_cnt vb).

(** [_setRange].  A raise of [setRange] comes after the loop and before
    the counter is set: it leaves the items hidden and the counter as it
    was. *)
Definition _setRange (vb : FinViewBox) (x0 y0 x1 y1 : num) : Outcome :=
  let vb := hide_heavies vb in
  match setRange vb (rect_of_points (mkPoint x0 y0) (mkPoint x1 y1)) with
  | Raises vb => Raises vb
  | Returns vb => Returns (with_heavies vb (heavies vb) 2)
  end.

Definition show_heavies (vb : FinViewBox) : FinViewBox :=
  let vb := with_heavies vb (heavies vb) (heavies_blind_cnt vb - 1) in
  if negb (heavies_blind_cnt vb =? 0) then vb
  else with_heavies vb (map (fun _ => true) (heavies vb)) (heavies_blind_cnt vb).

(** [scaleRect]; [None] when the call raises. *)
Definition scaleRect (vb : FinViewBox) (vr : QRectF) (scale_fact : num)
           (center : option Point) : option FinViewBox :=
  match datasrc vb with
  | None => Some vb
  | Some s =>
      let center := match center with None => rect_center vr | Some c => c end in
      let x0 := Num.add (px center) (Num.mul (Num.sub (rect_left vr) (px center)) scale_fact) in
      let x1 := Num.add (px center) (Num.mul (Num.sub (rect_right vr) (px center)) scale_fact) in
      match DS.hilo s x0 x1 with
      | (Some a, s') =>
          let vb := with_datasrc vb (Some s') in
          if (cnt a <? 20)%nat then Some vb
          else
            match DS.period s' with
            | Some p =>
                let x0 := Num.sub (t0 a) (Num.mul p half) in
                let x1 := Num.add (t1 a) (Num.mul p half) in
                returned (_setRange vb x0 (lo a) x1 (hi a))
            | None => None
            end
      | (None, _) => None
      end
  end.

Definition linkedViewChanged (vb : FinViewBox) (view : option QRectF)
  : option FinViewBox :=
  let tr := targetRect vb in
  let vr := match view with Some r => r | None => tr end in
  scaleRect vb vr (Fin 1) None.

(** [set_y_range(ax, ymin, ymax)], on the view box of [ax]. *)
Definition set_y_range (vb : FinViewBox) (ymin ymax : num) : FinViewBox :=
  mkVB (datasrc vb) false (init_steps vb) (heavies vb) (heavies_blind_cnt vb)
       (targetRect vb) (wheelScaleFactor vb) (xMin vb) (xMax vb)
       (Some ymin) (Some ymax).

Section Wheel.

(** The float power [b ** e] of Python is not a rational function; the
    wheel handler is stated over an arbitrary one.  The ratio
    [(center.x()-vr.left())/vr.width()] is written twice in the source
    and computed once here. *)
Variable float_pow : Q -> Q -> num.

Definition wheelEvent (vb : FinViewBox) (ev : WheelEvent) : option FinViewBox :=
  let scale_fact := float_pow (102 # 100) (inject_Z (delta ev) * wheelScaleFactor vb) in
  let vr := targetRect vb in
  let center := pos ev in
  match Num.div (Num.sub (px center) (rect_left vr)) (rect_width vr) with
  | None => None
  | Some ratio =>
      let center :=
        if Num.ltb ratio (Fin (2 # 10)) then mkPoint (rect_left vr) (py center)
        else if Num.gtb ratio (Fin (8 # 10)) then mkPoint (rect_right vr) (py center)
        else center
      in
      scaleRect vb vr scale_fact (Some center)
  end.

End Wheel.

End VB.

(* ================================================================= *)
(** ** Vocabulary of the statements                                   *)
(* ================================================================= *)

(** [Interleave l1 l2 l]: [l] is [l1] and [l2] shuffled together, each in
    its own order; every element of [l] comes from exactly one of them. *)
Inductive Interleave {A : Type} : list A -> list A -> list A -> Prop :=
| Interleave_nil : Interleave [] [] []
| Interleave_left (x : A) (l1 l2 l : list A) :
    Interleave l1 l2 l -> Interleave (x :: l1) l2 (x :: l)
| Interleave_right (x : A) (l1 l2 l : list A) :
    Interleave l1 l2 l -> Interleave l1 (x :: l2) (x :: l).

(** Open and close of a row are numbers. *)
Definition priced (r : row) : Prop :=
  Num.is_nan (cell r 1) = false /\ Num.is_nan (cell r 2) = false.

Definition pricedb (r : row) : bool :=
  negb (Num.is_nan (cell r 1)) && negb (Num.is_nan (cell r 2)).

(** The cache of a store is sound when it is still empty, or holds an
    answer that counts no more rows than the table has.  Every store built
    by [__init__] and changed by [hilo], [addcols] and the column skip is. *)
Definition cache_sound (s : PandasDataSource) : Prop :=
  cache_hilo_query s = EmptyString \/
  exists a, cache_hilo_answer s = Some a /\ (cnt a <= List.length (rows (df s)))%nat.

(** A rectangle whose four edges are numbers. *)
Definition finite_rect (r : QRectF) : Prop :=
  Num.is_nan (rect_left r) = false /\ Num.is_nan (rect_top r) = false /\
  Num.is_nan (rect_right r) = false /\ Num.is_nan (rect_bottom r) = false.

(** A range the toolkit takes as it is asked: two numbers in order, and
    not too narrow. *)
Definition proper_range (mn mx : num) : Prop :=
  Num.lt mn mx /\ VB.too_narrow mn mx = false.

(** The range [mn, mx] lies within the limits of its axis: each limit is
    unset, or a number on the outer side of the range. *)
Definition fits (lmn lmx : option num) (mn mx : num) : Prop :=
  match lmn with None => True | Some l => Num.le l mn end /\
  match lmx with None => True | Some u => Num.le mx u end.

(** The view box with its [auto_scale_y] flag set to [b]. *)
Definition with_auto_scale_y (vb : FinViewBox) (b : bool) : FinViewBox :=
  mkVB (datasrc vb) b (init_steps vb) (heavies vb) (heavies_blind_cnt vb)
       (targetRect vb) (wheelScaleFactor vb)
       (xMin vb) (xMax vb) (yMin vb) (yMax vb).

(** [n] timer ticks. *)
Fixpoint ticks (n : nat) (vb : FinViewBox) : FinViewBox :=
  match n with
  | O => vb
  | S k => ticks k (VB.show_heavies vb)
  end.

(** The number of ticks, among the next [n], that reveal the items: a tick
    reveals when it brings the counter to zero. *)
Fixpoint reveals (n : nat) (vb : FinViewBox) : nat :=
  match n with
  | O => O
  | S k =>
      let vb' := VB.show_heavies vb in
      ((if (heavies_blind_cnt vb' =? 0)%Z then 1 else 0) + reveals k vb')%nat
  end.

Definition all_hidden (vb : FinViewBox) : Prop := Forall (fun v => v = false) (heavies vb).
Definition all_visible (vb : FinViewBox) : Prop := Forall (fun v => v = true) (heavies vb).

(** The cursor of a wheel event at the fraction [f] of the width of the
    target rectangle, counted from its left edge, at height [y]. *)
Definition cursor_at (vb : FinViewBox) (f : Q) (y : num) : Point :=
  let vr := targetRect vb in
  mkPoint (Num.add (rect_left vr) (Num.mul (Fin f) (rect_width vr))) y.

(** What the wheel handler comes to once the abscissa [x] of the zoom
    center is settled: [scaleRect] around it, unless the width is zero and
    the division raises. *)
Definition wheel_around (float_pow : Q -> Q -> num) (vb : FinViewBox) (d : Z)
           (x : num) : option FinViewBox :=
  let vr := targetRect vb in
  let scale_fact := float_pow (102 # 100) (inject_Z d * wheelScaleFactor vb)%Q in
  match Num.div (Fin 0) (rect_width vr) with
  | None => None
  | Some _ => VB.scaleRect vb vr scale_fact (Some (mkPoint x (Fin 0)))
  end.

(* ================================================================= *)
(** ** Sample data                                                    *)
(* ================================================================= *)

Module Sample.

(** Twenty-five rows, one a minute from time 0: [time, y] with
    [y = 10 + i] on row [i]. *)
Definition line_row (i : nat) : row :=
  [Num.of_Z (60 * Z.of_nat i); Num.of_Z (10 + Z.of_nat i)].

Definition line_df : DataFrame :=
  mkDF ["time"; "y"]%string (map line_row (seq 0 25)).

Definition line_store : PandasDataSource := DS.__init__ line_df.

(** Four candles a second apart near epoch 1e9:
    [time, open, close, high, low]. *)
Definition ohlc_labels : list string :=
  ["time"; "open"; "close"; "high"; "low"]%string.

Definition candles_df : DataFrame :=
  mkDF ohlc_labels [ [Fin 1000000000; Fin 5; Fin 7; Fin 8; Fin 4];
           [Fin 1000000001; Fin 7; Fin 6; Fin 9; Fin 5];
           [Fin 1000000002; Fin 6; Fin 6; Fin 7; Fin 3];
           [Fin 1000000003; Fin 6; Fin 2; Fin 6; Fin 1] ].

Definition candles_store : PandasDataSource :=
  DS.set_skip_scale_colcnt (DS.__init__ candles_df) 3.

(** A frame whose second candle has no open price. *)
Definition gap_df : DataFrame :=
  mkDF ohlc_labels [ [Fin 0; Fin 5; Fin 7; Fin 8; Fin 4];
           [Fin 60; NaN; Fin 6; Fin 9; Fin 5];
           [Fin 120; Fin 6; Fin 3; Fin 7; Fin 3] ].

Definition gap_store : PandasDataSource := DS.__init__ gap_df.

(** One more column for [line_df]: [time, z] with [z = 1000] throughout. *)
Definition extra_df : DataFrame :=
  mkDF ["time"; "z"]%string
       (map (fun i => [Num.of_Z (60 * Z.of_nat i); Fin 1000]) (seq 0 25)).

(** The minute rows with a constant value: [y = 5] on every row. *)
Definition flat_df : DataFrame :=
  mkDF ["time"; "y"]%string
       (map (fun i => [Num.of_Z (60 * Z.of_nat i); Fin 5]) (seq 0 25)).

Definition flat_store : PandasDataSource := DS.__init__ flat_df.



(** A view box bound to [line_store]. *)
Definition line_vb : FinViewBox :=
  match VB.set_datasrc (VB.__init__ 300) (Some line_store) with
  | Some vb => vb
  | None => VB.__init__ 300
  end.

(** The same with two heavy items registered. *)
Definition heavy_vb : FinViewBox :=
  VB.add_heavy_item (VB.add_heavy_item line_vb).


(** View boxes bound to [flat_store] and to [late_store]. *)
Definition flat_vb : FinViewBox :=
  match VB.set_datasrc (VB.__init__ 300) (Some flat_store) with
  | Some vb => vb
  | None => VB.__init__ 300
  end.


End Sample.

(* ================================================================= *)
(** ** The rest of the module: epoch conversion, painters, updates    *)
(* ================================================================= *)

(** A time column as [PandasDataSource.__init__] may receive it: pandas
    Timestamps (nanoseconds since the epoch, an int64) or plain numbers. *)
Inductive Series : Type :=
| TimestampSeries (ns : list Z)
| NumberSeries (l : list num).

(** [_pdtime2epoch(t)]: [t.iloc[0]] raises [IndexError] (here [None]) on an
    empty series; Timestamps become whole seconds by floor division of the
    int64 nanoseconds by [int(1e9)]; anything else is returned as it is. *)
Definition _pdtime2epoch (t : Series) : option Series :=
  match t with
  | TimestampSeries [] => None
  | NumberSeries [] => None
  | TimestampSeries ns => Some (NumberSeries (map (fun z => Num.of_Z (z / 10 ^ 9)) ns))
  | NumberSeries l => Some (NumberSeries l)
  end.

(** [PandasDataSource(df)] on a frame whose time column holds numbers:
    [IndexError] (here [None]) on a frame without rows, from
    [_pdtime2epoch]; the store of [__init__] otherwise. *)
Definition construct (d : DataFrame) : option PandasDataSource :=
  match _pdtime2epoch (NumberSeries (column (rows d) 0)) with
  | None => None
  | Some _ => Some (DS.__init__ d)
  end.

(** The calls a painter makes on its [QPainter], in order. *)
Inductive PaintOp : Type :=
| setPen (color : string)
| setBrush (color : string)
| drawLine (x1 y1 x2 y2 : num)
| drawRect (x y w h : num).

Module Paint.

(** The body of a [for] loop over the rows of [bear_rows()] or
    [bull_rows()]: [None] as soon as one row fails to unpack. *)
Fixpoint for_rows (body : row -> option (list PaintOp)) (rs : list row)
  : option (list PaintOp) :=
  match rs with
  | [] => Some []
  | r :: rs' =>
      match body r with
      | None => None
      | Some ops =>
          match for_rows body rs' with
          | None => None
          | Some rest => Some (ops ++ rest)
          end
      end
  end.

(** [for t,open,close,high,low in ...]: [ValueError] (here [None]) unless
    the row has exactly five cells. *)
Definition candle (w : num) (r : row) : option (list PaintOp) :=
  match r with
  | [t; open; close; high; low] =>
      Some [ drawLine t low t high;
             drawRect (Num.sub t w) open (Num.mul w (Fin 2)) (Num.sub close open) ]
  | _ => None
  end.

(** [for t,open,close,volume in ...]: exactly four cells. *)
Definition bar (w : num) (r : row) : option (list PaintOp) :=
  match r with
  | [t; open; close; volume] => Some [ drawRect (Num.sub t w) (Fin 0) w volume ]
  | _ => None
  end.

(** The common shape of the two [generatePicture] methods: the width from
    the period, then the bearish rows in the bear colour, then the bullish
    rows in the bull colour.  [None] when the method raises. *)
Definition generatePicture (width : num -> num) (body : num -> row -> option (list PaintOp))
           (s : PandasDataSource) (bull_color bear_color : string)
  : option (list PaintOp) :=
  match DS.period s with
  | None => None
  | Some p =>
      let w := width p in
      match DS.bear_rows s with
      | None => None
      | Some bears =>
          match for_rows (body w) bears with
          | None => None
          | Some bear_ops =>
              match DS.bull_rows s with
              | None => None
              | Some bulls =>
                  match for_rows (body w) bulls with
                  | None => None
                  | Some bull_ops =>
                      Some ([setPen bear_color; setBrush bear_color] ++ bear_ops
                            ++ [setPen bull_color; setBrush bull_color] ++ bull_ops)
                  end
              end
          end
      end
  end.

(** [CandlestickItem.generatePicture]: [w = period / 3]. *)
Definition candlestick (s : PandasDataSource) (bull_color bear_color : string)
  : option (list PaintOp) :=
  generatePicture (fun p => Num.lift2 Qdiv p (Fin 3)) candle s bull_color bear_color.

(** [VolumeItem.generatePicture]: [w = period * 0.7]. *)
Definition volume (s : PandasDataSource) (bull_color bear_color : string)
  : option (list PaintOp) :=
  generatePicture (fun p => Num.mul p (Fin (7 # 10))) bar s bull_color bear_color.

End Paint.

(** [ax.setLimits(xMin=x0, xMax=x1)], on the view box of [ax]. *)
Definition set_x_limits (vb : FinViewBox) (x0 x1 : num) : FinViewBox :=
  mkVB (datasrc vb) (auto_scale_y vb) (init_steps vb) (heavies vb)
       (heavies_blind_cnt vb) (targetRect vb) (wheelScaleFactor vb)
       (Some x0) (Some x1) (yMin vb) (yMax vb).

(** The offset [1e20] of [update_datasrc]. *)
Definition far_offset : nat := Nat.pow 10 20.

(** [update_datasrc(ax, datasrc)], on the view box of [ax]; [None] when
    the call raises.  The first source becomes the view box's store; a
    later one is merged into it. *)
Definition update_datasrc (viewbox : FinViewBox) (src : PandasDataSource)
  : option FinViewBox :=
  match datasrc viewbox with
  | None =>
      match VB.set_datasrc viewbox (Some src) with
      | None => None
      | Some viewbox' =>
          match DS.get_time src far_offset (- (1 # 2)), DS.get_time src 0 (1 # 2) with
          | Some x0, Some x1 => Some (set_x_limits viewbox' x0 x1)
          | _, _ => None
          end
      end
  | Some own =>
      let own := DS.addcols own (df src) in
      let own := DS.set_skip_scale_colcnt own
                   (Nat.max (skip_scale_colcnt own) (skip_scale_colcnt src)) in
      VB.set_datasrc viewbox (Some own)
  end.

(** What can happen to a view box, and a run of such events from the
    state [__init__] leaves. *)
Inductive VBEvent : Type :=
| Tick
| AddHeavyItem
| SetDatasrc (d : option PandasDataSource)
| Wheel (ev : WheelEvent)
| LinkedViewChanged (view : option QRectF)
| ScaleRect (vr : QRectF) (scale_fact : num) (center : option Point)
| SetYRange (ymin ymax : num).

Definition vb_event (float_pow : Q -> Q -> num) (e : VBEvent) (v : FinViewBox)
  : option FinViewBox :=
  match e with
  | Tick => Some (VB.show_heavies v)
  | AddHeavyItem => Some (VB.add_heavy_item v)
  | SetDatasrc d => VB.set_datasrc v d
  | Wheel ev => VB.wheelEvent float_pow v ev
  | LinkedViewChanged view => VB.linkedViewChanged v view
  | ScaleRect vr scale_fact center => VB.scaleRect v vr scale_fact center
  | SetYRange ymin ymax => Some (VB.set_y_range v ymin ymax)
  end.

Fixpoint vb_run (float_pow : Q -> Q -> num) (es : list VBEvent) (v : FinViewBox)
  : option FinViewBox :=
  match es with
  | [] => Some v
  | e :: es' =>
      match vb_event float_pow e v with
      | None => None
      | Some v' => vb_run float_pow es' v'
      end
  end.

(** Stores as the module's own calls build them. *)
Inductive built : PandasDataSource -> Prop :=
| built_init (d : DataFrame) : built (DS.__init__ d)
| built_hilo (s : PandasDataSource) (x0 x1 : num) :
    built s -> built (snd (DS.hilo s x0 x1))
| built_addcols (s : PandasDataSource) (d : DataFrame) :
    built s -> built (DS.addcols s d)
| built_skip (s : PandasDataSource) (k : nat) :
    built s -> built (DS.set_skip_scale_colcnt s k).

(** Floats equal as numbers: NaN with NaN, rationals by value. *)
Definition num_eq (a b : num) : Prop :=
  match a, b with
  | NaN, NaN => True
  | Fin x, Fin y => (x == y)%Q
  | _, _ => False
  end.

(** A frame is rectangular: it has a time column and every row has one
    cell per column. *)
Definition rectangular (d : DataFrame) : Prop :=
  (1 <= ncols d)%nat /\ Forall (fun r => List.length r = ncols d) (rows d).

(** Rows in time order. *)
Definition time_sorted (rs : list row) : Prop :=
  StronglySorted (fun a b => Num.le (time a) (time b)) rs.

(** The wicks and the bodies (or bars) among the calls of a picture, and
    the heights of its rectangles. *)
Definition is_line (op : PaintOp) : bool :=
  match op with drawLine _ _ _ _ => true | _ => false end.

Definition is_rect (op : PaintOp) : bool :=
  match op with drawRect _ _ _ _ => true | _ => false end.

Definition rect_heights (ops : list PaintOp) : list num :=
  flat_map (fun op => match op with drawRect _ _ _ h => [h] | _ => [] end) ops.

Definition series_length (t : Series) : nat :=
  match t with
  | TimestampSeries ns => List.length ns
  | NumberSeries l => List.length l
  end.

(** [time_sorted], decided. *)
Fixpoint time_sortedb (rs : list row) : bool :=
  match rs with
  | [] => true
  | a :: l => forallb (fun b => Num.leb (time a) (time b)) l && time_sortedb l
  end.


(** The columns [_hilo] scales over, [df[df.columns[skip:]]]: every column
    that carries the label of a column from [skip_scale_colcnt] on. *)
Definition scaled_column (s : PandasDataSource) (k : nat) : Prop :=
  (k < ncols (df s))%nat /\
  exists j, (skip_scale_colcnt s <= j < ncols (df s))%nat /\
            nth j (columns (df s)) EmptyString = nth k (columns (df s)) EmptyString.

(** The cells [_hilo] scales over: the cells of the rows in the window, in
    the scaled columns. *)
Definition scaled_cell (s : PandasDataSource) (x0 x1 : num) (c : num) : Prop :=
  exists r k, In r (rows (df s)) /\ DS.in_window x0 x1 r = true /\
              scaled_column s k /\ c = cell r k.

Module Demo.

(** Five candles a minute apart, [time, open, close, high, low], and
    their volumes, [time, open, close, volume]. *)
Definition ohlc_df : DataFrame :=
  mkDF Sample.ohlc_labels [ [Fin 0; Fin 5; Fin 7; Fin 8; Fin 4];
           [Fin 60; Fin 7; Fin 6; Fin 9; Fin 5];
           [Fin 120; Fin 6; Fin 6; Fin 7; Fin 3];
           [Fin 180; Fin 6; Fin 2; Fin 6; Fin 1];
           [Fin 240; Fin 2; Fin 3; Fin 4; Fin 2] ].

Definition ohlc_store : PandasDataSource :=
  DS.set_skip_scale_colcnt (DS.__init__ ohlc_df) 3.

Definition volume_df : DataFrame :=
  mkDF ["time"; "open"; "close"; "volume"]%string [ [Fin 0; Fin 5; Fin 7; Fin 100];
           [Fin 60; Fin 7; Fin 6; Fin 250];
           [Fin 120; Fin 6; Fin 6; Fin 80] ].

Definition volume_store : PandasDataSource :=
  DS.set_skip_scale_colcnt (DS.__init__ volume_df) 3.

(** A line over the same three minutes, labelled like the open column:
    [time, open] with the value 1000 throughout. *)
Definition open_line_df : DataFrame :=
  mkDF ["time"; "open"]%string
       [ [Fin 0; Fin 1000]; [Fin 60; Fin 1000]; [Fin 120; Fin 1000] ].

(** Twenty-five minute rows of NaN. *)
Definition blank_store : PandasDataSource :=
  DS.__init__ (mkDF ["time"; "y"]%string
                    (map (fun i => [Num.of_Z (60 * Z.of_nat i); NaN]) (seq 0 25))).

(** A single row: no period. *)
Definition single_store : PandasDataSource :=
  DS.__init__ (mkDF ["time"; "y"]%string [ [Fin 0; Fin 1] ]).

(** Nothing bound yet. *)
Definition fresh_ax : FinViewBox := VB.__init__ 300.

End Demo.

(* ================================================================= *)
(** ** Comparisons on floats                                          *)
(* ================================================================= *)

Lemma leb_le (a b : num) : Num.leb a b = true <-> Num.le a b.
Proof.
  destruct a as [|x], b as [|y]; simpl; try (split; [discriminate | tauto]).
  apply Qle_bool_iff.
Qed.

Lemma ltb_lt (a b : num) : Num.ltb a b = true <-> Num.lt a b.
Proof.
  destruct a as [|x], b as [|y]; simpl; try (split; [discriminate | tauto]).
  rewrite negb_true_iff. split.
  - intros H. apply Qnot_le_lt. intros Hle.
    apply Qle_bool_iff in Hle. congruence.
  - intros H. destruct (Qle_bool y x) eqn:E; [|reflexivity].
    apply Qle_bool_iff in E. exfalso. exact (Qlt_not_le _ _ H E).
Qed.

Lemma le_trans (a b c : num) : Num.le a b -> Num.le b c -> Num.le a c.
Proof.
  destruct a, b, c; simpl; try tauto. apply Qle_trans.
Qed.

Lemma lt_not_le (a b : num) : Num.lt a b -> ~ Num.le b a.
Proof.
  destruct a, b; simpl; try tauto. apply Qlt_not_le.
Qed.

(** A strict order and its converse non-strict order never hold together,
    NaN or not. *)
Lemma gtb_leb_exclusive (a b : num) : Num.gtb a b && Num.leb a b = false.
Proof.
  destruct (Num.gtb a b) eqn:G; [|reflexivity].
  destruct (Num.leb a b) eqn:L; [|reflexivity].
  unfold Num.gtb in G. apply ltb_lt in G. apply leb_le in L.
  destruct (lt_not_le _ _ G L).
Qed.

(** On numbers (no NaN) one of the two holds. *)
Lemma gtb_leb_total (a b : num) :
  Num.is_nan a = false -> Num.is_nan b = false ->
  Num.gtb a b = negb (Num.leb a b).
Proof.
  destruct a, b; simpl; try discriminate. reflexivity.
Qed.

(* ================================================================= *)
(** ** The window filter and the range query                          *)
(* ================================================================= *)

Lemma in_window_spec (x0 x1 : num) (r : row) :
  DS.in_window x0 x1 r = true <-> Num.le x0 (time r) /\ Num.le (time r) x1.
Proof.
  unfold DS.in_window, Num.geb. rewrite andb_true_iff, !leb_le. tauto.
Qed.

Lemma filter_nil_iff {A : Type} (f : A -> bool) (l : list A) :
  filter f l = [] <-> forall x, In x l -> f x = false.
Proof.
  induction l as [|a l IH]; simpl.
  - split; [intros _ x [] | reflexivity].
  - destruct (f a) eqn:E; split.
    + discriminate.
    + intros H. specialize (H a (or_introl eq_refl)). congruence.
    + intros H x [<- | Hx]; [assumption | now apply IH].
    + intros H. apply IH. intros x Hx. apply H. now right.
Qed.

(** The uncached query answers the sentinel exactly when the window holds
    no row. *)
Lemma _hilo_sentinel_iff (s : PandasDataSource) (x0 x1 : num) :
  DS._hilo s x0 x1 = DS.sentinel <->
  filter (DS.in_window x0 x1) (rows (df s)) = [].
Proof.
  unfold DS._hilo.
  destruct (filter (DS.in_window x0 x1) (rows (df s))) as [|r d]; split;
    try reflexivity; discriminate.
Qed.

Lemma _hilo_cnt (s : PandasDataSource) (x0 x1 : num) :
  cnt (DS._hilo s x0 x1) = List.length (filter (DS.in_window x0 x1) (rows (df s))).
Proof.
  unfold DS._hilo.
  destruct (filter (DS.in_window x0 x1) (rows (df s))); reflexivity.
Qed.

Lemma empty_window_filter (s : PandasDataSource) (x0 x1 : num) :
  (forall r, In r (rows (df s)) -> ~ (Num.le x0 (time r) /\ Num.le (time r) x1)) <->
  filter (DS.in_window x0 x1) (rows (df s)) = [].
Proof.
  rewrite filter_nil_iff. split; intros H r Hr.
  - destruct (DS.in_window x0 x1 r) eqn:E; [|reflexivity].
    apply in_window_spec in E. destruct (H r Hr E).
  - intros Hin. apply in_window_spec in Hin. rewrite (H r Hr) in Hin. discriminate.
Qed.

Lemma reversed_window_filter (s : PandasDataSource) (x0 x1 : num) :
  Num.lt x1 x0 -> filter (DS.in_window x0 x1) (rows (df s)) = [].
Proof.
  intros Hlt. apply empty_window_filter. intros r _ [H0 H1].
  exact (lt_not_le _ _ Hlt (le_trans _ _ _ H0 H1)).
Qed.

(* ================================================================= *)
(** ** The single-entry cache                                         *)
(* ================================================================= *)

Lemma query_of_not_empty (x0 x1 : num) : DS.query_of x0 x1 <> EmptyString.
Proof.
  unfold DS.query_of. destruct (Fmt.fmt9g x0); discriminate.
Qed.

Lemma hilo_miss (s : PandasDataSource) (x0 x1 : num) :
  DS.query_of x0 x1 <> cache_hilo_query s ->
  DS.hilo s x0 x1 =
  (Some (DS._hilo s x0 x1),
   mkDS (df s) (skip_scale_colcnt s) (DS.query_of x0 x1) (Some (DS._hilo s x0 x1))).
Proof.
  intros H. unfold DS.hilo.
  destruct (String.eqb_spec (DS.query_of x0 x1) (cache_hilo_query s)) as [E|E];
    [contradiction | reflexivity].
Qed.

Lemma hilo_hit (s : PandasDataSource) (x0 x1 : num) :
  DS.query_of x0 x1 = cache_hilo_query s ->
  DS.hilo s x0 x1 = (cache_hilo_answer s, s).
Proof.
  intros H. unfold DS.hilo. rewrite H, String.eqb_refl. reflexivity.
Qed.

(** A call leaves the table and the column skip as they were, and leaves
    the key of its window in the cache. *)
Lemma hilo_df (s : PandasDataSource) (x0 x1 : num) :
  df (snd (DS.hilo s x0 x1)) = df s /\
  skip_scale_colcnt (snd (DS.hilo s x0 x1)) = skip_scale_colcnt s /\
  cache_hilo_query (snd (DS.hilo s x0 x1)) = DS.query_of x0 x1.
Proof.
  unfold DS.hilo.
  destruct (String.eqb_spec (DS.query_of x0 x1) (cache_hilo_query s)) as [E|E];
    simpl; auto.
Qed.

(** The uncached query reads the table and the column skip only. *)
Lemma _hilo_ext (s s' : PandasDataSource) (x0 x1 : num) :
  df s' = df s -> skip_scale_colcnt s' = skip_scale_colcnt s ->
  DS._hilo s' x0 x1 = DS._hilo s x0 x1.
Proof.
  intros Hd Hk. unfold DS._hilo. rewrite Hd, Hk. reflexivity.
Qed.

(* ================================================================= *)
(** ** Range queries over empty and reversed windows                  *)
(* ================================================================= *)

(** C9, as stated for [hilo], fails on a cache hit: the key keeps nine
    significant digits.  Once the cache holds the answer for the window
    (1000000000, 1000000003), four rows, the window (1000000004, 1000000005)
    holds no row, has the same key "1e+09,1e+09", and is served the four
    rows. *)
Lemma hilo_empty_window_counterexample :
  let s := snd (DS.hilo Sample.candles_store (Fin 1000000000) (Fin 1000000003)) in
  rows (df s) = rows Sample.candles_df /\
  (forall r, In r (rows (df s)) ->
             ~ (Num.le (Fin 1000000004) (time r) /\ Num.le (time r) (Fin 1000000005))) /\
  DS.query_of (Fin 1000000004) (Fin 1000000005) = "1e+09,1e+09"%string /\
  cache_hilo_query s = "1e+09,1e+09"%string /\
  option_map cnt (fst (DS.hilo s (Fin 1000000004) (Fin 1000000005))) = Some 4%nat /\
  fst (DS.hilo s (Fin 1000000004) (Fin 1000000005))
    <> Some (mkHiLo (Fin 0) (Fin 0) (Fin 0) (Fin 0) 0).
Proof.
  cbv zeta.
  split; [vm_compute; reflexivity|].
  split; [apply empty_window_filter; vm_compute; reflexivity|].
  split; [vm_compute; reflexivity|].
  split; [vm_compute; reflexivity|].
  split; [vm_compute; reflexivity|].
  vm_compute. discriminate.
Qed.

(** C9, amended.  When no row's time lies in [x0, x1] the range
    computation [_hilo] returns the sentinel: count 0 and t0, t1, hi, lo all
    zero.  [_hilo] is total, so nothing is raised.  [hilo] returns that
    answer whenever the key of the window is not the one in the cache. *)
Theorem hilo_empty_window (s : PandasDataSource) (x0 x1 : num) :
  (forall r, In r (rows (df s)) -> ~ (Num.le x0 (time r) /\ Num.le (time r) x1)) ->
  DS._hilo s x0 x1 = mkHiLo (Fin 0) (Fin 0) (Fin 0) (Fin 0) 0 /\
  (DS.query_of x0 x1 <> cache_hilo_query s ->
   fst (DS.hilo s x0 x1) = Some (mkHiLo (Fin 0) (Fin 0) (Fin 0) (Fin 0) 0)).
Proof.
  intros Hempty.
  assert (E : DS._hilo s x0 x1 = DS.sentinel).
  { apply _hilo_sentinel_iff, empty_window_filter, Hempty. }
  split; [exact E|].
  intros Hmiss. rewrite (hilo_miss _ _ _ Hmiss). simpl. now rewrite E.
Qed.

Lemma hilo_empty_window_witness :
  DS._hilo Sample.line_store (Fin 2000) (Fin 3000)
    = mkHiLo (Fin 0) (Fin 0) (Fin 0) (Fin 0) 0 /\
  (DS.query_of (Fin 2000) (Fin 3000) <> cache_hilo_query Sample.line_store ->
   fst (DS.hilo Sample.line_store (Fin 2000) (Fin 3000))
     = Some (mkHiLo (Fin 0) (Fin 0) (Fin 0) (Fin 0) 0)).
Proof.
  apply (hilo_empty_window Sample.line_store (Fin 2000) (Fin 3000)).
  apply empty_window_filter. vm_compute. reflexivity.
Defined.

(** C2, as stated, fails: the bounds are not put in order.  On the
    twenty-five minute rows the window (1440, 0) gets the sentinel while
    (0, 1440) gets all rows. *)
Lemma hilo_reversed_window_counterexample :
  Num.lt (Fin 0) (Fin 1440) /\
  DS._hilo Sample.line_store (Fin 1440) (Fin 0)
    <> DS._hilo Sample.line_store (Fin 0) (Fin 1440) /\
  fst (DS.hilo Sample.line_store (Fin 1440) (Fin 0))
    <> fst (DS.hilo Sample.line_store (Fin 0) (Fin 1440)).
Proof.
  split; [reflexivity|]. split; vm_compute; discriminate.
Qed.

(** C2, amended.  For a window with x0 > x1 the range computation returns
    the zero-count sentinel, whatever the table holds; it agrees with the
    answer for the ordered window (x1, x0) exactly when no row's time lies
    in [x1, x0]. *)
Theorem hilo_reversed_window (s : PandasDataSource) (x0 x1 : num) :
  Num.lt x1 x0 ->
  DS._hilo s x0 x1 = mkHiLo (Fin 0) (Fin 0) (Fin 0) (Fin 0) 0 /\
  (DS._hilo s x0 x1 = DS._hilo s x1 x0 <->
   forall r, In r (rows (df s)) -> ~ (Num.le x1 (time r) /\ Num.le (time r) x0)).
Proof.
  intros Hlt.
  assert (E : DS._hilo s x0 x1 = DS.sentinel).
  { apply _hilo_sentinel_iff, reversed_window_filter, Hlt. }
  split; [exact E|].
  rewrite E, empty_window_filter, <- _hilo_sentinel_iff.
  split; intros H; symmetry; exact H.
Qed.

Lemma hilo_reversed_window_witness :
  DS._hilo Sample.line_store (Fin 1440) (Fin 0)
    = mkHiLo (Fin 0) (Fin 0) (Fin 0) (Fin 0) 0 /\
  (DS._hilo Sample.line_store (Fin 1440) (Fin 0)
     = DS._hilo Sample.line_store (Fin 0) (Fin 1440) <->
   forall r, In r (rows (df Sample.line_store)) ->
             ~ (Num.le (Fin 0) (time r) /\ Num.le (time r) (Fin 1440))).
Proof.
  apply (hilo_reversed_window Sample.line_store (Fin 1440) (Fin 0)).
  reflexivity.
Defined.

(* ================================================================= *)
(** ** Bearish and bullish rows                                       *)
(* ================================================================= *)

Section InterleaveFacts.

Context {A : Type}.

Lemma Interleave_filter (f g : A -> bool) (l : list A) :
  Forall (fun x => f x = negb (g x)) l ->
  Interleave (filter f l) (filter g l) l.
Proof.
  induction 1 as [|x l Hx _ IH]; simpl.
  - constructor.
  - rewrite Hx. destruct (g x); simpl; now constructor.
Qed.

Lemma Interleave_length (l1 l2 l : list A) :
  Interleave l1 l2 l -> (List.length l1 + List.length l2 = List.length l)%nat.
Proof.
  induction 1; simpl; lia.
Qed.

Lemma Interleave_In (l1 l2 l : list A) :
  Interleave l1 l2 l -> forall x, In x l <-> In x l1 \/ In x l2.
Proof.
  induction 1 as [|y l1 l2 l _ IH|y l1 l2 l _ IH]; intros x; simpl.
  - tauto.
  - rewrite IH. tauto.
  - rewrite IH. tauto.
Qed.

End InterleaveFacts.

Lemma bear_bull_exclusive (r : row) : DS.is_bear r = true -> DS.is_bull r = true -> False.
Proof.
  unfold DS.is_bear, DS.is_bull. intros Hb Hu.
  pose proof (gtb_leb_exclusive (cell r 1) (cell r 2)) as H.
  rewrite Hb, Hu in H. discriminate.
Qed.

Lemma priced_bear_or_bull (r : row) : priced r -> DS.is_bear r = negb (DS.is_bull r).
Proof.
  intros [H1 H2]. now apply gtb_leb_total.
Qed.

(** C8, as stated, fails on a row whose open is NaN: both comparisons are
    false on it, it is in neither partition and the sizes add up to two of
    three rows. *)
Lemma bear_bull_partition_counterexample :
  let gap := [Fin 60; NaN; Fin 6; Fin 9; Fin 5] in
  let bear := [ [Fin 120; Fin 6; Fin 3; Fin 7; Fin 3] ] in
  let bull := [ [Fin 0; Fin 5; Fin 7; Fin 8; Fin 4] ] in
  In gap (rows (df Sample.gap_store)) /\
  DS.bear_rows Sample.gap_store = Some bear /\
  DS.bull_rows Sample.gap_store = Some bull /\
  ~ In gap bear /\
  ~ In gap bull /\
  (List.length bear + List.length bull <> List.length (rows (df Sample.gap_store)))%nat.
Proof.
  cbv zeta.
  split; [right; left; reflexivity|].
  split; [reflexivity|].
  split; [reflexivity|].
  split; [intros [H | []]; discriminate H|].
  split; [intros [H | []]; discriminate H|].
  simpl. lia.
Qed.

Lemma pricedb_priced (r : row) : pricedb r = true <-> priced r.
Proof.
  unfold pricedb, priced.
  destruct (Num.is_nan (cell r 1)), (Num.is_nan (cell r 2)); simpl;
    split; intros H; try discriminate; try (destruct H; discriminate);
    auto.
Qed.

Lemma bear_priced (r : row) : DS.is_bear r = true -> priced r.
Proof.
  unfold DS.is_bear, priced, Num.gtb, Num.ltb.
  destruct (cell r 1), (cell r 2); simpl; intros H; try discriminate; auto.
Qed.

Lemma bull_priced (r : row) : DS.is_bull r = true -> priced r.
Proof.
  unfold DS.is_bull, priced, Num.leb.
  destruct (cell r 1), (cell r 2); simpl; intros H; try discriminate; auto.
Qed.

Lemma Interleave_bear_bull (l : list row) :
  Interleave (filter DS.is_bear l) (filter DS.is_bull l) (filter pricedb l).
Proof.
  induction l as [|x l IH]; simpl.
  - constructor.
  - destruct (pricedb x) eqn:Hp.
    + apply pricedb_priced in Hp. rewrite (priced_bear_or_bull x Hp).
      destruct (DS.is_bull x); simpl; now constructor.
    + destruct (DS.is_bear x) eqn:Hb.
      { apply bear_priced, pricedb_priced in Hb. congruence. }
      destruct (DS.is_bull x) eqn:Hu.
      { apply bull_priced, pricedb_priced in Hu. congruence. }
      exact IH.
Qed.

Lemma filter_pricedb_all (l : list row) : Forall priced l -> filter pricedb l = l.
Proof.
  induction 1 as [|x l Hx _ IH]; simpl.
  - reflexivity.
  - apply pricedb_priced in Hx. rewrite Hx, IH. reflexivity.
Qed.

(** C8, amended.  On every dataset with an open and a close column, the
    bearish rows (open > close) and the bullish rows (open <= close) are
    disjoint and each keeps the order of the table: together they are the
    rows whose open and close are numbers, shuffled back in table order.
    A row whose open and close are numbers is in exactly one of them; a row
    whose open or close is NaN is in neither.  The two sizes add up to the
    number of rows whose open and close are numbers, which is the number of
    rows when the table has no NaN in these columns.  All-bearish and
    all-bullish tables are included: one of the two lists is then empty. *)
Theorem bear_bull_partition (s : PandasDataSource) :
  (3 <= ncols (df s))%nat ->
  exists bear bull : list row,
    DS.bear_rows s = Some bear /\
    DS.bull_rows s = Some bull /\
    bear = filter (fun r => Num.gtb (cell r 1) (cell r 2)) (rows (df s)) /\
    bull = filter (fun r => Num.leb (cell r 1) (cell r 2)) (rows (df s)) /\
    Interleave bear bull (filter pricedb (rows (df s))) /\
    Interleave (filter pricedb (rows (df s)))
               (filter (fun r => negb (pricedb r)) (rows (df s))) (rows (df s)) /\
    (forall r, In r bear -> In r bull -> False) /\
    (forall r, In r (rows (df s)) -> priced r ->
               (In r bear /\ ~ In r bull) \/ (In r bull /\ ~ In r bear)) /\
    (forall r, ~ priced r -> ~ In r bear /\ ~ In r bull) /\
    (List.length bear + List.length bull
     = List.length (filter pricedb (rows (df s))))%nat /\
    (Forall priced (rows (df s)) ->
     Interleave bear bull (rows (df s)) /\
     (List.length bear + List.length bull = List.length (rows (df s)))%nat).
Proof.
  intros Hcols.
  exists (filter DS.is_bear (rows (df s))), (filter DS.is_bull (rows (df s))).
  pose proof (Interleave_bear_bull (rows (df s))) as Hinter.
  assert (Hdisj : forall r, In r (filter DS.is_bear (rows (df s))) ->
                            In r (filter DS.is_bull (rows (df s))) -> False).
  { intros r Hb Hu. apply filter_In in Hb, Hu.
    exact (bear_bull_exclusive r (proj2 Hb) (proj2 Hu)). }
  unfold DS.bear_rows, DS.bull_rows.
  destruct (Nat.ltb_spec (ncols (df s)) 3) as [Hlt|_]; [lia|].
  split; [reflexivity|]. split; [reflexivity|].
  split; [reflexivity|]. split; [reflexivity|].
  split; [exact Hinter|].
  split.
  { apply Interleave_filter. apply Forall_forall. intros x _.
    now rewrite negb_involutive. }
  split; [exact Hdisj|].
  split.
  { intros r Hr Hp.
    assert (Hin : In r (filter pricedb (rows (df s)))).
    { apply filter_In. split; [exact Hr|]. now apply pricedb_priced. }
    apply (Interleave_In _ _ _ Hinter) in Hin.
    destruct Hin as [Hb|Hu]; [left | right]; split; try assumption;
      intros H; eapply Hdisj; eassumption. }
  split.
  { intros r Hn. split; intros H; apply filter_In in H; apply Hn.
    - exact (bear_priced r (proj2 H)).
    - exact (bull_priced r (proj2 H)). }
  split; [apply Interleave_length, Hinter|].
  intros Hall. rewrite (filter_pricedb_all _ Hall) in Hinter.
  split; [exact Hinter | apply Interleave_length, Hinter].
Qed.

Lemma bear_bull_partition_witness :
  exists bear bull : list row,
    DS.bear_rows Sample.gap_store = Some bear /\
    DS.bull_rows Sample.gap_store = Some bull /\
    bear = filter (fun r => Num.gtb (cell r 1) (cell r 2)) (rows (df Sample.gap_store)) /\
    bull = filter (fun r => Num.leb (cell r 1) (cell r 2)) (rows (df Sample.gap_store)) /\
    Interleave bear bull (filter pricedb (rows (df Sample.gap_store))) /\
    Interleave (filter pricedb (rows (df Sample.gap_store)))
               (filter (fun r => negb (pricedb r)) (rows (df Sample.gap_store)))
               (rows (df Sample.gap_store)) /\
    (forall r, In r bear -> In r bull -> False) /\
    (forall r, In r (rows (df Sample.gap_store)) -> priced r ->
               (In r bear /\ ~ In r bull) \/ (In r bull /\ ~ In r bear)) /\
    (forall r, ~ priced r -> ~ In r bear /\ ~ In r bull) /\
    (List.length bear + List.length bull
     = List.length (filter pricedb (rows (df Sample.gap_store))))%nat /\
    (Forall priced (rows (df Sample.gap_store)) ->
     Interleave bear bull (rows (df Sample.gap_store)) /\
     (List.length bear + List.length bull
      = List.length (rows (df Sample.gap_store)))%nat).
Proof.
  apply (bear_bull_partition Sample.gap_store).
  vm_compute. lia.
Defined.

(* ================================================================= *)
(** ** The range cache across calls                                   *)
(* ================================================================= *)

(** What a call returns is what it leaves in the cache. *)
Lemma hilo_answer_cached (s : PandasDataSource) (x0 x1 : num) :
  cache_hilo_answer (snd (DS.hilo s x0 x1)) = fst (DS.hilo s x0 x1).
Proof.
  unfold DS.hilo.
  destruct (String.eqb_spec (DS.query_of x0 x1) (cache_hilo_query s)); reflexivity.
Qed.

(** A second call with a window of the same key changes nothing. *)
Lemma hilo_again (s : PandasDataSource) (x0 x1 y0 y1 : num) :
  DS.query_of y0 y1 = DS.query_of x0 x1 ->
  DS.hilo (snd (DS.hilo s x0 x1)) y0 y1
  = (fst (DS.hilo s x0 x1), snd (DS.hilo s x0 x1)).
Proof.
  intros Hk. rewrite hilo_hit.
  - now rewrite hilo_answer_cached.
  - rewrite Hk. symmetry. apply hilo_df.
Qed.

(** A call whose key differs from the cached one recomputes on the table
    as it is now. *)
Lemma hilo_other_key (s : PandasDataSource) (x0 x1 y0 y1 : num) :
  DS.query_of y0 y1 <> DS.query_of x0 x1 ->
  fst (DS.hilo (snd (DS.hilo s x0 x1)) y0 y1) = Some (DS._hilo s y0 y1).
Proof.
  intros Hk. rewrite hilo_miss.
  - simpl. f_equal. apply _hilo_ext; apply hilo_df.
  - intros E. apply Hk. rewrite E. apply hilo_df.
Qed.

(** C5, as stated, fails: the key keeps nine significant digits, so
    windows that differ only beyond them share it.  On candles a second
    apart near 1e9 the windows ending at ...001, ...002 and ...003 all have
    the key "1e+09,1e+09".  Once the cache holds the answer for the window
    ending at ...003 (four rows), the sequence original, original, different,
    original on the window ending at ...001 is served that answer, while
    the direct computation finds two rows. *)
Lemma hilo_cache_counterexample :
  let s := snd (DS.hilo Sample.candles_store (Fin 1000000000) (Fin 1000000003)) in
  let s1 := snd (DS.hilo s (Fin 1000000000) (Fin 1000000001)) in
  let s2 := snd (DS.hilo s1 (Fin 1000000000) (Fin 1000000001)) in
  let s3 := snd (DS.hilo s2 (Fin 1000000000) (Fin 1000000002)) in
  df s = df Sample.candles_store /\
  df s3 = df s /\
  option_map cnt (fst (DS.hilo s3 (Fin 1000000000) (Fin 1000000001))) = Some 4%nat /\
  cnt (DS._hilo s (Fin 1000000000) (Fin 1000000001)) = 2%nat /\
  fst (DS.hilo s3 (Fin 1000000000) (Fin 1000000001))
    <> Some (DS._hilo s (Fin 1000000000) (Fin 1000000001)).
Proof.
  cbv zeta. split; [|split; [|split; [|split]]]; vm_compute;
    try reflexivity; discriminate.
Qed.

(** C5, amended.  With the table unchanged, a second call with the
    identical window returns the answer of the first and is a cache hit
    (the store is left as it was).  A call with another window and then the
    original window again returns the direct computation on the original
    window when the other window formats to a different key, or when the
    first call on the original window was itself a miss. *)
Theorem hilo_cache_idempotent (s : PandasDataSource) (x0 x1 y0 y1 : num) :
  let s1 := snd (DS.hilo s x0 x1) in
  let s2 := snd (DS.hilo s1 x0 x1) in
  let s3 := snd (DS.hilo s2 y0 y1) in
  fst (DS.hilo s1 x0 x1) = fst (DS.hilo s x0 x1) /\
  s2 = s1 /\
  (DS.query_of y0 y1 <> DS.query_of x0 x1 \/
   DS.query_of x0 x1 <> cache_hilo_query s ->
   fst (DS.hilo s3 x0 x1) = Some (DS._hilo s x0 x1)).
Proof.
  intros s1 s2 s3.
  assert (H12 : DS.hilo s1 x0 x1 = (fst (DS.hilo s x0 x1), s1))
    by (apply hilo_again; reflexivity).
  assert (E2 : s2 = s1) by (unfold s2; now rewrite H12).
  split; [now rewrite H12 | split; [exact E2|]].
  intros Hcase. unfold s3. rewrite E2.
  destruct (String.eqb_spec (DS.query_of y0 y1) (DS.query_of x0 x1)) as [Hsame|Hdiff].
  - destruct Hcase as [Hdiff|Hmiss]; [contradiction|].
    unfold s1. rewrite (hilo_again s x0 x1 y0 y1 Hsame). simpl.
    rewrite (hilo_again s x0 x1 x0 x1 eq_refl). simpl.
    now rewrite (hilo_miss _ _ _ Hmiss).
  - rewrite hilo_other_key by congruence.
    f_equal. apply _hilo_ext; apply hilo_df.
Qed.

Lemma hilo_cache_idempotent_witness :
  let s := Sample.line_store in
  let s1 := snd (DS.hilo s (Fin 0) (Fin 600)) in
  let s2 := snd (DS.hilo s1 (Fin 0) (Fin 600)) in
  let s3 := snd (DS.hilo s2 (Fin 60) (Fin 1440)) in
  fst (DS.hilo s1 (Fin 0) (Fin 600)) = fst (DS.hilo s (Fin 0) (Fin 600)) /\
  s2 = s1 /\
  fst (DS.hilo s3 (Fin 0) (Fin 600)) = Some (DS._hilo s (Fin 0) (Fin 600)).
Proof.
  destruct (hilo_cache_idempotent Sample.line_store (Fin 0) (Fin 600) (Fin 60) (Fin 1440))
    as (H1 & H2 & H3).
  cbv zeta. split; [exact H1 | split; [exact H2 |]].
  apply H3. left. vm_compute. discriminate.
Defined.

(** C6.  [addcols] leaves the cache alone: after [hilo(x0, x1)] and a
    merge, [hilo] on the same window is a hit and returns the answer
    computed before the merge; a window with another key is computed on the
    merged table. *)
Theorem hilo_stale_after_addcols (s : PandasDataSource) (x0 x1 : num) (d : DataFrame) :
  let s2 := DS.addcols (snd (DS.hilo s x0 x1)) d in
  DS.hilo s2 x0 x1 = (fst (DS.hilo s x0 x1), s2) /\
  (forall y0 y1, DS.query_of y0 y1 <> DS.query_of x0 x1 ->
                 fst (DS.hilo s2 y0 y1) = Some (DS._hilo s2 y0 y1)).
Proof.
  intros s2. split.
  - rewrite hilo_hit.
    + unfold s2. simpl. now rewrite hilo_answer_cached.
    + unfold s2. simpl. symmetry. apply hilo_df.
  - intros y0 y1 Hk. rewrite hilo_miss; [reflexivity|].
    unfold s2. simpl. intros E. apply Hk. rewrite E. apply hilo_df.
Qed.

(** On the minute rows: the cached high over (0, 1440) stays 34 after a
    column of 1000s is merged, while the merged table's own high is 1000;
    the window (0, 1380), with another key, sees the new column. *)
Lemma hilo_stale_after_addcols_witness :
  let s2 := DS.addcols (snd (DS.hilo Sample.line_store (Fin 0) (Fin 1440))) Sample.extra_df in
  option_map hi (fst (DS.hilo s2 (Fin 0) (Fin 1440))) = Some (Fin 34) /\
  hi (DS._hilo s2 (Fin 0) (Fin 1440)) = Fin 1000 /\
  option_map hi (fst (DS.hilo s2 (Fin 0) (Fin 1380))) = Some (Fin 1000).
Proof.
  destruct (hilo_stale_after_addcols Sample.line_store (Fin 0) (Fin 1440) Sample.extra_df)
    as (H1 & H2).
  cbv zeta in *. split; [|split].
  - rewrite H1. vm_compute. reflexivity.
  - vm_compute. reflexivity.
  - rewrite H2; [vm_compute; reflexivity | vm_compute; discriminate].
Defined.

(* ================================================================= *)
(** ** Soundness of the cache                                         *)
(* ================================================================= *)

Lemma cache_sound_init (d : DataFrame) : cache_sound (DS.__init__ d).
Proof. left. reflexivity. Qed.

Lemma cache_sound_hilo (s : PandasDataSource) (x0 x1 : num) :
  cache_sound s -> cache_sound (snd (DS.hilo s x0 x1)).
Proof.
  intros Hs. unfold DS.hilo.
  destruct (String.eqb_spec (DS.query_of x0 x1) (cache_hilo_query s)) as [E|E]; simpl.
  - exact Hs.
  - right. eexists. split; [reflexivity|]. simpl.
    rewrite _hilo_cnt. apply filter_length_le.
Qed.

Lemma concat_rows_length (wa wb : nat) (a b : list row) :
  List.length (concat_rows wa wb a b) = Nat.max (List.length a) (List.length b).
Proof.
  revert b. induction a as [|ra a IH]; intros b; simpl.
  - now rewrite length_map.
  - destruct b as [|rb b]; simpl; rewrite IH; simpl; lia.
Qed.

Lemma cache_sound_addcols (s : PandasDataSource) (d : DataFrame) :
  cache_sound s -> cache_sound (DS.addcols s d).
Proof.
  intros [Hs | (a & Ha & Hle)]; [left; exact Hs|].
  right. exists a. split; [exact Ha|]. simpl.
  rewrite concat_rows_length. lia.
Qed.

Lemma cache_sound_skip (s : PandasDataSource) (k : nat) :
  cache_sound s -> cache_sound (DS.set_skip_scale_colcnt s k).
Proof.
  intros [Hs | (a & Ha & Hle)]; [left; exact Hs|].
  right. exists a. split; [exact Ha | exact Hle].
Qed.

(** On a sound store [hilo] always has an answer, and the answer counts
    no more rows than the table has. *)
Lemma hilo_sound_answer (s : PandasDataSource) (x0 x1 : num) :
  cache_sound s ->
  exists a, fst (DS.hilo s x0 x1) = Some a /\
            (cnt a <= List.length (rows (df s)))%nat.
Proof.
  intros Hs. unfold DS.hilo.
  destruct (String.eqb_spec (DS.query_of x0 x1) (cache_hilo_query s)) as [E|E]; simpl.
  - destruct Hs as [Hs | Hs]; [|exact Hs].
    exfalso. apply (query_of_not_empty x0 x1). congruence.
  - eexists. split; [reflexivity|]. rewrite _hilo_cnt. apply filter_length_le.
Qed.

Lemma period_defined (s : PandasDataSource) :
  (2 <= List.length (rows (df s)))%nat -> exists p, DS.period s = Some p.
Proof.
  unfold DS.period. destruct (rows (df s)) as [|r0 [|r1 rs]]; simpl; intros H;
    try lia. eexists. reflexivity.
Qed.

(* ================================================================= *)
(** ** The toolkit's setRange                                         *)
(* ================================================================= *)

Lemma py_min_lt (a b : num) : Num.lt a b -> VB.py_min a b = a.
Proof.
  intros H. unfold VB.py_min.
  destruct (Num.ltb b a) eqn:E; [|reflexivity].
  apply ltb_lt in E. destruct a, b; simpl in *; try tauto.
  exfalso. exact (Qlt_irrefl _ (Qlt_trans _ _ _ H E)).
Qed.

Lemma py_max_lt (a b : num) : Num.lt a b -> VB.py_max a b = b.
Proof.
  intros H. unfold VB.py_max, Num.gtb.
  apply ltb_lt in H. rewrite H. reflexivity.
Qed.

Lemma eqb_lt (a b : num) : Num.lt a b -> Num.eqb a b = false.
Proof.
  destruct a as [|x], b as [|y]; simpl; try tauto. intros H.
  destruct (Qeq_bool x y) eqn:E; [|reflexivity].
  apply Qeq_bool_iff in E. rewrite E in H. destruct (Qlt_irrefl _ H).
Qed.

Lemma lt_is_num (a b : num) :
  Num.lt a b -> Num.is_nan a = false /\ Num.is_nan b = false.
Proof.
  destruct a, b; simpl; tauto.
Qed.

Lemma ltb_le_false (a b : num) : Num.le a b -> Num.ltb b a = false.
Proof.
  intros H. destruct (Num.ltb b a) eqn:E; [|reflexivity].
  apply ltb_lt in E. destruct (lt_not_le _ _ E H).
Qed.

(** Limits that the range already respects leave it alone. *)
Lemma within_limits_fits (lmn lmx : option num) (mn mx : num) :
  fits lmn lmx mn mx -> VB.within_limits lmn lmx mn mx = (mn, mx).
Proof.
  intros [Hl Hu]. unfold VB.within_limits.
  assert (Hshrink :
            match lmn, lmx with
            | Some l, Some u =>
                if Num.gtb (Num.sub mx mn) (Num.sub u l)
                then (Num.sub mn (Num.mul (Num.sub (Num.sub u l) (Num.sub mx mn)) half),
                      Num.add mx (Num.mul (Num.sub (Num.sub u l) (Num.sub mx mn)) half))
                else (mn, mx)
            | _, _ => (mn, mx)
            end = (mn, mx)).
  { destruct lmn as [l|], lmx as [u|]; try reflexivity.
    unfold Num.gtb. rewrite ltb_le_false; [reflexivity|].
    destruct l, u, mn, mx; simpl in *; try tauto. lra. }
  cbv zeta. rewrite Hshrink.
  destruct lmn as [l|], lmx as [u|]; try reflexivity.
  - rewrite (ltb_le_false _ _ Hl). unfold Num.gtb. now rewrite (ltb_le_false _ _ Hu).
  - now rewrite (ltb_le_false _ _ Hl).
  - unfold Num.gtb. now rewrite (ltb_le_false _ _ Hu).
Qed.

(** A proper range within the limits is taken as it is. *)
Lemma set_axis_exact (vl vh : num) (lmn lmx : option num) (a b : num) :
  proper_range a b -> fits lmn lmx a b ->
  VB.set_axis vl vh lmn lmx a b = Some (a, b).
Proof.
  intros [H Hw] Hf. unfold VB.set_axis.
  rewrite (py_min_lt _ _ H), (py_max_lt _ _ H), (eqb_lt _ _ H). cbv zeta.
  rewrite Hw.
  destruct (lt_is_num _ _ H) as [-> ->]. simpl.
  now rewrite (within_limits_fits _ _ _ _ Hf).
Qed.

(** A range whose first bound is NaN raises. *)
Lemma set_axis_nan (vl vh : num) (lmn lmx : option num) (b : num) :
  VB.set_axis vl vh lmn lmx NaN b = None.
Proof.
  unfold VB.set_axis, VB.py_min, VB.py_max, Num.gtb. destruct b; reflexivity.
Qed.

(** A flat range of numbers is widened about its value, by half the
    extent shown on each side. *)
Lemma set_axis_flat (vl vh : num) (a b : num) :
  Num.eqb a b = true ->
  VB.set_axis vl vh None None a b =
  let dy := Num.sub vh vl in
  let dy := if Num.eqb dy (Fin 0) then Fin 1 else dy in
  let mn := Num.sub a (Num.mul dy half) in
  let mx := Num.add a (Num.mul dy half) in
  let '(mn, mx) :=
    if VB.too_narrow mn mx then
      (Num.sub mn (VB.quantization_limit mn mx),
       Num.add mx (VB.quantization_limit mn mx))
    else (mn, mx) in
  if Num.is_nan mn || Num.is_nan mx then None else Some (mn, mx).
Proof.
  intros H. unfold VB.set_axis, VB.py_min, VB.py_max, Num.gtb.
  destruct a as [|x], b as [|y]; simpl in H; try discriminate.
  apply Qeq_bool_iff in H.
  assert (E1 : Num.ltb (Fin y) (Fin x) = false).
  { apply ltb_le_false. simpl. rewrite H. apply Qle_refl. }
  assert (E2 : Num.ltb (Fin x) (Fin y) = false).
  { apply ltb_le_false. simpl. rewrite H. apply Qle_refl. }
  rewrite E1, E2. cbv zeta.
  assert (E3 : Num.eqb (Fin x) (Fin x) = true).
  { simpl. apply Qeq_bool_iff. reflexivity. }
  rewrite E3. destruct (VB.too_narrow _ _); reflexivity.
Qed.

Lemma within_limits_finite (lmn lmx : option num) (mn mx : num) :
  Num.is_nan mn = false -> Num.is_nan mx = false ->
  Num.is_nan (fst (VB.within_limits lmn lmx mn mx)) = false /\
  Num.is_nan (snd (VB.within_limits lmn lmx mn mx)) = false.
Proof.
  destruct mn as [|mn], mx as [|mx]; try discriminate. intros _ _.
  unfold VB.within_limits, Num.gtb, Num.ltb.
  destruct lmn as [[|l]|], lmx as [[|u]|]; simpl;
    repeat match goal with
           | |- context [if ?c then _ else _] => destruct c; simpl
           end; split; reflexivity.
Qed.

(** Whatever [set_axis] returns is a range of two numbers. *)
Lemma set_axis_finite (vl vh : num) (lmn lmx : option num) (a b mn mx : num) :
  VB.set_axis vl vh lmn lmx a b = Some (mn, mx) ->
  Num.is_nan mn = false /\ Num.is_nan mx = false.
Proof.
  unfold VB.set_axis.
  destruct (if Num.eqb (VB.py_min a b) (VB.py_max a b) then _ else _) as [n1 n2].
  destruct (if VB.too_narrow n1 n2 then _ else _) as [m1 m2].
  destruct (Num.is_nan m1) eqn:E1; [discriminate|].
  destruct (Num.is_nan m2) eqn:E2; [discriminate|]. simpl.
  intros H. injection H as H.
  pose proof (within_limits_finite lmn lmx m1 m2 E1 E2) as [F1 F2].
  rewrite H in F1, F2. exact (conj F1 F2).
Qed.

(** On numbers, over a view of numbers, [set_axis] returns. *)
Lemma set_axis_returns (vl vh : num) (lmn lmx : option num) (a b : num) :
  Num.is_nan vl = false -> Num.is_nan vh = false ->
  Num.is_nan a = false -> Num.is_nan b = false ->
  exists r, VB.set_axis vl vh lmn lmx a b = Some r.
Proof.
  destruct vl as [|vl], vh as [|vh], a as [|a], b as [|b]; try discriminate.
  intros _ _ _ _. unfold VB.set_axis.
  assert (H1 : exists m, VB.py_min (Fin a) (Fin b) = Fin m).
  { unfold VB.py_min. destruct (Num.ltb _ _); eexists; reflexivity. }
  assert (H2 : exists m, VB.py_max (Fin a) (Fin b) = Fin m).
  { unfold VB.py_max. destruct (Num.gtb _ _); eexists; reflexivity. }
  destruct H1 as (m1 & ->), H2 as (m2 & ->).
  assert (G : forall n1 n2 : Q,
             exists r,
               (let '(mn, mx) :=
                  if VB.too_narrow (Fin n1) (Fin n2)
                  then (Num.sub (Fin n1) (VB.quantization_limit (Fin n1) (Fin n2)),
                        Num.add (Fin n2) (VB.quantization_limit (Fin n1) (Fin n2)))
                  else (Fin n1, Fin n2) in
                if Num.is_nan mn || Num.is_nan mx then None
                else Some (VB.within_limits lmn lmx mn mx)) = Some r).
  { intros n1 n2. destruct (VB.too_narrow (Fin n1) (Fin n2)); simpl;
      eexists; reflexivity. }
  destruct (Num.eqb (Fin m1) (Fin m2)).
  - simpl. destruct (Qeq_bool (vh - vl) 0); simpl; apply G.
  - apply G.
Qed.

(** [fit_rect] looks at the target rectangle and the limits only. *)
Lemma fit_rect_ext (v w : FinViewBox) (r : QRectF) :
  targetRect v = targetRect w ->
  xMin v = xMin w -> xMax v = xMax w -> yMin v = yMin w -> yMax v = yMax w ->
  VB.fit_rect v r = VB.fit_rect w r.
Proof.
  intros H1 H2 H3 H4 H5. unfold VB.fit_rect. now rewrite H1, H2, H3, H4, H5.
Qed.

(** A rectangle of two proper ranges within the limits: [setRange] makes
    it the target as it is. *)
Lemma fit_rect_exact (v : FinViewBox) (r : QRectF) :
  proper_range (rect_left r) (rect_right r) ->
  proper_range (rect_top r) (rect_bottom r) ->
  fits (xMin v) (xMax v) (rect_left r) (rect_right r) ->
  fits (yMin v) (yMax v) (rect_top r) (rect_bottom r) ->
  VB.fit_rect v r = Some r.
Proof.
  intros Hx Hy Fx Fy. unfold VB.fit_rect.
  rewrite (set_axis_exact _ _ _ _ _ _ Hx Fx), (set_axis_exact _ _ _ _ _ _ Hy Fy).
  destruct r; reflexivity.
Qed.

(** A NaN on the first corner raises. *)
Lemma fit_rect_nan (v : FinViewBox) (r : QRectF) :
  rect_left r = NaN \/ rect_top r = NaN -> VB.fit_rect v r = None.
Proof.
  intros [H|H]; unfold VB.fit_rect; rewrite H.
  - now rewrite set_axis_nan.
  - rewrite set_axis_nan. destruct (VB.set_axis _ _ _ _ _ _) as [[? ?]|]; reflexivity.
Qed.

(** On a rectangle of numbers, over a target of numbers, [setRange]
    returns; and what it returns is again a rectangle of numbers. *)
Lemma fit_rect_returns (v : FinViewBox) (r : QRectF) :
  finite_rect (targetRect v) -> finite_rect r ->
  exists r', VB.fit_rect v r = Some r'.
Proof.
  intros (T1 & T2 & T3 & T4) (R1 & R2 & R3 & R4). unfold VB.fit_rect.
  destruct (set_axis_returns (rect_left (targetRect v)) (rect_right (targetRect v))
              (xMin v) (xMax v) (rect_left r) (rect_right r) T1 T3 R1 R3) as ([x0 x1] & ->).
  destruct (set_axis_returns (rect_top (targetRect v)) (rect_bottom (targetRect v))
              (yMin v) (yMax v) (rect_top r) (rect_bottom r) T2 T4 R2 R4) as ([y0 y1] & ->).
  eexists. reflexivity.
Qed.

Lemma fit_rect_finite (v : FinViewBox) (r r' : QRectF) :
  VB.fit_rect v r = Some r' -> finite_rect r'.
Proof.
  unfold VB.fit_rect.
  destruct (VB.set_axis _ _ (xMin v) _ _ _) as [[x0 x1]|] eqn:Ex; [|discriminate].
  destruct (VB.set_axis _ _ (yMin v) _ _ _) as [[y0 y1]|] eqn:Ey; [|discriminate].
  intros H. injection H as <-.
  destruct (set_axis_finite _ _ _ _ _ _ _ _ Ex) as [X0 X1].
  destruct (set_axis_finite _ _ _ _ _ _ _ _ Ey) as [Y0 Y1].
  unfold finite_rect. simpl. tauto.
Qed.

(** [setRange], when it returns, has moved the target rectangle to
    [fit_rect] and nothing else; it raises when [fit_rect] has no answer. *)
Lemma setRange_returned (v : FinViewBox) (r : QRectF) :
  returned (VB.setRange v r) =
  match VB.fit_rect v r with
  | None => None
  | Some r' => Some (VB.with_targetRect v r')
  end.
Proof.
  unfold VB.setRange, VB.fit_rect. cbv zeta.
  destruct (VB.set_axis _ _ (xMin v) _ _ _) as [[x0 x1]|]; [|reflexivity].
  destruct (VB.set_axis _ _ (yMin v) _ _ _) as [[y0 y1]|]; reflexivity.
Qed.

Lemma returned_Returns (o : Outcome) (v : FinViewBox) :
  o = Returns v <-> returned o = Some v.
Proof.
  destruct o; simpl; split; intros H; try discriminate; now injection H as ->.
Qed.

(** A raise of [setRange] leaves everything but the rectangle alone. *)
Lemma setRange_raises (v w : FinViewBox) (r : QRectF) :
  VB.setRange v r = Raises w ->
  VB.fit_rect v r = None /\
  datasrc w = datasrc v /\ heavies w = heavies v /\
  heavies_blind_cnt w = heavies_blind_cnt v.
Proof.
  unfold VB.setRange, VB.fit_rect. cbv zeta.
  destruct (VB.set_axis _ _ (xMin v) _ _ _) as [[x0 x1]|].
  - destruct (VB.set_axis _ _ (yMin v) _ _ _) as [[y0 y1]|]; [discriminate|].
    intros H. injection H as <-. repeat split.
  - intros H. injection H as <-. repeat split.
Qed.

(* ================================================================= *)
(** ** Rescaling the viewport                                         *)
(* ================================================================= *)

(** [_setRange] is [setRange] on the rectangle of its four numbers,
    between hiding the items and setting the counter. *)
Lemma _setRange_spec (vb : FinViewBox) (x0 y0 x1 y1 : num) :
  returned (VB._setRange vb x0 y0 x1 y1) =
  match VB.fit_rect vb (mkRect x0 y0 x1 y1) with
  | None => None
  | Some r' =>
      Some (VB.with_heavies (VB.with_targetRect vb r')
                            (map (fun _ => false) (heavies vb)) 2)
  end.
Proof.
  unfold VB._setRange, rect_of_points. cbv zeta. cbn [px py].
  pose proof (setRange_returned (VB.hide_heavies vb) (mkRect x0 y0 x1 y1)) as H.
  rewrite (fit_rect_ext (VB.hide_heavies vb) vb) in H by reflexivity.
  destruct (VB.setRange (VB.hide_heavies vb) (mkRect x0 y0 x1 y1)) as [w|w];
    simpl in *; destruct (VB.fit_rect vb _); try discriminate;
    [injection H as ->|]; reflexivity.
Qed.


(** [scaleRect] once the answer of the store is known. *)
Lemma scaleRect_with_answer (vb : FinViewBox) (s s' : PandasDataSource)
      (vr : QRectF) (scale_fact : num) (center : option Point) (a : HiLo) :
  datasrc vb = Some s ->
  (let c := px (match center with None => rect_center vr | Some c => c end) in
   DS.hilo s (Num.add c (Num.mul (Num.sub (rect_left vr) c) scale_fact))
             (Num.add c (Num.mul (Num.sub (rect_right vr) c) scale_fact))
   = (Some a, s')) ->
  VB.scaleRect vb vr scale_fact center =
  if (cnt a <? 20)%nat then Some (VB.with_datasrc vb (Some s'))
  else match DS.period s' with
       | Some p =>
           returned (VB._setRange (VB.with_datasrc vb (Some s'))
                                  (Num.sub (t0 a) (Num.mul p half)) (lo a)
                                  (Num.add (t1 a) (Num.mul p half)) (hi a))
       | None => None
       end.
Proof.
  intros Hd Hq. unfold VB.scaleRect. rewrite Hd.
  cbv zeta in *. rewrite Hq. reflexivity.
Qed.




(** Exactly 19 rows in the candidate window (0, 1080): rejected, the
    rectangle stays (0, 10)-(1440, 34). *)
Example scaleRect_rejects_19_rows :
  cnt (DS._hilo Sample.line_store (Fin 0) (Fin 1080)) = 19%nat /\
  option_map targetRect
    (VB.scaleRect Sample.line_vb (mkRect (Fin 0) (Fin 10) (Fin 1080) (Fin 34)) (Fin 1) None)
  = Some (targetRect Sample.line_vb).
Proof.
  split; vm_compute; reflexivity.
Qed.

(** Exactly 20 rows in the candidate window (0, 1140): committed, the
    rectangle becomes (-30, 10)-(1170, 29). *)
Example scaleRect_commits_20_rows :
  cnt (DS._hilo Sample.line_store (Fin 0) (Fin 1140)) = 20%nat /\
  option_map targetRect
    (VB.scaleRect Sample.line_vb (mkRect (Fin 0) (Fin 10) (Fin 1140) (Fin 34)) (Fin 1) None)
  = Some (mkRect (Num.sub (Fin 0) (Num.mul (Fin 60) half)) (Fin 10)
                 (Num.add (Fin 1140) (Num.mul (Fin 60) half)) (Fin 29)).
Proof.
  split; vm_compute; reflexivity.
Qed.

(** C4, as stated, fails on constant data: with [y = 5] on every row the
    answer for the window (0, 1200) has [lo = hi = 5] on 21 rows, the
    rectangle asked for is empty in Y, and the toolkit widens it by half
    the height shown on each side: the view shows Y from 4.5 to 5.5, and
    the committed rectangle has Y from 4.5 to 5.5, not from 5 to 5. *)
Lemma scaleRect_commits_exact_counterexample :
  let vr := mkRect (Fin 0) (Fin (9 # 2)) (Fin 1200) (Fin (11 # 2)) in
  DS._hilo Sample.flat_store (Fin 0) (Fin 1200)
    = mkHiLo (Fin 0) (Fin 1200) (Fin 5) (Fin 5) 21 /\
  exists vb',
    VB.scaleRect Sample.flat_vb vr (Fin 1) None = Some vb' /\
    num_eq (rect_top (targetRect vb')) (Fin (9 # 2)) /\
    num_eq (rect_bottom (targetRect vb')) (Fin (11 # 2)) /\
    rect_top (targetRect vb') <> Fin 5 /\
    rect_bottom (targetRect vb') <> Fin 5.
Proof.
  cbv zeta. split; [vm_compute; reflexivity|].
  eexists. split; [vm_compute; reflexivity|].
  split; [vm_compute; reflexivity|].
  split; [vm_compute; reflexivity|].
  split; vm_compute; discriminate.
Qed.

(** C4, amended.  An accepted rescale: the store (its cache sound) answers
    [(t0, t1, hi, lo, cnt)] with [cnt >= 20].  Then the store has a period
    and [scaleRect] asks the toolkit for X from [t0 - period*0.5] to
    [t1 + period*0.5] and Y from [lo] to [hi], with [padding=0].  When
    [lo < hi], the X range is in order, neither range is too narrow for
    the toolkit and no limit of the view box cuts into the rectangle,
    [scaleRect] returns and the committed rectangle is exactly that one.
    When [lo] and [hi] are the same number (and no Y limit is set), the
    committed Y range is [lo] widened on each side by half the height
    shown before (by 0.5 if that height is zero).  In both cases the heavy
    items are hidden and the gate's counter is set to 2. *)
Theorem scaleRect_commits_exact (vb : FinViewBox) (s s' : PandasDataSource)
        (vr : QRectF) (scale_fact : num) (center : option Point) (a : HiLo) :
  datasrc vb = Some s ->
  cache_sound s ->
  (let c := px (match center with None => rect_center vr | Some c => c end) in
   DS.hilo s (Num.add c (Num.mul (Num.sub (rect_left vr) c) scale_fact))
             (Num.add c (Num.mul (Num.sub (rect_right vr) c) scale_fact))
   = (Some a, s')) ->
  (20 <= cnt a)%nat ->
  exists period : num,
    DS.period s' = Some period /\
    let x0 := Num.sub (t0 a) (Num.mul period (Fin (1 # 2))) in
    let x1 := Num.add (t1 a) (Num.mul period (Fin (1 # 2))) in
    (proper_range x0 x1 -> fits (xMin vb) (xMax vb) x0 x1 ->
     proper_range (lo a) (hi a) -> fits (yMin vb) (yMax vb) (lo a) (hi a) ->
     exists vb' : FinViewBox,
       VB.scaleRect vb vr scale_fact center = Some vb' /\
       rect_left (targetRect vb') = x0 /\
       rect_right (targetRect vb') = x1 /\
       rect_top (targetRect vb') = lo a /\
       rect_bottom (targetRect vb') = hi a /\
       all_hidden vb' /\
       heavies_blind_cnt vb' = 2) /\
    (proper_range x0 x1 -> fits (xMin vb) (xMax vb) x0 x1 ->
     Num.eqb (lo a) (hi a) = true -> yMin vb = None -> yMax vb = None ->
     Num.is_nan (rect_height (targetRect vb)) = false ->
     let h := rect_height (targetRect vb) in
     let dy := if Num.eqb h (Fin 0) then Fin 1 else h in
     VB.too_narrow (Num.sub (lo a) (Num.mul dy half))
                   (Num.add (lo a) (Num.mul dy half)) = false ->
     exists vb' : FinViewBox,
       VB.scaleRect vb vr scale_fact center = Some vb' /\
       rect_left (targetRect vb') = x0 /\
       rect_right (targetRect vb') = x1 /\
       rect_top (targetRect vb') = Num.sub (lo a) (Num.mul dy half) /\
       rect_bottom (targetRect vb') = Num.add (lo a) (Num.mul dy half) /\
       all_hidden vb' /\
       heavies_blind_cnt vb' = 2).
Proof.
  intros Hd Hs Hq Hc.
  assert (Hrows : (2 <= List.length (rows (df s')))%nat).
  { cbv zeta in Hq.
    match type of Hq with
    | DS.hilo s ?x0 ?x1 = _ =>
        destruct (hilo_sound_answer s x0 x1 Hs) as (a' & Ha' & Hle);
        rewrite Hq in Ha'; simpl in Ha'; injection Ha' as <-;
        replace s' with (snd (DS.hilo s x0 x1)) by (now rewrite Hq);
        rewrite (proj1 (hilo_df s x0 x1)); lia
    end. }
  destruct (period_defined s' Hrows) as (p & Hp).
  rewrite (scaleRect_with_answer vb s s' vr scale_fact center a Hd Hq).
  destruct (Nat.ltb_spec (cnt a) 20) as [Hlt|_]; [lia|].
  rewrite Hp. exists p. split; [reflexivity|].
  rewrite _setRange_spec.
  assert (Hhid : forall r', Forall (fun v => v = false)
                   (heavies (VB.with_heavies
                      (VB.with_targetRect (VB.with_datasrc vb (Some s')) r')
                      (map (fun _ => false) (heavies (VB.with_datasrc vb (Some s')))) 2))).
  { intros r'. simpl. apply Forall_forall. intros v Hv.
    apply in_map_iff in Hv. destruct Hv as (_ & <- & _). reflexivity. }
  cbv zeta. split.
  - intros Hx Fx Hy Fy.
    rewrite (fit_rect_exact (VB.with_datasrc vb (Some s'))
               (mkRect (Num.sub (t0 a) (Num.mul p half)) (lo a)
                       (Num.add (t1 a) (Num.mul p half)) (hi a)) Hx Hy Fx Fy).
    eexists. split; [reflexivity|].
    split; [reflexivity|]. split; [reflexivity|].
    split; [reflexivity|]. split; [reflexivity|].
    split; [apply Hhid | reflexivity].
  - intros Hx Fx Hy Hmin Hmax Hh Hw.
    unfold VB.fit_rect.
    cbn [targetRect xMin xMax yMin yMax VB.with_datasrc
         rect_left rect_right rect_top rect_bottom].
    rewrite (set_axis_exact _ _ _ _ _ _ Hx Fx).
    rewrite Hmin, Hmax, (set_axis_flat _ _ _ _ Hy). cbv zeta.
    fold (rect_height (targetRect vb)). rewrite Hw.
    assert (Hl : Num.is_nan (lo a) = false).
    { destruct (lo a), (hi a); simpl in Hy; try discriminate. reflexivity. }
    assert (Hdy : Num.is_nan (if Num.eqb (rect_height (targetRect vb)) (Fin 0)
                              then Fin 1 else rect_height (targetRect vb)) = false).
    { destruct (Num.eqb (rect_height (targetRect vb)) (Fin 0));
        [reflexivity | exact Hh]. }
    clear Hw.
    destruct (if Num.eqb (rect_height (targetRect vb)) (Fin 0)
              then Fin 1 else rect_height (targetRect vb)) as [|dy]; [discriminate|].
    destruct (lo a) as [|l]; [discriminate|]. simpl.
    eexists. split; [reflexivity|].
    split; [reflexivity|]. split; [reflexivity|].
    split; [reflexivity|]. split; [reflexivity|].
    split; [apply Hhid | reflexivity].
Qed.

Lemma scaleRect_commits_exact_witness :
  exists period : num,
    DS.period (snd (DS.hilo (snd (DS.hilo Sample.line_store (Fin (-30)) (Fin 1470)))
                            (Fin 0) (Fin 1140))) = Some period /\
    exists vb' : FinViewBox,
      VB.scaleRect Sample.heavy_vb (mkRect (Fin 0) (Fin 10) (Fin 1140) (Fin 34)) (Fin 1) None
        = Some vb' /\
      rect_left (targetRect vb') = Num.sub (Fin 0) (Num.mul period (Fin (1 # 2))) /\
      rect_right (targetRect vb') = Num.add (Fin 1140) (Num.mul period (Fin (1 # 2))) /\
      rect_top (targetRect vb') = Fin 10 /\
      rect_bottom (targetRect vb') = Fin 29 /\
      all_hidden vb' /\
      heavies_blind_cnt vb' = 2.
Proof.
  destruct (scaleRect_commits_exact Sample.heavy_vb
           (snd (DS.hilo Sample.line_store (Fin (-30)) (Fin 1470)))
           (snd (DS.hilo (snd (DS.hilo Sample.line_store (Fin (-30)) (Fin 1470)))
                         (Fin 0) (Fin 1140)))
           (mkRect (Fin 0) (Fin 10) (Fin 1140) (Fin 34)) (Fin 1) None
           (mkHiLo (Fin 0) (Fin 1140) (Fin 29) (Fin 10) 20))
    as (period & Hp & Hexact & _).
  - vm_compute. reflexivity.
  - right. eexists. split; [vm_compute; reflexivity | vm_compute; lia].
  - vm_compute. reflexivity.
  - simpl. lia.
  - exists period. split; [exact Hp|].
    vm_compute in Hp. injection Hp as <-.
    apply Hexact.
    + split; vm_compute; reflexivity.
    + split; exact I.
    + split; vm_compute; reflexivity.
    + split; exact I.
Defined.

(* ================================================================= *)
(** ** The fixed Y range                                              *)
(* ================================================================= *)

(** C1 does not hold of the code.  After [set_y_range(ax, 0, 1000)] the
    flag is off and the rectangle on the minute rows has Y from 10 to 34;
    an accepted rescale to the window (0, 1200), 21 rows, commits Y from 10
    to 30. *)
Theorem set_y_range_then_scaleRect_moves_y :
  let vb := VB.set_y_range Sample.line_vb (Fin 0) (Fin 1000) in
  let vr := mkRect (Fin 0) (Fin 10) (Fin 1200) (Fin 34) in
  auto_scale_y vb = false /\
  targetRect vb = mkRect (Fin 0) (Fin 10) (Fin 1440) (Fin 34) /\
  cnt (DS._hilo Sample.line_store (Fin 0) (Fin 1200)) = 21%nat /\
  option_map (fun v => (rect_top (targetRect v), rect_bottom (targetRect v)))
             (VB.scaleRect vb vr (Fin 1) None)
  = Some (Fin 10, Fin 30).
Proof.
  cbv zeta. split; [|split; [|split]]; vm_compute; reflexivity.
Qed.

(** [scaleRect] never reads [auto_scale_y]: whatever the flag, it does
    the same and leaves the flag as it was. *)
Lemma scaleRect_ignores_auto_scale_y (vb : FinViewBox) (b : bool)
      (vr : QRectF) (scale_fact : num) (center : option Point) :
  VB.scaleRect (with_auto_scale_y vb b) vr scale_fact center
  = option_map (fun v => with_auto_scale_y v b)
               (VB.scaleRect vb vr scale_fact center).
Proof.
  unfold VB.scaleRect. simpl.
  destruct (datasrc vb) as [s|]; [|reflexivity].
  cbv zeta.
  destruct (DS.hilo s _ _) as [[a|] s']; [|reflexivity].
  destruct (cnt a <? 20)%nat; [reflexivity|].
  destruct (DS.period s') as [p|]; [|reflexivity].
  rewrite !_setRange_spec.
  rewrite (fit_rect_ext
             (VB.with_datasrc (with_auto_scale_y vb b) (Some s'))
             (VB.with_datasrc vb (Some s'))) by reflexivity.
  destruct (VB.fit_rect _ _); reflexivity.
Qed.

(* ================================================================= *)
(** ** The deferred-render gate                                       *)
(* ================================================================= *)

(** A tick that does not reach zero leaves the items alone. *)
Lemma show_heavies_waits (vb : FinViewBox) :
  heavies_blind_cnt vb <> 1 ->
  heavies (VB.show_heavies vb) = heavies vb /\
  heavies_blind_cnt (VB.show_heavies vb) = heavies_blind_cnt vb - 1.
Proof.
  intros H. unfold VB.show_heavies. simpl.
  destruct (Z.eqb_spec (heavies_blind_cnt vb - 1) 0) as [E|E]; [lia|].
  simpl. split; reflexivity.
Qed.

(** The tick that reaches zero shows every item. *)
Lemma show_heavies_reveals (vb : FinViewBox) :
  heavies_blind_cnt vb = 1 ->
  all_visible (VB.show_heavies vb) /\
  heavies_blind_cnt (VB.show_heavies vb) = 0.
Proof.
  intros H. unfold VB.show_heavies, all_visible. simpl. rewrite H. simpl.
  split; [|reflexivity].
  apply Forall_forall. intros v Hv.
  apply in_map_iff in Hv. destruct Hv as (_ & <- & _). reflexivity.
Qed.

(** Once the counter is at or below zero no later tick reveals, and the
    items stay as they are. *)
Lemma ticks_after_zero (n : nat) (vb : FinViewBox) :
  heavies_blind_cnt vb <= 0 ->
  reveals n vb = 0%nat /\ heavies (ticks n vb) = heavies vb.
Proof.
  revert vb. induction n as [|n IH]; intros vb Hc; simpl; [split; reflexivity|].
  destruct (show_heavies_waits vb) as (Hh & Hk); [lia|].
  destruct (IH (VB.show_heavies vb)) as (Hr & Ht); [lia|].
  rewrite Hr, Ht, Hh.
  destruct (Z.eqb_spec (heavies_blind_cnt (VB.show_heavies vb)) 0); [lia|].
  split; reflexivity.
Qed.




Lemma _setRange_finite (vb s : FinViewBox) (x0 y0 x1 y1 : num) :
  VB._setRange vb x0 y0 x1 y1 = Returns s -> finite_rect (targetRect s).
Proof.
  rewrite returned_Returns, _setRange_spec. destruct (VB.fit_rect vb _) as [r'|] eqn:E; [|discriminate].
  intros H. injection H as <-. exact (fit_rect_finite _ _ _ E).
Qed.



(** Two registered items through a suppress, a tick, a second suppress
    and two more ticks. *)
Example heavies_gate_run :
  exists s s',
    VB._setRange Sample.heavy_vb (Fin 0) (Fin 10) (Fin 600) (Fin 20) = Returns s /\
    VB._setRange (ticks 1 s) (Fin 0) (Fin 10) (Fin 660) (Fin 21) = Returns s' /\
    heavies s = [false; false] /\
    heavies (ticks 1 s) = [false; false] /\
    heavies (ticks 2 s) = [true; true] /\
    heavies (ticks 1 s') = [false; false] /\
    heavies (ticks 2 s') = [true; true] /\
    heavies (ticks 7 s') = [true; true].
Proof.
  eexists. eexists.
  split; [vm_compute; reflexivity|].
  split; [vm_compute; reflexivity|].
  split; [vm_compute; reflexivity|].
  split; [vm_compute; reflexivity|].
  split; [vm_compute; reflexivity|].
  split; [vm_compute; reflexivity|].
  split; vm_compute; reflexivity.
Qed.

(* ================================================================= *)
(** ** Wheel zoom near the edges                                      *)
(* ================================================================= *)

(** [scaleRect] reads only the abscissa of the zoom center. *)
Lemma scaleRect_center_px (vb : FinViewBox) (vr : QRectF) (scale_fact : num)
      (c c' : Point) :
  px c = px c' ->
  VB.scaleRect vb vr scale_fact (Some c) = VB.scaleRect vb vr scale_fact (Some c').
Proof.
  intros H. unfold VB.scaleRect. cbv zeta. rewrite H. reflexivity.
Qed.

Lemma cursor_ratio (l r f : Q) :
  ~ (r - l == 0)%Q -> ((l + f * (r - l) - l) / (r - l) == f)%Q.
Proof.
  intros H. field. exact H.
Qed.

Section WheelSnap.

Variable float_pow : Q -> Q -> num.
Variable vb : FinViewBox.
Variable d : Z.

Let vr := targetRect vb.

Lemma wheelEvent_left_fifth (f : Q) (y : num) :
  (f < 2 # 10)%Q ->
  VB.wheelEvent float_pow vb (mkWheel d (cursor_at vb f y))
  = wheel_around float_pow vb d
      (match rect_width vr with NaN => NaN | Fin _ => rect_left vr end).
Proof.
  intros Hf. unfold VB.wheelEvent, wheel_around, cursor_at, rect_width.
  fold vr. simpl.
  destruct (rect_left vr) as [|l], (rect_right vr) as [|r]; simpl;
    try (apply scaleRect_center_px; reflexivity).
  destruct (Qeq_bool (r - l) 0) eqn:E; [reflexivity|].
  assert (Hnz : ~ (r - l == 0)%Q) by (intros H; apply Qeq_bool_iff in H; congruence).
  pose proof (cursor_ratio l r f Hnz) as Hratio.
  unfold Num.gtb, Num.ltb. rewrite Hratio.
  replace (Qle_bool (2 # 10) f) with false.
  - simpl. apply scaleRect_center_px. reflexivity.
  - symmetry. destruct (Qle_bool (2 # 10) f) eqn:L; [|reflexivity].
    apply Qle_bool_iff in L. exfalso. exact (Qlt_not_le _ _ Hf L).
Qed.

Lemma wheelEvent_right_fifth (f : Q) (y : num) :
  (8 # 10 < f)%Q ->
  VB.wheelEvent float_pow vb (mkWheel d (cursor_at vb f y))
  = wheel_around float_pow vb d
      (match rect_width vr with NaN => NaN | Fin _ => rect_right vr end).
Proof.
  intros Hf. unfold VB.wheelEvent, wheel_around, cursor_at, rect_width.
  fold vr. simpl.
  destruct (rect_left vr) as [|l], (rect_right vr) as [|r]; simpl;
    try (apply scaleRect_center_px; reflexivity).
  destruct (Qeq_bool (r - l) 0) eqn:E; [reflexivity|].
  assert (Hnz : ~ (r - l == 0)%Q) by (intros H; apply Qeq_bool_iff in H; congruence).
  pose proof (cursor_ratio l r f Hnz) as Hratio.
  unfold Num.gtb, Num.ltb. rewrite Hratio.
  replace (Qle_bool (2 # 10) f) with true.
  - cbn [negb]. rewrite Hratio. replace (Qle_bool f (8 # 10)) with false.
    + simpl. apply scaleRect_center_px. reflexivity.
    + symmetry. destruct (Qle_bool f (8 # 10)) eqn:L; [|reflexivity].
      apply Qle_bool_iff in L. exfalso. exact (Qlt_not_le _ _ Hf L).
  - symmetry. apply Qle_bool_iff. apply Qlt_le_weak.
    apply Qlt_trans with (8 # 10)%Q; [reflexivity | exact Hf].
Qed.

End WheelSnap.

(** On a rectangle of numbers with a nonzero width, [wheel_around] is
    [scaleRect] about the given abscissa. *)
Lemma wheel_around_scaleRect (float_pow : Q -> Q -> num) (vb : FinViewBox) (d : Z)
      (l r : Q) (x y : num) :
  rect_left (targetRect vb) = Fin l ->
  rect_right (targetRect vb) = Fin r ->
  ~ (r - l == 0)%Q ->
  wheel_around float_pow vb d x
  = VB.scaleRect vb (targetRect vb)
                 (float_pow (102 # 100) (inject_Z d * wheelScaleFactor vb)%Q)
                 (Some (mkPoint x y)).
Proof.
  intros Hl Hr Hnz. unfold wheel_around, rect_width. rewrite Hl, Hr. simpl.
  replace (Qeq_bool (r - l) 0) with false
    by (symmetry; destruct (Qeq_bool (r - l) 0) eqn:E; [|reflexivity];
        apply Qeq_bool_iff in E; contradiction).
  apply scaleRect_center_px. reflexivity.
Qed.

(** C10.  Whatever the rectangle and the wheel delta, the wheel handler
    gives the same result (the same rectangle, the same state) with the
    cursor at 0.1 of the width as with the cursor at 0.0, and the same with
    the cursor at 0.9 as at 1.0.  On a rectangle of numbers with a nonzero
    width (the toolkit never leaves another one) that result is the zoom
    about the edge: with the cursor anywhere in the left fifth the handler
    is [scaleRect] about the left edge of the rectangle, and with the
    cursor anywhere in the right fifth it is [scaleRect] about the right
    edge, by the factor [1.02 ** (delta * wheelScaleFactor)]. *)
Theorem wheel_edge_snap (float_pow : Q -> Q -> num) (vb : FinViewBox) (d : Z)
        (y y' : num) :
  let vr := targetRect vb in
  let scale_fact := float_pow (102 # 100) (inject_Z d * wheelScaleFactor vb)%Q in
  VB.wheelEvent float_pow vb (mkWheel d (cursor_at vb (1 # 10) y))
  = VB.wheelEvent float_pow vb (mkWheel d (cursor_at vb 0 y')) /\
  VB.wheelEvent float_pow vb (mkWheel d (cursor_at vb (9 # 10) y))
  = VB.wheelEvent float_pow vb (mkWheel d (cursor_at vb 1 y')) /\
  forall l r, rect_left vr = Fin l -> rect_right vr = Fin r -> ~ (r - l == 0)%Q ->
    (forall f, (f < 2 # 10)%Q ->
       VB.wheelEvent float_pow vb (mkWheel d (cursor_at vb f y))
       = VB.scaleRect vb vr scale_fact (Some (mkPoint (rect_left vr) y))) /\
    (forall f, (8 # 10 < f)%Q ->
       VB.wheelEvent float_pow vb (mkWheel d (cursor_at vb f y))
       = VB.scaleRect vb vr scale_fact (Some (mkPoint (rect_right vr) y))).
Proof.
  cbv zeta. split; [|split].
  - rewrite !wheelEvent_left_fifth by reflexivity. reflexivity.
  - rewrite !wheelEvent_right_fifth by reflexivity. reflexivity.
  - intros l r Hl Hr Hnz. split; intros f Hf.
    + rewrite (wheelEvent_left_fifth float_pow vb d f y Hf).
      unfold rect_width. rewrite Hl, Hr. simpl. rewrite <- Hl.
      exact (wheel_around_scaleRect float_pow vb d l r _ y Hl Hr Hnz).
    + rewrite (wheelEvent_right_fifth float_pow vb d f y Hf).
      unfold rect_width. rewrite Hl, Hr. simpl. rewrite <- Hr.
      exact (wheel_around_scaleRect float_pow vb d l r _ y Hl Hr Hnz).
Qed.

(** On the minute rows, rectangle (0, 10)-(1440, 34), factor 1/2: the
    cursor at 0.1 of the width zooms about the left edge 0 and the cursor
    at 0.9 about the right edge 1440. *)
Lemma wheel_edge_snap_witness :
  let fp := fun _ _ : Q => Fin (1 # 2) in
  let vr := targetRect Sample.line_vb in
  VB.wheelEvent fp Sample.line_vb (mkWheel 120 (cursor_at Sample.line_vb (1 # 10) (Fin 20)))
  = VB.scaleRect Sample.line_vb vr (Fin (1 # 2)) (Some (mkPoint (Fin 0) (Fin 20))) /\
  VB.wheelEvent fp Sample.line_vb (mkWheel 120 (cursor_at Sample.line_vb (9 # 10) (Fin 20)))
  = VB.scaleRect Sample.line_vb vr (Fin (1 # 2)) (Some (mkPoint (Fin 1440) (Fin 20))) /\
  VB.wheelEvent fp Sample.line_vb (mkWheel 120 (cursor_at Sample.line_vb (1 # 10) (Fin 20)))
  = VB.wheelEvent fp Sample.line_vb (mkWheel 120 (cursor_at Sample.line_vb 0 (Fin 7))).
Proof.
  intros fp vr.
  destruct (wheel_edge_snap fp Sample.line_vb 120 (Fin 20) (Fin 7)) as (H1 & _ & H3).
  destruct (H3 0%Q 1440%Q) as (HL & HR);
    [reflexivity | reflexivity | vm_compute; discriminate |].
  split; [exact (HL (1 # 10) ltac:(reflexivity))|].
  split; [exact (HR (9 # 10) ltac:(reflexivity)) | exact H1].
Defined.

(* ================================================================= *)
(** ** get_time                                                       *)
(* ================================================================= *)

Lemma nth_error_clamped {A : Type} (l : list A) (k : nat) :
  l <> [] -> exists x, nth_error l (List.length l - 1 - k) = Some x.
Proof.
  intros Hl. destruct (nth_error l (List.length l - 1 - k)) as [x|] eqn:E.
  - now exists x.
  - apply nth_error_None in E. destruct l; [contradiction | simpl in E; lia].
Qed.

Lemma get_time_none_iff (s : PandasDataSource) (offset_from_end : nat) (per : Q) :
  DS.get_time s offset_from_end per = None <->
  rows (df s) = [] \/ (~ (per == 0)%Q /\ (List.length (rows (df s)) < 2)%nat).
Proof.
  unfold DS.get_time, DS.period.
  destruct (rows (df s)) as [|r0 rs] eqn:Hrows.
  - simpl. destruct (if (0 <=? offset_from_end)%nat then 0%nat else offset_from_end);
      simpl; split; auto.
  - set (off := if (List.length (r0 :: rs) <=? offset_from_end)%nat
                then (List.length (r0 :: rs) - 1)%nat else offset_from_end).
    destruct (nth_error_clamped (r0 :: rs) off) as (r & Hr); [discriminate|].
    rewrite Hr.
    destruct (Qeq_bool per 0) eqn:Hp.
    + split; [discriminate|]. intros [H|[Hn _]]; [discriminate|].
      apply Qeq_bool_iff in Hp. contradiction.
    + assert (Hn : ~ (per == 0)%Q) by (intros H; apply Qeq_bool_iff in H; congruence).
      destruct rs as [|r1 rs']; simpl.
      * split; [intros _; right; split; [exact Hn | lia] | reflexivity].
      * split; [discriminate|]. intros [H|[_ H]]; [discriminate | lia].
Qed.

(** [get_time] raises exactly on an empty table, or when a period is asked
    for and the table has fewer than two rows; an offset beyond the table
    never makes it raise. *)
Theorem get_time_raises (s : PandasDataSource) (offset_from_end : nat) (per : Q) :
  DS.get_time s offset_from_end per = None <->
  rows (df s) = [] \/ (~ (per == 0)%Q /\ (List.length (rows (df s)) < 2)%nat).
Proof.
  apply get_time_none_iff.
Qed.

Lemma last_default {A : Type} (l : list A) (a d d' : A) :
  last (a :: l) d = last (a :: l) d'.
Proof.
  revert a. induction l as [|b l IH]; intros a; [reflexivity|].
  change (last (a :: b :: l) d) with (last (b :: l) d).
  change (last (a :: b :: l) d') with (last (b :: l) d').
  apply IH.
Qed.

Lemma nth_error_last {A : Type} (l : list A) (a : A) :
  nth_error (a :: l) (List.length l) = Some (last (a :: l) a).
Proof.
  revert a. induction l as [|b l IH]; intros a; [reflexivity|].
  change (nth_error (a :: b :: l) (List.length (b :: l)))
    with (nth_error (b :: l) (List.length l)).
  rewrite IH. f_equal.
  change (last (a :: b :: l) a) with (last (b :: l) a).
  apply last_default.
Qed.

(** With no period asked for, every offset at or beyond the first row
    gives the time of the first row, and offset 0 gives the time of the
    last row. *)
Theorem get_time_clamps (s : PandasDataSource) (r0 : row) (rs : list row)
        (offset_from_end : nat) :
  rows (df s) = r0 :: rs ->
  (List.length rs <= offset_from_end)%nat ->
  DS.get_time s offset_from_end 0 = Some (time r0) /\
  DS.get_time s 0 0 = Some (time (last (r0 :: rs) r0)).
Proof.
  intros Hrows Hoff. unfold DS.get_time. rewrite Hrows.
  change (Qeq_bool 0 0) with true. cbv zeta.
  split.
  - replace (List.length (r0 :: rs) - 1 -
             (if (List.length (r0 :: rs) <=? offset_from_end)%nat
              then (List.length (r0 :: rs) - 1)%nat else offset_from_end))%nat
      with 0%nat; [reflexivity|].
    destruct (Nat.leb_spec (List.length (r0 :: rs)) offset_from_end); simpl in *; lia.
  - replace (List.length (r0 :: rs) - 1 -
             (if (List.length (r0 :: rs) <=? 0)%nat
              then (List.length (r0 :: rs) - 1)%nat else 0))%nat
      with (List.length rs); [|simpl; lia].
    now rewrite nth_error_last.
Qed.

Lemma get_time_clamps_witness :
  DS.get_time Sample.line_store 1000 0 = Some (Fin 0) /\
  DS.get_time Sample.line_store 0 0 = Some (Fin 1440).
Proof.
  destruct (get_time_clamps Sample.line_store
              (Sample.line_row 0) (map Sample.line_row (seq 1 24)) 1000)
    as (H1 & H2).
  - reflexivity.
  - simpl. lia.
  - split; [exact H1 | exact H2].
Defined.

(* ================================================================= *)
(** ** addcols                                                        *)
(* ================================================================= *)

Lemma cell_app_left (r r' : row) (k : nat) :
  (k < List.length r)%nat -> cell (r ++ r') k = cell r k.
Proof.
  intros H. unfold cell. now apply app_nth1.
Qed.

Lemma time_padding (w : nat) (r : row) : (1 <= w)%nat -> time (repeat NaN w ++ r) = NaN.
Proof.
  destruct w; [lia | reflexivity].
Qed.

Lemma in_window_NaN (x0 x1 : num) (r : row) : time r = NaN -> DS.in_window x0 x1 r = false.
Proof.
  unfold DS.in_window, Num.geb, Num.leb. intros ->. destruct x0; reflexivity.
Qed.

Lemma in_window_time (x0 x1 : num) (r r' : row) :
  time r = time r' -> DS.in_window x0 x1 r = DS.in_window x0 x1 r'.
Proof.
  unfold DS.in_window. now intros ->.
Qed.

(** The selected times of a merged table are those of the table before the
    merge: old rows keep their time, padding rows have a NaN time. *)
Lemma concat_rows_window (wa wb : nat) (a b : list row) (x0 x1 : num) :
  (1 <= wa)%nat -> Forall (fun r => List.length r = wa) a ->
  map time (filter (DS.in_window x0 x1) (concat_rows wa wb a b))
  = map time (filter (DS.in_window x0 x1) a).
Proof.
  intros Hw Ha. revert b. induction Ha as [|ra a Hra _ IH]; intros b.
  - simpl. induction b as [|rb b IHb]; [reflexivity|]. simpl.
    rewrite (in_window_NaN _ _ _ (time_padding wa rb Hw)). exact IHb.
  - assert (Ht : forall r', time (ra ++ r') = time ra).
    { intros r'. apply cell_app_left. lia. }
    destruct b as [|rb b]; simpl;
      rewrite (in_window_time x0 x1 _ ra (Ht _));
      destruct (DS.in_window x0 x1 ra); simpl; rewrite ?IH, ?Ht; reflexivity.
Qed.








Lemma last_map {A B : Type} (f : A -> B) (l : list A) (d : A) :
  last (map f l) (f d) = f (last l d).
Proof.
  induction l as [|a l IH]; [reflexivity|].
  destruct l as [|b l]; [reflexivity|]. exact IH.
Qed.

Lemma _hilo_times (s : PandasDataSource) (x0 x1 : num) :
  let ts := map time (filter (DS.in_window x0 x1) (rows (df s))) in
  cnt (DS._hilo s x0 x1) = List.length ts /\
  t0 (DS._hilo s x0 x1) = hd (Fin 0) ts /\
  t1 (DS._hilo s x0 x1) = last ts (Fin 0).
Proof.
  unfold DS._hilo.
  destruct (filter (DS.in_window x0 x1) (rows (df s))) as [|r d]; [repeat split|].
  cbv zeta. simpl t0. simpl t1. simpl cnt.
  split; [now rewrite length_map|]. split; [reflexivity|].
  change (map time (r :: d)) with (time r :: map time d).
  rewrite (last_default (map time d) (time r) (Fin 0) (time r)).
  change (time r :: map time d) with (map time (r :: d)).
  symmetry. exact (last_map time (r :: d) r).
Qed.

(** Merging columns never changes which rows a window selects: on a
    rectangular table the count and the first and last time of every window
    are the same after [addcols], whatever frame is added. *)
Theorem addcols_keeps_window (s : PandasDataSource) (d : DataFrame) (x0 x1 : num) :
  rectangular (df s) ->
  cnt (DS._hilo (DS.addcols s d) x0 x1) = cnt (DS._hilo s x0 x1) /\
  t0 (DS._hilo (DS.addcols s d) x0 x1) = t0 (DS._hilo s x0 x1) /\
  t1 (DS._hilo (DS.addcols s d) x0 x1) = t1 (DS._hilo s x0 x1).
Proof.
  intros [Hw Hrect].
  destruct (_hilo_times (DS.addcols s d) x0 x1) as (Hc & H0 & H1).
  destruct (_hilo_times s x0 x1) as (Hc' & H0' & H1').
  cbv zeta in *. rewrite Hc, H0, H1, Hc', H0', H1'.
  simpl. now rewrite (concat_rows_window _ _ _ _ x0 x1 Hw Hrect).
Qed.

Lemma addcols_keeps_window_witness :
  cnt (DS._hilo (DS.addcols Sample.line_store Sample.extra_df) (Fin 0) (Fin 600)) = 11%nat /\
  t0 (DS._hilo (DS.addcols Sample.line_store Sample.extra_df) (Fin 0) (Fin 600)) = Fin 0 /\
  t1 (DS._hilo (DS.addcols Sample.line_store Sample.extra_df) (Fin 0) (Fin 600)) = Fin 600.
Proof.
  destruct (addcols_keeps_window Sample.line_store Sample.extra_df (Fin 0) (Fin 600))
    as (H1 & H2 & H3).
  - split; [vm_compute; lia | repeat constructor].
  - rewrite H1, H2, H3. split; [|split]; vm_compute; reflexivity.
Defined.

(* ================================================================= *)
(** ** What the range query returns                                   *)
(* ================================================================= *)

Lemma max2_cases (a b : num) : Num.max2 a b = a \/ Num.max2 a b = b.
Proof.
  destruct a as [|x], b as [|y]; simpl; auto. destruct (Qle_bool x y); auto.
Qed.

Lemma min2_cases (a b : num) : Num.min2 a b = a \/ Num.min2 a b = b.
Proof.
  destruct a as [|x], b as [|y]; simpl; auto. destruct (Qle_bool x y); auto.
Qed.

Lemma max2_ub (a b : num) (v : Q) :
  a = Fin v \/ b = Fin v -> exists h, Num.max2 a b = Fin h /\ (v <= h)%Q.
Proof.
  destruct a as [|x], b as [|y]; simpl; intros [H|H]; try discriminate;
    injection H as ->; try (eexists; split; [reflexivity | apply Qle_refl]).
  - destruct (Qle_bool v y) eqn:E; eexists; split; try reflexivity.
    + now apply Qle_bool_iff. + apply Qle_refl.
  - destruct (Qle_bool x v) eqn:E; eexists; split; try reflexivity.
    + apply Qle_refl.
    + apply Qlt_le_weak, Qnot_le_lt. intros H. apply Qle_bool_iff in H. congruence.
Qed.

Lemma min2_lb (a b : num) (v : Q) :
  a = Fin v \/ b = Fin v -> exists l, Num.min2 a b = Fin l /\ (l <= v)%Q.
Proof.
  destruct a as [|x], b as [|y]; simpl; intros [H|H]; try discriminate;
    injection H as ->; try (eexists; split; [reflexivity | apply Qle_refl]).
  - destruct (Qle_bool v y) eqn:E; eexists; split; try reflexivity.
    + apply Qle_refl.
    + apply Qlt_le_weak, Qnot_le_lt. intros H. apply Qle_bool_iff in H. congruence.
  - destruct (Qle_bool x v) eqn:E; eexists; split; try reflexivity.
    + now apply Qle_bool_iff. + apply Qle_refl.
Qed.

(** The running maximum is its start or a member, and bounds every number
    met from above. *)
Lemma fold_max2 (l : list num) (a : num) :
  (fold_left Num.max2 l a = a \/ In (fold_left Num.max2 l a) l) /\
  (forall v, a = Fin v \/ In (Fin v) l ->
             exists h, fold_left Num.max2 l a = Fin h /\ (v <= h)%Q).
Proof.
  revert a. induction l as [|x l IH]; intros a; simpl.
  - split; [now left|]. intros v [->|[]]. exists v. split; [reflexivity | apply Qle_refl].
  - destruct (IH (Num.max2 a x)) as (Hin & Hub). split.
    + destruct Hin as [-> | Hin]; [|now right; right].
      destruct (max2_cases a x) as [-> | ->]; [now left | now right; left].
    + intros v [Ha | [Hx | Hl]].
      * destruct (max2_ub a x v (or_introl Ha)) as (h' & Hh' & Hle).
        destruct (Hub h' (or_introl Hh')) as (h & Hh & Hle').
        exists h. split; [exact Hh | eapply Qle_trans; eassumption].
      * destruct (max2_ub a x v (or_intror Hx)) as (h' & Hh' & Hle).
        destruct (Hub h' (or_introl Hh')) as (h & Hh & Hle').
        exists h. split; [exact Hh | eapply Qle_trans; eassumption].
      * apply Hub. now right.
Qed.

Lemma fold_min2 (l : list num) (a : num) :
  (fold_left Num.min2 l a = a \/ In (fold_left Num.min2 l a) l) /\
  (forall v, a = Fin v \/ In (Fin v) l ->
             exists m, fold_left Num.min2 l a = Fin m /\ (m <= v)%Q).
Proof.
  revert a. induction l as [|x l IH]; intros a; simpl.
  - split; [now left|]. intros v [->|[]]. exists v. split; [reflexivity | apply Qle_refl].
  - destruct (IH (Num.min2 a x)) as (Hin & Hlb). split.
    + destruct Hin as [-> | Hin]; [|now right; right].
      destruct (min2_cases a x) as [-> | ->]; [now left | now right; left].
    + intros v [Ha | [Hx | Hl]].
      * destruct (min2_lb a x v (or_introl Ha)) as (m' & Hm' & Hle).
        destruct (Hlb m' (or_introl Hm')) as (m & Hm & Hle').
        exists m. split; [exact Hm | eapply Qle_trans; eassumption].
      * destruct (min2_lb a x v (or_intror Hx)) as (m' & Hm' & Hle).
        destruct (Hlb m' (or_introl Hm')) as (m & Hm & Hle').
        exists m. split; [exact Hm | eapply Qle_trans; eassumption].
      * apply Hlb. now right.
Qed.

Lemma nanmax_spec (l : list num) :
  (Num.nanmax l = NaN \/ In (Num.nanmax l) l) /\
  (forall v, In (Fin v) l -> exists h, Num.nanmax l = Fin h /\ (v <= h)%Q).
Proof.
  destruct (fold_max2 l NaN) as (H1 & H2). split; [exact H1|].
  intros v Hv. apply H2. now right.
Qed.

Lemma nanmin_spec (l : list num) :
  (Num.nanmin l = NaN \/ In (Num.nanmin l) l) /\
  (forall v, In (Fin v) l -> exists m, Num.nanmin l = Fin m /\ (m <= v)%Q).
Proof.
  destruct (fold_min2 l NaN) as (H1 & H2). split; [exact H1|].
  intros v Hv. apply H2. now right.
Qed.

Lemma positions_spec (label : string) (labels : list string) (i k : nat) :
  In k (positions i label labels) <->
  (i <= k < i + List.length labels)%nat /\ nth (k - i) labels EmptyString = label.
Proof.
  revert i. induction labels as [|c cs IH]; intros i; simpl.
  - split; [intros [] | intros [H _]; lia].
  - assert (Hrest : In k (positions (S i) label cs) <->
                    (S i <= k < i + S (List.length cs))%nat /\
                    nth (k - i) (c :: cs) EmptyString = label).
    { rewrite IH. split.
      - intros [H E]. split; [lia|].
        replace (k - i)%nat with (S (k - S i)) by lia. exact E.
      - intros [H E]. split; [lia|].
        replace (k - i)%nat with (S (k - S i)) in E by lia. exact E. }
    destruct (String.eqb_spec c label) as [E|E].
    + simpl. rewrite Hrest. split.
      * intros [<- | [H E']]; [|split; [lia | exact E']].
        split; [lia|]. now rewrite Nat.sub_diag.
      * intros [H E']. destruct (Nat.eq_dec i k) as [->|N]; [now left|].
        right. split; [lia | exact E'].
    + rewrite Hrest. split.
      * intros [H E']. split; [lia | exact E'].
      * intros [H E']. split; [|exact E'].
        destruct (Nat.eq_dec i k) as [->|N]; [|lia].
        rewrite Nat.sub_diag in E'. simpl in E'. contradiction.
Qed.

(** [df[key]] takes column [k] exactly when its label is in the key. *)
Lemma get_indexer_spec (labels key : list string) (k : nat) :
  In k (get_indexer labels key) <->
  (k < List.length labels)%nat /\ In (nth k labels EmptyString) key.
Proof.
  unfold get_indexer. rewrite in_flat_map. split.
  - intros (label & Hl & Hk). apply positions_spec in Hk.
    rewrite Nat.sub_0_r in Hk. destruct Hk as [H <-]. split; [lia | exact Hl].
  - intros [H Hl]. exists (nth k labels EmptyString). split; [exact Hl|].
    apply positions_spec. rewrite Nat.sub_0_r. split; [lia | reflexivity].
Qed.

Lemma In_skipn (n : nat) (labels : list string) (label : string) :
  In label (skipn n labels) <->
  exists j, (n <= j < List.length labels)%nat /\ nth j labels EmptyString = label.
Proof.
  revert labels. induction n as [|n IH]; intros labels.
  - simpl. split.
    + intros H. destruct (In_nth _ _ EmptyString H) as (j & Hj & E).
      exists j. split; [lia | exact E].
    + intros (j & Hj & <-). apply nth_In. lia.
  - destruct labels as [|c cs]; simpl.
    + split; [intros [] | intros (j & Hj & _); lia].
    + rewrite IH. split.
      * intros (j & Hj & E). exists (S j). split; [lia | exact E].
      * intros ([|j] & Hj & E); [lia|]. exists j. split; [lia | exact E].
Qed.

Lemma valcols_spec (s : PandasDataSource) (k : nat) :
  In k (get_indexer (columns (df s))
                    (skipn (skip_scale_colcnt s) (columns (df s)))) <->
  scaled_column s k.
Proof.
  unfold scaled_column, ncols. rewrite get_indexer_spec, In_skipn. tauto.
Qed.

(** [_hilo] on a window that holds a row, with the selected rows named. *)
Lemma _hilo_nonempty (s : PandasDataSource) (x0 x1 : num) :
  let d := filter (DS.in_window x0 x1) (rows (df s)) in
  let valcols := skipn (skip_scale_colcnt s) (columns (df s)) in
  let scaled := get_indexer (columns (df s)) valcols in
  d <> [] ->
  hi (DS._hilo s x0 x1) = Num.nanmax (map (fun c => Num.nanmax (column d c)) scaled) /\
  lo (DS._hilo s x0 x1) = Num.nanmin (map (fun c => Num.nanmin (column d c)) scaled).
Proof.
  unfold DS._hilo. cbv zeta.
  destruct (filter (DS.in_window x0 x1) (rows (df s))); [contradiction|].
  intros _. split; reflexivity.
Qed.

Lemma scaled_cell_column (s : PandasDataSource) (x0 x1 : num) (c : num) :
  scaled_cell s x0 x1 c <->
  exists k, In k (get_indexer (columns (df s))
                              (skipn (skip_scale_colcnt s) (columns (df s)))) /\
            In c (column (filter (DS.in_window x0 x1) (rows (df s))) k).
Proof.
  unfold scaled_cell, column. split.
  - intros (r & k & Hr & Hw & Hk & ->). exists k. split; [now apply valcols_spec|].
    apply in_map_iff. exists r. split; [reflexivity|]. apply filter_In. now split.
  - intros (k & Hk & Hc). apply in_map_iff in Hc. destruct Hc as (r & <- & Hr).
    apply filter_In in Hr. destruct Hr as (Hr & Hw).
    exists r, k. split; [exact Hr|]. split; [exact Hw|].
    split; [now apply valcols_spec | reflexivity].
Qed.

(** On a window that holds a row, [hi] bounds from above and [lo] from
    below every number among the scaled cells: the cells of the selected
    rows in the columns that [df[df.columns[skip_scale_colcnt:]]] selects,
    which are the columns carrying the label of a column from
    [skip_scale_colcnt] on (a skipped column too, when a merged column
    repeats its label).  Each of the two is itself one of those cells, or
    NaN when none of them is a number. *)
Theorem hilo_hi_lo (s : PandasDataSource) (x0 x1 : num) :
  (0 < cnt (DS._hilo s x0 x1))%nat ->
  (forall v, scaled_cell s x0 x1 (Fin v) ->
             exists h l, hi (DS._hilo s x0 x1) = Fin h /\ lo (DS._hilo s x0 x1) = Fin l /\
                         (l <= v)%Q /\ (v <= h)%Q) /\
  (hi (DS._hilo s x0 x1) = NaN \/ scaled_cell s x0 x1 (hi (DS._hilo s x0 x1))) /\
  (lo (DS._hilo s x0 x1) = NaN \/ scaled_cell s x0 x1 (lo (DS._hilo s x0 x1))).
Proof.
  intros Hcnt. rewrite _hilo_cnt in Hcnt.
  assert (Hd : filter (DS.in_window x0 x1) (rows (df s)) <> []).
  { intros E. rewrite E in Hcnt. simpl in Hcnt. lia. }
  destruct (_hilo_nonempty s x0 x1 Hd) as (Hhi & Hlo). cbv zeta in Hhi, Hlo.
  rewrite Hhi, Hlo. clear Hhi Hlo.
  set (d := filter (DS.in_window x0 x1) (rows (df s))).
  set (valcols := get_indexer (columns (df s))
                              (skipn (skip_scale_colcnt s) (columns (df s)))).
  split; [|split].
  - intros v Hv. apply scaled_cell_column in Hv. destruct Hv as (k & Hk & Hc).
    destruct (proj2 (nanmax_spec (column d k)) v Hc) as (m & Hm & Hvm).
    destruct (proj2 (nanmin_spec (column d k)) v Hc) as (n & Hn & Hnv).
    destruct (proj2 (nanmax_spec (map (fun c => Num.nanmax (column d c)) valcols)) m)
      as (h & Hh & Hmh).
    { rewrite <- Hm. apply in_map_iff. now exists k. }
    destruct (proj2 (nanmin_spec (map (fun c => Num.nanmin (column d c)) valcols)) n)
      as (l & Hl & Hln).
    { rewrite <- Hn. apply in_map_iff. now exists k. }
    exists h, l. repeat split; try assumption; eapply Qle_trans; eassumption.
  - destruct (proj1 (nanmax_spec (map (fun c => Num.nanmax (column d c)) valcols)))
      as [H|H]; [now left|].
    apply in_map_iff in H. destruct H as (k & Hk & Hin).
    destruct (proj1 (nanmax_spec (column d k))) as [H|H].
    + left. now rewrite <- Hk.
    + right. apply scaled_cell_column. exists k. split; [exact Hin|]. now rewrite <- Hk.
  - destruct (proj1 (nanmin_spec (map (fun c => Num.nanmin (column d c)) valcols)))
      as [H|H]; [now left|].
    apply in_map_iff in H. destruct H as (k & Hk & Hin).
    destruct (proj1 (nanmin_spec (column d k))) as [H|H].
    + left. now rewrite <- Hk.
    + right. apply scaled_cell_column. exists k. split; [exact Hin|]. now rewrite <- Hk.
Qed.

(** On the volume frame, scaled over its volume column only, with a line
    labelled [open] merged in: the skipped open column carries a scaled
    label, and its cell 5 of the first row is the [lo] over the window
    (0, 120), below every volume. *)
Lemma hilo_hi_lo_witness :
  let s := DS.addcols Demo.volume_store Demo.open_line_df in
  columns (df s) = ["time"; "open"; "close"; "volume"; "open"]%string /\
  skip_scale_colcnt s = 3%nat /\
  scaled_cell s (Fin 0) (Fin 120) (Fin 5) /\
  hi (DS._hilo s (Fin 0) (Fin 120)) = Fin 1000 /\
  lo (DS._hilo s (Fin 0) (Fin 120)) = Fin 5 /\
  exists h l, hi (DS._hilo s (Fin 0) (Fin 120)) = Fin h /\
              lo (DS._hilo s (Fin 0) (Fin 120)) = Fin l /\
              (l <= 5)%Q /\ (5 <= h)%Q.
Proof.
  intros s.
  assert (Hc : scaled_cell s (Fin 0) (Fin 120) (Fin 5)).
  { exists [Fin 0; Fin 5; Fin 7; Fin 100; Fin 1000], 1%nat.
    split; [left; reflexivity|]. split; [vm_compute; reflexivity|].
    split; [|reflexivity].
    split; [vm_compute; lia|]. exists 4%nat. split; [vm_compute; lia | reflexivity]. }
  destruct (hilo_hi_lo s (Fin 0) (Fin 120)) as (H & _ & _).
  - vm_compute. lia.
  - split; [reflexivity|]. split; [reflexivity|]. split; [exact Hc|].
    split; [vm_compute; reflexivity|]. split; [vm_compute; reflexivity|].
    exact (H 5%Q Hc).
Defined.

Lemma filter_sorted {A : Type} (R : A -> A -> Prop) (f : A -> bool) (l : list A) :
  StronglySorted R l -> StronglySorted R (filter f l).
Proof.
  induction 1 as [|a l Hl IH Ha]; simpl; [constructor|].
  destruct (f a); [|exact IH]. constructor; [exact IH|].
  apply Forall_forall. intros x Hx. apply filter_In in Hx.
  exact (proj1 (Forall_forall _ _) Ha x (proj1 Hx)).
Qed.

Lemma sorted_last {A : Type} (R : A -> A -> Prop) (l : list A) (a : A) :
  StronglySorted R (a :: l) ->
  forall x, In x (a :: l) -> x = last (a :: l) a \/ R x (last (a :: l) a).
Proof.
  revert a. induction l as [|b l IH]; intros a Hs x Hx.
  - destruct Hx as [<-|[]]. now left.
  - change (last (a :: b :: l) a) with (last (b :: l) a).
    rewrite (last_default l b a b).
    apply StronglySorted_inv in Hs. destruct Hs as (Hs & Ha).
    destruct Hx as [<- | Hx]; [|now apply IH].
    right. apply (proj1 (Forall_forall _ _) Ha).
    clear. revert b. induction l as [|c l IH]; intros b; [now left|].
    change (last (b :: c :: l) b) with (last (c :: l) b).
    rewrite (last_default l c b c). right. apply IH.
Qed.

Lemma le_refl_in_window (x0 x1 : num) (r : row) :
  DS.in_window x0 x1 r = true -> Num.le (time r) (time r).
Proof.
  intros H. apply in_window_spec in H. destruct H as (H & _).
  destruct (time r); [destruct x0; contradiction | apply Qle_refl].
Qed.

(** On a window that holds a row, [t0] is the time of the first selected
    row and [t1] the time of the last selected row, in table order, and
    [cnt] is the number of rows selected; so both times lie in [x0, x1],
    and when the table is in time order every selected time lies between
    [t0] and [t1]. *)
Theorem hilo_t0_t1 (s : PandasDataSource) (x0 x1 : num) :
  (0 < cnt (DS._hilo s x0 x1))%nat ->
  (exists first rest,
     filter (DS.in_window x0 x1) (rows (df s)) = first :: rest /\
     t0 (DS._hilo s x0 x1) = time first /\
     t1 (DS._hilo s x0 x1) = time (last (first :: rest) first) /\
     cnt (DS._hilo s x0 x1) = S (List.length rest)) /\
  cnt (DS._hilo s x0 x1) = List.length (filter (DS.in_window x0 x1) (rows (df s))) /\
  Num.le x0 (t0 (DS._hilo s x0 x1)) /\ Num.le (t0 (DS._hilo s x0 x1)) x1 /\
  Num.le x0 (t1 (DS._hilo s x0 x1)) /\ Num.le (t1 (DS._hilo s x0 x1)) x1 /\
  (time_sorted (rows (df s)) ->
   forall r, In r (rows (df s)) -> DS.in_window x0 x1 r = true ->
             Num.le (t0 (DS._hilo s x0 x1)) (time r) /\
             Num.le (time r) (t1 (DS._hilo s x0 x1))).
Proof.
  intros Hcnt. rewrite _hilo_cnt in Hcnt. unfold DS._hilo.
  destruct (filter (DS.in_window x0 x1) (rows (df s))) as [|first d] eqn:Hd;
    [simpl in Hcnt; lia|].
  cbv zeta. simpl t0. simpl t1. simpl cnt.
  split; [exists first, d; split; [reflexivity|]; split; [reflexivity|];
          split; reflexivity|].
  split; [reflexivity|].
  assert (Hin : forall r, In r (first :: d) -> In r (rows (df s)) /\ DS.in_window x0 x1 r = true).
  { intros r Hr. rewrite <- Hd in Hr. now apply filter_In in Hr. }
  assert (Hfirst := proj2 (Hin first (or_introl eq_refl))).
  assert (Hlast : DS.in_window x0 x1 (last (first :: d) first) = true).
  { apply Hin. destruct (exists_last (l := first :: d)) as (l' & a & E); [discriminate|].
    rewrite E, last_last. apply in_or_app. right. now left. }
  apply in_window_spec in Hfirst, Hlast.
  change (match d with [] => first | _ :: _ => last d first end)
    with (last (first :: d) first).
  repeat split; try tauto.
  - assert (Hs : StronglySorted (fun a b => Num.le (time a) (time b)) (first :: d)).
    { rewrite <- Hd. now apply filter_sorted. }
    assert (Hr : In r (first :: d)) by (rewrite <- Hd; apply filter_In; now split).
    apply StronglySorted_inv in Hs. destruct Hs as (_ & Hs).
    destruct Hr as [<- | Hr]; [now apply (le_refl_in_window x0 x1)|].
    exact (proj1 (Forall_forall _ _) Hs r Hr).
  - assert (Hs : StronglySorted (fun a b => Num.le (time a) (time b)) (first :: d)).
    { rewrite <- Hd. now apply filter_sorted. }
    assert (Hr : In r (first :: d)) by (rewrite <- Hd; apply filter_In; now split).
    destruct (sorted_last _ d first Hs r Hr) as [<- | Hle];
      [now apply (le_refl_in_window x0 x1) | exact Hle].
Qed.

Lemma hilo_t0_t1_witness :
  (exists first rest,
     filter (DS.in_window (Fin 30) (Fin 200)) (rows (df Demo.ohlc_store)) = first :: rest /\
     t0 (DS._hilo Demo.ohlc_store (Fin 30) (Fin 200)) = time first /\
     t1 (DS._hilo Demo.ohlc_store (Fin 30) (Fin 200)) = time (last (first :: rest) first) /\
     cnt (DS._hilo Demo.ohlc_store (Fin 30) (Fin 200)) = S (List.length rest)) /\
  cnt (DS._hilo Demo.ohlc_store (Fin 30) (Fin 200)) = 3%nat /\
  t0 (DS._hilo Demo.ohlc_store (Fin 30) (Fin 200)) = Fin 60 /\
  t1 (DS._hilo Demo.ohlc_store (Fin 30) (Fin 200)) = Fin 180 /\
  Num.le (Fin 30) (t0 (DS._hilo Demo.ohlc_store (Fin 30) (Fin 200))) /\
  Num.le (t1 (DS._hilo Demo.ohlc_store (Fin 30) (Fin 200))) (Fin 200).
Proof.
  destruct (hilo_t0_t1 Demo.ohlc_store (Fin 30) (Fin 200))
    as (H0 & _ & H1 & _ & _ & H2 & _).
  - vm_compute. lia.
  - split; [exact H0|].
    split; [vm_compute; reflexivity|]. split; [vm_compute; reflexivity|].
    split; [vm_compute; reflexivity|]. split; [exact H1 | exact H2].
Defined.

Lemma filter_length_mono {A : Type} (f g : A -> bool) (l : list A) :
  (forall x, f x = true -> g x = true) ->
  (List.length (filter f l) <= List.length (filter g l))%nat.
Proof.
  intros H. induction l as [|a l IH]; simpl; [lia|].
  destruct (f a) eqn:E.
  - rewrite (H a E). simpl. lia.
  - destruct (g a); simpl; lia.
Qed.

(** Widening the window never loses rows: with [x0' <= x0] and
    [x1 <= x1'] the count over (x0', x1') is at least the count over
    (x0, x1). *)
Theorem hilo_widen (s : PandasDataSource) (x0 x1 x0' x1' : num) :
  Num.le x0' x0 -> Num.le x1 x1' ->
  (cnt (DS._hilo s x0 x1) <= cnt (DS._hilo s x0' x1'))%nat.
Proof.
  intros H0 H1. rewrite !_hilo_cnt. apply filter_length_mono.
  intros r Hr. apply in_window_spec in Hr. apply in_window_spec.
  destruct Hr as (Ha & Hb). split; eapply le_trans; eassumption.
Qed.

Lemma hilo_widen_witness :
  (cnt (DS._hilo Sample.line_store (Fin 60) (Fin 600))
   <= cnt (DS._hilo Sample.line_store (Fin 0) (Fin 1440)))%nat.
Proof.
  apply (hilo_widen Sample.line_store (Fin 60) (Fin 600) (Fin 0) (Fin 1440)).
  - simpl. lra.
  - simpl. lra.
Defined.

(* ================================================================= *)
(** ** Stores as the module builds them                               *)
(* ================================================================= *)

(** The first [hilo] on a store straight from [__init__] always computes:
    the empty initial key matches no window. *)
Theorem hilo_first_call (d : DataFrame) (x0 x1 : num) :
  DS.hilo (DS.__init__ d) x0 x1
  = (Some (DS._hilo (DS.__init__ d) x0 x1),
     mkDS d 1 (DS.query_of x0 x1) (Some (DS._hilo (DS.__init__ d) x0 x1))).
Proof.
  apply hilo_miss. apply query_of_not_empty.
Qed.

Lemma built_cache_sound (s : PandasDataSource) : built s -> cache_sound s.
Proof.
  induction 1.
  - apply cache_sound_init.
  - now apply cache_sound_hilo.
  - now apply cache_sound_addcols.
  - now apply cache_sound_skip.
Qed.

(** On every store built by [__init__], [hilo], [addcols] and changes of
    the column skip, [hilo] returns five values, never [None], and the
    count it returns is at most the number of rows of the table. *)
Theorem built_hilo_answers (s : PandasDataSource) (x0 x1 : num) :
  built s ->
  exists a, fst (DS.hilo s x0 x1) = Some a /\
            (cnt a <= List.length (rows (df s)))%nat.
Proof.
  intros H. apply hilo_sound_answer, built_cache_sound, H.
Qed.

Lemma built_hilo_answers_witness :
  exists a, fst (DS.hilo (DS.addcols (snd (DS.hilo Sample.line_store (Fin 0) (Fin 600)))
                                     Sample.extra_df) (Fin 0) (Fin 600)) = Some a /\
            (cnt a <= 25)%nat.
Proof.
  apply (built_hilo_answers
           (DS.addcols (snd (DS.hilo Sample.line_store (Fin 0) (Fin 600))) Sample.extra_df)).
  apply built_addcols, built_hilo, built_init.
Defined.

(* ================================================================= *)
(** ** Binding a store to the view box                                *)
(* ================================================================= *)

Lemma get_time_some (s : PandasDataSource) (offset_from_end : nat) (per : Q) :
  (2 <= List.length (rows (df s)))%nat ->
  exists t, DS.get_time s offset_from_end per = Some t.
Proof.
  intros H. destruct (DS.get_time s offset_from_end per) as [t|] eqn:E; [now exists t|].
  apply get_time_none_iff in E. destruct E as [E | [_ E]]; [|lia].
  rewrite E in H. simpl in H. lia.
Qed.

Lemma get_time_short (s : PandasDataSource) (offset_from_end : nat) (per : Q) :
  (List.length (rows (df s)) < 2)%nat -> ~ (per == 0)%Q ->
  DS.get_time s offset_from_end per = None.
Proof.
  intros H Hp. apply get_time_none_iff. right. now split.
Qed.

(** [set_datasrc] spelt out on a store of two rows or more whose cache is
    sound. *)
Lemma set_datasrc_bound (v : FinViewBox) (s : PandasDataSource) :
  cache_sound s ->
  (2 <= List.length (rows (df s)))%nat ->
  exists x0 x1 a s',
    DS.get_time s (init_steps v) (- (1 # 2)) = Some x0 /\
    DS.get_time s 0 (1 # 2) = Some x1 /\
    DS.hilo s x0 x1 = (Some a, s') /\
    VB.set_datasrc v (Some s)
    = if (20 <=? cnt a)%nat
      then returned (VB.setRange (VB.with_datasrc v (Some s'))
                                 (mkRect (t0 a) (lo a) (t1 a) (hi a)))
      else Some (VB.with_datasrc v (Some s')).
Proof.
  intros Hs Hn.
  destruct (get_time_some s (init_steps v) (- (1 # 2)) Hn) as (x0 & Hx0).
  destruct (get_time_some s 0 (1 # 2) Hn) as (x1 & Hx1).
  destruct (hilo_sound_answer s x0 x1 Hs) as (a & Ha & _).
  exists x0, x1, a, (snd (DS.hilo s x0 x1)).
  assert (Hq : DS.hilo s x0 x1 = (Some a, snd (DS.hilo s x0 x1))).
  { rewrite <- Ha. apply surjective_pairing. }
  split; [exact Hx0 | split; [exact Hx1 | split; [exact Hq|]]].
  unfold VB.set_datasrc. cbv zeta.
  change (init_steps (VB.with_datasrc v (Some s))) with (init_steps v).
  rewrite Hx0, Hx1, Hq.
  destruct (20 <=? cnt a)%nat; reflexivity.
Qed.

(** [setRange] on a view box whose store alone was changed. *)
Lemma setRange_with_datasrc (v : FinViewBox) (d : option PandasDataSource) (r : QRectF) :
  returned (VB.setRange (VB.with_datasrc v d) r) =
  match VB.fit_rect v r with
  | None => None
  | Some r' => Some (VB.with_targetRect (VB.with_datasrc v d) r')
  end.
Proof.
  rewrite setRange_returned.
  now rewrite (fit_rect_ext (VB.with_datasrc v d) v) by reflexivity.
Qed.

(** Binding a store (its cache sound) raises when the store has fewer than
    two rows: the initial window needs the period.  With two rows or more
    the store answers for the initial window; binding returns when the
    answer counts fewer than 20 rows or its four values are numbers, and
    raises, from the toolkit's [setRange], when it counts 20 rows or more
    and its [t0] or its [lo] is NaN (the scaled cells of the window are
    all NaN). *)
Theorem set_datasrc_raises (v : FinViewBox) (s : PandasDataSource) :
  cache_sound s ->
  finite_rect (targetRect v) ->
  ((List.length (rows (df s)) < 2)%nat -> VB.set_datasrc v (Some s) = None) /\
  ((2 <= List.length (rows (df s)))%nat ->
   exists x0 x1 a s',
     DS.get_time s (init_steps v) (- (1 # 2)) = Some x0 /\
     DS.get_time s 0 (1 # 2) = Some x1 /\
     DS.hilo s x0 x1 = (Some a, s') /\
     ((cnt a < 20)%nat \/ finite_rect (mkRect (t0 a) (lo a) (t1 a) (hi a)) ->
      exists v', VB.set_datasrc v (Some s) = Some v') /\
     ((20 <= cnt a)%nat -> t0 a = NaN \/ lo a = NaN ->
      VB.set_datasrc v (Some s) = None)).
Proof.
  intros Hs Hfin. split.
  - intros H. unfold VB.set_datasrc. cbv zeta.
    rewrite get_time_short; [reflexivity | exact H | discriminate].
  - intros H.
    destruct (set_datasrc_bound v s Hs H) as (x0 & x1 & a & s' & H0 & H1 & Hq & E).
    exists x0, x1, a, s'.
    split; [exact H0 | split; [exact H1 | split; [exact Hq|]]].
    rewrite E, setRange_with_datasrc. split.
    + intros [Hc | Hr].
      * destruct (Nat.leb_spec 20 (cnt a)); [lia|]. eexists. reflexivity.
      * destruct (20 <=? cnt a)%nat; [|eexists; reflexivity].
        destruct (fit_rect_returns v _ Hfin Hr) as (r' & ->). eexists. reflexivity.
    + intros Hc HN. destruct (Nat.leb_spec 20 (cnt a)); [|lia].
      now rewrite (fit_rect_nan v (mkRect (t0 a) (lo a) (t1 a) (hi a)) HN).
Qed.

Lemma set_datasrc_raises_witness :
  VB.set_datasrc (VB.__init__ 300) (Some Demo.single_store) = None /\
  VB.set_datasrc (VB.__init__ 300) (Some Demo.blank_store) = None /\
  exists v', VB.set_datasrc (VB.__init__ 300) (Some Sample.line_store) = Some v'.
Proof.
  split; [|split].
  - apply (set_datasrc_raises (VB.__init__ 300) Demo.single_store).
    + left. reflexivity.
    + vm_compute. tauto.
    + vm_compute. lia.
  - destruct (set_datasrc_raises (VB.__init__ 300) Demo.blank_store) as (_ & H).
    + left. reflexivity.
    + vm_compute. tauto.
    + destruct H as (x0 & x1 & a & s' & H0 & H1 & Hq & _ & HN); [vm_compute; lia|].
      vm_compute in H0. injection H0 as <-.
      vm_compute in H1. injection H1 as <-.
      vm_compute in Hq. injection Hq as <- <-.
      apply HN; [vm_compute; lia | right; reflexivity].
  - destruct (set_datasrc_raises (VB.__init__ 300) Sample.line_store) as (_ & H).
    + left. reflexivity.
    + vm_compute. tauto.
    + destruct H as (x0 & x1 & a & s' & H0 & H1 & Hq & HR & _); [vm_compute; lia|].
      vm_compute in H0. injection H0 as <-.
      vm_compute in H1. injection H1 as <-.
      vm_compute in Hq. injection Hq as <- <-.
      apply HR. right. vm_compute. tauto.
Defined.

(** Binding a store of two rows or more (its cache sound), when it
    returns, keeps the heavy items, their counter, the flag and the limits
    as they were, and seeds the rectangle from the store's answer for the
    initial window: the old rectangle stays when the answer counts fewer
    than 20 rows; otherwise the rectangle is what the toolkit's [setRange]
    makes of [(t0, lo)-(t1, hi)], without the half periods, and it is
    exactly that rectangle (and binding returns) when [t0 < t1] and
    [lo < hi], neither range is too narrow for the toolkit, and no limit
    cuts into it. *)
Theorem set_datasrc_seeds (v : FinViewBox) (s : PandasDataSource) :
  cache_sound s ->
  (2 <= List.length (rows (df s)))%nat ->
  exists x0 x1 a s',
    DS.get_time s (init_steps v) (- (1 # 2)) = Some x0 /\
    DS.get_time s 0 (1 # 2) = Some x1 /\
    DS.hilo s x0 x1 = (Some a, s') /\
    (forall v', VB.set_datasrc v (Some s) = Some v' ->
       datasrc v' = Some s' /\
       heavies v' = heavies v /\
       heavies_blind_cnt v' = heavies_blind_cnt v /\
       auto_scale_y v' = auto_scale_y v /\
       xMin v' = xMin v /\ xMax v' = xMax v /\
       yMin v' = yMin v /\ yMax v' = yMax v /\
       ((cnt a < 20)%nat -> targetRect v' = targetRect v) /\
       ((20 <= cnt a)%nat ->
        VB.fit_rect v (mkRect (t0 a) (lo a) (t1 a) (hi a)) = Some (targetRect v'))) /\
    ((20 <= cnt a)%nat ->
     proper_range (t0 a) (t1 a) -> fits (xMin v) (xMax v) (t0 a) (t1 a) ->
     proper_range (lo a) (hi a) -> fits (yMin v) (yMax v) (lo a) (hi a) ->
     exists v', VB.set_datasrc v (Some s) = Some v' /\
                targetRect v' = mkRect (t0 a) (lo a) (t1 a) (hi a)).
Proof.
  intros Hs Hn.
  destruct (set_datasrc_bound v s Hs Hn) as (x0 & x1 & a & s' & H0 & H1 & Hq & E).
  exists x0, x1, a, s'.
  split; [exact H0 | split; [exact H1 | split; [exact Hq|]]].
  rewrite E, setRange_with_datasrc. split.
  - intros v' Hv'. destruct (Nat.leb_spec 20 (cnt a)) as [Hc|Hc].
    + destruct (VB.fit_rect v _) as [r'|]; [|discriminate].
      injection Hv' as <-. simpl.
      split; [reflexivity|]. split; [reflexivity|]. split; [reflexivity|].
      split; [reflexivity|]. split; [reflexivity|]. split; [reflexivity|].
      split; [reflexivity|]. split; [reflexivity|].
      split; [intros; lia | reflexivity].
    + injection Hv' as <-. simpl.
      split; [reflexivity|]. split; [reflexivity|]. split; [reflexivity|].
      split; [reflexivity|]. split; [reflexivity|]. split; [reflexivity|].
      split; [reflexivity|]. split; [reflexivity|].
      split; [reflexivity | intros; lia].
  - intros Hc Hx Fx Hy Fy. destruct (Nat.leb_spec 20 (cnt a)); [|lia].
    rewrite (fit_rect_exact v (mkRect (t0 a) (lo a) (t1 a) (hi a)) Hx Hy Fx Fy).
    eexists. split; reflexivity.
Qed.

Lemma set_datasrc_seeds_witness :
  exists v',
    VB.set_datasrc (VB.add_heavy_item (VB.__init__ 300)) (Some Sample.line_store) = Some v' /\
    heavies v' = [false] /\
    heavies_blind_cnt v' = 50 /\
    targetRect v' = mkRect (Fin 0) (Fin 10) (Fin 1440) (Fin 34).
Proof.
  destruct (set_datasrc_seeds (VB.add_heavy_item (VB.__init__ 300)) Sample.line_store)
    as (x0 & x1 & a & s' & H0 & H1 & Hq & Hkeep & Hexact).
  - left. reflexivity.
  - vm_compute. lia.
  - vm_compute in H0. injection H0 as <-.
    vm_compute in H1. injection H1 as <-.
    vm_compute in Hq. injection Hq as <- <-.
    destruct Hexact as (v' & Hv' & Hr).
    + vm_compute. lia.
    + split; vm_compute; reflexivity.
    + split; exact I.
    + split; vm_compute; reflexivity.
    + split; exact I.
    + exists v'. split; [exact Hv'|].
      destruct (Hkeep v' Hv') as (_ & Hh & Hc & _).
      split; [exact Hh|]. split; [exact Hc | exact Hr].
Defined.

Lemma sorted_app_right {A : Type} (R : A -> A -> Prop) (l1 l2 : list A) :
  StronglySorted R (l1 ++ l2) -> StronglySorted R l2.
Proof.
  induction l1 as [|a l1 IH]; simpl; [auto|].
  intros H. apply StronglySorted_inv in H. apply IH, H.
Qed.

Lemma sorted_times_finite (rs : list row) :
  time_sorted rs -> (2 <= List.length rs)%nat ->
  forall r, In r rs -> exists q, time r = Fin q.
Proof.
  intros Hs Hn r Hr. destruct rs as [|a [|b rs]]; simpl in Hn; try lia.
  apply StronglySorted_inv in Hs. destruct Hs as (_ & Ha).
  destruct Hr as [<- | Hr].
  - pose proof (proj1 (Forall_forall _ _) Ha b (or_introl eq_refl)) as H.
    destruct (time a) as [|q]; [destruct H | now exists q].
  - pose proof (proj1 (Forall_forall _ _) Ha r Hr) as H.
    destruct (time a) as [|qa]; [destruct H|].
    destruct (time r) as [|q]; [destruct H | now exists q].
Qed.

Lemma filter_all {A : Type} (f : A -> bool) (l : list A) :
  (forall x, In x l -> f x = true) -> filter f l = l.
Proof.
  induction l as [|a l IH]; intros H; simpl; [reflexivity|].
  rewrite (H a (or_introl eq_refl)). f_equal. apply IH. intros x Hx. apply H. now right.
Qed.

Lemma last_app_right {A : Type} (l1 l2 : list A) (a d : A) :
  last (l1 ++ a :: l2) d = last (a :: l2) d.
Proof.
  induction l1 as [|b l1 IH]; [reflexivity|].
  change ((b :: l1) ++ a :: l2) with (b :: (l1 ++ a :: l2)).
  destruct (l1 ++ a :: l2) eqn:E; [destruct l1; discriminate|].
  rewrite <- E in *. rewrite <- IH. rewrite E. reflexivity.
Qed.

Lemma skipn_nth_error {A : Type} (l : list A) (i : nat) (x : A) :
  nth_error l i = Some x -> skipn i l = x :: skipn (S i) l.
Proof.
  revert i. induction l as [|a l IH]; intros [|i] H; simpl in *; try discriminate.
  - now injection H as ->.
  - now apply IH.
Qed.

(** The initial window of a table in time order holds its last
    [offset + 1] rows. *)
Lemma initial_window_rows (s : PandasDataSource) (offset : nat) :
  time_sorted (rows (df s)) ->
  (2 <= List.length (rows (df s)))%nat ->
  (offset < List.length (rows (df s)))%nat ->
  exists x0 x1,
    DS.get_time s offset (- (1 # 2)) = Some x0 /\
    DS.get_time s 0 (1 # 2) = Some x1 /\
    (offset + 1 <= cnt (DS._hilo s x0 x1))%nat.
Proof.
  intros Hs Hn Hoff.
  set (n := List.length (rows (df s))) in *.
  set (i := (n - 1 - offset)%nat).
  destruct (nth_error (rows (df s)) i) as [ri|] eqn:Hri;
    [|apply nth_error_None in Hri; fold n in Hri; unfold i in Hri; lia].
  destruct (rows (df s)) as [|r0 [|r1 rest]] eqn:Hrows; try (simpl in n; unfold n in Hn; simpl in Hn; lia).
  pose proof (sorted_times_finite _ Hs ltac:(simpl; lia)) as Hfin.
  assert (Hp : DS.period s = Some (Num.sub (time r1) (time r0)))
    by (unfold DS.period; now rewrite Hrows).
  assert (H01 : Num.le (time r0) (time r1)).
  { pose proof Hs as Hs'. apply StronglySorted_inv in Hs'. destruct Hs' as (_ & Ha).
    exact (proj1 (Forall_forall _ _) Ha r1 (or_introl eq_refl)). }
  set (rs := r0 :: r1 :: rest) in *.
  assert (Hsplit : rs = firstn i rs ++ ri :: skipn (S i) rs).
  { rewrite <- (firstn_skipn i rs) at 1. f_equal. now apply skipn_nth_error. }
  set (l1 := firstn i rs) in *. set (l2 := skipn (S i) rs) in *.
  assert (Hs2 : time_sorted (ri :: l2)).
  { unfold time_sorted in *. rewrite Hsplit in Hs. now apply sorted_app_right in Hs. }
  assert (Hlen2 : List.length (ri :: l2) = (offset + 1)%nat).
  { assert (Hl1 : List.length l1 = i).
    { unfold l1. rewrite length_firstn. fold n. unfold i. lia. }
    apply (f_equal (@List.length row)) in Hsplit. rewrite length_app in Hsplit.
    fold n in Hsplit. rewrite Hl1 in Hsplit. unfold i in Hsplit.
    change (List.length (ri :: l2)) with (S (List.length l2)) in *. lia. }
  set (rl := last (ri :: l2) ri).
  assert (Hlast : nth_error rs (n - 1) = Some rl).
  { unfold n, rs. change (List.length (r0 :: r1 :: rest) - 1)%nat
      with (List.length (r1 :: rest) - 0)%nat. rewrite Nat.sub_0_r.
    rewrite nth_error_last. f_equal. fold rs. rewrite Hsplit.
    rewrite last_app_right. apply last_default. }
  exists (Num.add (time ri) (Num.mul (Fin (- (1 # 2))) (Num.sub (time r1) (time r0)))),
         (Num.add (time rl) (Num.mul (Fin (1 # 2)) (Num.sub (time r1) (time r0)))).
  split; [|split].
  - unfold DS.get_time. rewrite Hp, Hrows. fold rs. fold n.
    replace (if (n <=? offset)%nat then (n - 1)%nat else offset) with offset
      by (destruct (Nat.leb_spec n offset); [lia | reflexivity]).
    fold i. rewrite Hri. reflexivity.
  - unfold DS.get_time. rewrite Hp, Hrows. fold rs. fold n.
    replace (n - 1 - (if (n <=? 0)%nat then (n - 1)%nat else 0))%nat with (n - 1)%nat
      by (destruct (Nat.leb_spec n 0); lia).
    rewrite Hlast. reflexivity.
  - rewrite _hilo_cnt, Hrows. fold rs. rewrite Hsplit, filter_app, length_app.
    rewrite (filter_all _ (ri :: l2)); [rewrite Hlen2; lia|].
    intros r Hr. apply in_window_spec.
    assert (Hrin : In r rs) by (rewrite Hsplit; apply in_or_app; now right).
    assert (Hriin : In ri rs) by (rewrite Hsplit; apply in_or_app; right; now left).
    assert (Hrlin : In rl rs).
    { rewrite Hsplit. apply in_or_app. right. unfold rl.
      destruct (exists_last (l := ri :: l2)) as (l' & a & E); [discriminate|].
      rewrite E, last_last. apply in_or_app. right. now left. }
    assert (Hlo : Num.le (time ri) (time r)).
    { destruct Hr as [<- | Hr].
      - destruct (Hfin ri Hriin) as (q & ->). apply Qle_refl.
      - apply StronglySorted_inv in Hs2. exact (proj1 (Forall_forall _ _) (proj2 Hs2) r Hr). }
    assert (Hhi : Num.le (time r) (time rl)).
    { destruct (sorted_last _ l2 ri Hs2 r Hr) as [-> | H]; [|exact H].
      fold rl. destruct (Hfin rl Hrlin) as (q & ->). apply Qle_refl. }
    destruct (Hfin r0 (or_introl eq_refl)) as (q0 & E0).
    destruct (Hfin r1 (or_intror (or_introl eq_refl))) as (q1 & E1).
    destruct (Hfin ri Hriin) as (qi & Ei). destruct (Hfin rl Hrlin) as (ql & El).
    destruct (Hfin r Hrin) as (q & Er).
    rewrite E0, E1, Ei, El, Er in *. simpl in *. split; lra.
Qed.

(** Binding a store straight from [__init__] whose table is in time order
    and has at least 20 rows, on a view box with [init_steps >= 19], never
    keeps the old rectangle silently: the initial window, from
    [get_time(init_steps, -0.5)] to [get_time(0, +0.5)], holds at least 20
    rows, the range is computed on the table (the cache is empty) and its
    rectangle [(t0, lo)-(t1, hi)] is handed to the toolkit's [setRange];
    the seed is exactly that rectangle when [t0 < t1] and [lo < hi],
    neither range is too narrow for the toolkit, and no limit cuts into
    it. *)
Theorem set_datasrc_seeds_sorted (v : FinViewBox) (d : DataFrame) :
  time_sorted (rows d) ->
  (20 <= List.length (rows d))%nat ->
  (19 <= init_steps v)%nat ->
  exists x0 x1,
    DS.get_time (DS.__init__ d) (init_steps v) (- (1 # 2)) = Some x0 /\
    DS.get_time (DS.__init__ d) 0 (1 # 2) = Some x1 /\
    let a := DS._hilo (DS.__init__ d) x0 x1 in
    let rect := mkRect (t0 a) (lo a) (t1 a) (hi a) in
    (20 <= cnt a)%nat /\
    VB.set_datasrc v (Some (DS.__init__ d))
    = returned (VB.setRange
                  (VB.with_datasrc v (Some (mkDS d 1 (DS.query_of x0 x1) (Some a))))
                  rect) /\
    (proper_range (t0 a) (t1 a) -> fits (xMin v) (xMax v) (t0 a) (t1 a) ->
     proper_range (lo a) (hi a) -> fits (yMin v) (yMax v) (lo a) (hi a) ->
     exists v', VB.set_datasrc v (Some (DS.__init__ d)) = Some v' /\
                targetRect v' = rect).
Proof.
  intros Hs Hn Hi.
  set (s := DS.__init__ d).
  set (n := List.length (rows d)) in *.
  set (off := if (n <=? init_steps v)%nat then (n - 1)%nat else init_steps v).
  assert (Hoff : (19 <= off < n)%nat).
  { unfold off. destruct (Nat.leb_spec n (init_steps v)); lia. }
  destruct (initial_window_rows s off Hs ltac:(simpl; fold n; lia) ltac:(simpl; fold n; lia))
    as (x0 & x1 & H0 & H1 & Hc).
  assert (H0' : DS.get_time s (init_steps v) (- (1 # 2)) = Some x0).
  { rewrite <- H0. unfold DS.get_time. simpl rows. fold n. fold off.
    replace (if (n <=? off)%nat then (n - 1)%nat else off) with off
      by (destruct (Nat.leb_spec n off); [lia | reflexivity]).
    reflexivity. }
  exists x0, x1. split; [exact H0'|]. split; [exact H1|]. cbv zeta.
  assert (E : VB.set_datasrc v (Some s)
              = returned
                  (VB.setRange
                     (VB.with_datasrc v (Some (mkDS d 1 (DS.query_of x0 x1)
                                                    (Some (DS._hilo s x0 x1)))))
                     (mkRect (t0 (DS._hilo s x0 x1)) (lo (DS._hilo s x0 x1))
                             (t1 (DS._hilo s x0 x1)) (hi (DS._hilo s x0 x1))))).
  { unfold VB.set_datasrc. cbv zeta.
    change (init_steps (VB.with_datasrc v (Some s))) with (init_steps v).
    rewrite H0', H1.
    rewrite (hilo_miss s x0 x1 (query_of_not_empty x0 x1)).
    replace (20 <=? cnt (DS._hilo s x0 x1))%nat with true
      by (symmetry; apply Nat.leb_le; lia).
    reflexivity. }
  split; [lia|]. split; [exact E|].
  intros Hx Fx Hy Fy. rewrite E, setRange_with_datasrc.
  rewrite (fit_rect_exact v
             (mkRect (t0 (DS._hilo s x0 x1)) (lo (DS._hilo s x0 x1))
                     (t1 (DS._hilo s x0 x1)) (hi (DS._hilo s x0 x1)))
             Hx Hy Fx Fy).
  eexists. split; reflexivity.
Qed.

Lemma time_sortedb_sound (rs : list row) : time_sortedb rs = true -> time_sorted rs.
Proof.
  induction rs as [|a l IH]; simpl; intros H; [constructor|].
  apply andb_true_iff in H. destruct H as (Ha & Hl).
  constructor; [now apply IH|].
  apply Forall_forall. intros b Hb.
  apply leb_le. exact (proj1 (forallb_forall _ _) Ha b Hb).
Qed.

Lemma set_datasrc_seeds_sorted_witness :
  exists x0 x1,
    DS.get_time (DS.__init__ Sample.line_df) 300 (- (1 # 2)) = Some x0 /\
    DS.get_time (DS.__init__ Sample.line_df) 0 (1 # 2) = Some x1 /\
    (20 <= cnt (DS._hilo (DS.__init__ Sample.line_df) x0 x1))%nat /\
    exists v', VB.set_datasrc (VB.__init__ 300) (Some (DS.__init__ Sample.line_df)) = Some v' /\
               targetRect v' = mkRect (Fin 0) (Fin 10) (Fin 1440) (Fin 34).
Proof.
  destruct (set_datasrc_seeds_sorted (VB.__init__ 300) Sample.line_df)
    as (x0 & x1 & H0 & H1 & Hc & _ & Hexact).
  - apply time_sortedb_sound. vm_compute. reflexivity.
  - vm_compute. lia.
  - vm_compute. lia.
  - exists x0, x1. split; [exact H0|]. split; [exact H1|]. split; [exact Hc|].
    change (init_steps (VB.__init__ 300)) with 300%nat in H0.
    vm_compute in H0. injection H0 as <-.
    vm_compute in H1. injection H1 as <-.
    destruct Hexact as (v' & Hv' & Hr).
    + split; vm_compute; reflexivity.
    + split; exact I.
    + split; vm_compute; reflexivity.
    + split; exact I.
    + exists v'. split; [exact Hv'|]. rewrite Hr. vm_compute. reflexivity.
Defined.

(* ================================================================= *)
(** ** What a rescale leaves alone                                    *)
(* ================================================================= *)

Lemma setRange_keeps (v v' : FinViewBox) (x0 y0 x1 y1 : num) :
  returned (VB._setRange v x0 y0 x1 y1) = Some v' ->
  datasrc v' = datasrc v /\
  auto_scale_y v' = auto_scale_y v /\ init_steps v' = init_steps v /\
  wheelScaleFactor v' = wheelScaleFactor v /\
  xMin v' = xMin v /\ xMax v' = xMax v /\
  yMin v' = yMin v /\ yMax v' = yMax v /\
  List.length (heavies v') = List.length (heavies v).
Proof.
  rewrite _setRange_spec. destruct (VB.fit_rect v _) as [r'|]; [|discriminate].
  intros H. injection H as <-. simpl. rewrite length_map. repeat split.
Qed.

(** [scaleRect], when it returns, never registers or drops a heavy item,
    never changes the flag, the limits, [init_steps] or the wheel factor,
    and never changes the store's table or column skip: only the
    rectangle, the items' visibility, the counter and the store's cache
    can differ. *)
Theorem scaleRect_keeps (v v' : FinViewBox) (vr : QRectF) (scale_fact : num)
        (center : option Point) :
  VB.scaleRect v vr scale_fact center = Some v' ->
  List.length (heavies v') = List.length (heavies v) /\
  auto_scale_y v' = auto_scale_y v /\ init_steps v' = init_steps v /\
  wheelScaleFactor v' = wheelScaleFactor v /\
  yMin v' = yMin v /\ yMax v' = yMax v /\
  option_map df (datasrc v') = option_map df (datasrc v) /\
  option_map skip_scale_colcnt (datasrc v') = option_map skip_scale_colcnt (datasrc v).
Proof.
  unfold VB.scaleRect.
  destruct (datasrc v) as [s|] eqn:Hd.
  - cbv zeta.
    set (x0 := Num.add _ _). set (x1 := Num.add _ _).
    destruct (hilo_df s x0 x1) as (Hdf & Hskip & _).
    destruct (DS.hilo s x0 x1) as [[a|] s']; [|discriminate]. simpl in Hdf, Hskip.
    destruct (cnt a <? 20)%nat.
    + intros E. injection E as <-. simpl. rewrite Hdf, Hskip. repeat split.
    + destruct (DS.period s') as [p|]; [|discriminate].
      intros E. apply setRange_keeps in E.
      destruct E as (E1 & E2 & E3 & E4 & _ & _ & E5 & E6 & E7).
      rewrite E1, E2, E3, E4, E5, E6, E7. simpl. rewrite Hdf, Hskip. repeat split.
  - intros E. injection E as <-. rewrite Hd. repeat split.
Qed.

Lemma scaleRect_keeps_witness :
  exists v',
    VB.scaleRect Sample.heavy_vb (mkRect (Fin 0) (Fin 10) (Fin 1140) (Fin 34)) (Fin 1) None
      = Some v' /\
    List.length (heavies v') = 2%nat /\
    option_map df (datasrc v') = Some Sample.line_df.
Proof.
  destruct (VB.scaleRect Sample.heavy_vb (mkRect (Fin 0) (Fin 10) (Fin 1140) (Fin 34))
                         (Fin 1) None) as [v'|] eqn:E; [|vm_compute in E; discriminate].
  destruct (scaleRect_keeps Sample.heavy_vb v' _ _ _ E) as (H1 & _ & _ & _ & _ & _ & H2 & _).
  exists v'. split; [reflexivity|]. split; [exact H1 | exact H2].
Defined.

(* ================================================================= *)
(** ** Wheel events away from the edges                               *)
(* ================================================================= *)

(** With finite edges and a nonzero width, a cursor at a fraction of the
    width between 0.2 and 0.8 (both included) is not snapped: the wheel
    event is [scaleRect] about the cursor itself. *)
Theorem wheelEvent_middle (float_pow : Q -> Q -> num) (v : FinViewBox) (d : Z)
        (l r f : Q) (y : num) :
  rect_left (targetRect v) = Fin l ->
  rect_right (targetRect v) = Fin r ->
  ~ (r - l == 0)%Q ->
  (2 # 10 <= f)%Q -> (f <= 8 # 10)%Q ->
  VB.wheelEvent float_pow v (mkWheel d (cursor_at v f y))
  = VB.scaleRect v (targetRect v)
                 (float_pow (102 # 100) (inject_Z d * wheelScaleFactor v)%Q)
                 (Some (cursor_at v f y)).
Proof.
  intros Hl Hr Hnz Hlo Hhi.
  unfold VB.wheelEvent, cursor_at, rect_width. rewrite Hl, Hr. simpl.
  replace (Qeq_bool (r - l) 0) with false
    by (symmetry; destruct (Qeq_bool (r - l) 0) eqn:E; [|reflexivity];
        apply Qeq_bool_iff in E; contradiction).
  pose proof (cursor_ratio l r f Hnz) as Hratio.
  unfold Num.ltb, Num.gtb. rewrite Hratio.
  replace (Qle_bool (2 # 10) f) with true by (symmetry; now apply Qle_bool_iff).
  cbn [negb]. rewrite Hratio.
  replace (Qle_bool f (8 # 10)) with true by (symmetry; now apply Qle_bool_iff).
  reflexivity.
Qed.

Lemma wheelEvent_middle_witness :
  VB.wheelEvent (fun _ _ => Fin (1 # 2)) Sample.line_vb
                (mkWheel 120 (cursor_at Sample.line_vb (1 # 2) (Fin 20)))
  = VB.scaleRect Sample.line_vb (targetRect Sample.line_vb) (Fin (1 # 2))
                 (Some (cursor_at Sample.line_vb (1 # 2) (Fin 20))).
Proof.
  apply (wheelEvent_middle (fun _ _ => Fin (1 # 2)) Sample.line_vb 120 0 1440 (1 # 2) (Fin 20)).
  - reflexivity.
  - reflexivity.
  - discriminate.
  - discriminate.
  - discriminate.
Defined.

(* ================================================================= *)
(** ** The gate after a registration and along any run                *)
(* ================================================================= *)

(** From a counter of [c + 1]: [c] ticks change nothing but the counter,
    the next one shows every item, and of any number of ticks exactly one
    reveals once [c + 1] have passed. *)
Lemma countdown (c : nat) (v : FinViewBox) :
  heavies_blind_cnt v = Z.of_nat (S c) ->
  (forall k, (k <= c)%nat -> heavies (ticks k v) = heavies v) /\
  all_visible (ticks (S c) v) /\
  heavies_blind_cnt (ticks (S c) v) = 0 /\
  (forall n, reveals n v = if (n <=? c)%nat then 0%nat else 1%nat).
Proof.
  revert v. induction c as [|c IH]; intros v Hc.
  - destruct (show_heavies_reveals v) as (Hv & H0); [lia|].
    split; [|split; [|split]].
    + intros [|k] Hk; [reflexivity | lia].
    + exact Hv.
    + exact H0.
    + intros [|n]; [reflexivity|]. simpl. rewrite H0. simpl.
      now rewrite (proj1 (ticks_after_zero n (VB.show_heavies v) ltac:(lia))).
  - destruct (show_heavies_waits v) as (Hh & Hk); [lia|].
    destruct (IH (VB.show_heavies v)) as (I1 & I2 & I3 & I4); [lia|].
    split; [|split; [|split]].
    + intros [|k] Hle; [reflexivity|]. simpl. rewrite I1 by lia. exact Hh.
    + exact I2.
    + exact I3.
    + intros [|n]; [reflexivity|]. simpl. rewrite I4, Hk, Hc.
      destruct (Z.eqb_spec (Z.of_nat (S (S c)) - 1) 0); [lia|]. reflexivity.
Qed.










(** The target rectangle keeps four numbers: [__init__] starts with the
    toolkit's (0, 0)-(1, 1), and no call that returns puts a NaN in it. *)
Lemma finite_rect_scaleRect (v v' : FinViewBox) (vr : QRectF) (sf : num)
      (c : option Point) :
  VB.scaleRect v vr sf c = Some v' ->
  finite_rect (targetRect v) -> finite_rect (targetRect v').
Proof.
  unfold VB.scaleRect. destruct (datasrc v) as [s|].
  - cbv zeta. destruct (DS.hilo s _ _) as [[a|] s']; [|discriminate].
    destruct (cnt a <? 20)%nat.
    + intros E. now injection E as <-.
    + destruct (DS.period s'); [|discriminate]. intros E _.
      apply returned_Returns in E. exact (_setRange_finite _ _ _ _ _ _ E).
  - intros E. now injection E as <-.
Qed.

Lemma finite_rect_set_datasrc (v v' : FinViewBox) (d : option PandasDataSource) :
  VB.set_datasrc v d = Some v' ->
  finite_rect (targetRect v) -> finite_rect (targetRect v').
Proof.
  unfold VB.set_datasrc. cbv zeta. destruct d as [s|].
  - destruct (DS.get_time s _ _); [|discriminate].
    destruct (DS.get_time s 0 _); [|discriminate].
    destruct (DS.hilo s _ _) as [[a|] s']; [|discriminate].
    destruct (20 <=? cnt a)%nat.
    + rewrite setRange_returned. destruct (VB.fit_rect _ _) as [r'|] eqn:E; [|discriminate].
      intros H _. injection H as <-. exact (fit_rect_finite _ _ _ E).
    + intros E. now injection E as <-.
  - intros E. now injection E as <-.
Qed.

Lemma finite_rect_run (float_pow : Q -> Q -> num) (es : list VBEvent)
      (n : nat) (v : FinViewBox) :
  vb_run float_pow es (VB.__init__ n) = Some v -> finite_rect (targetRect v).
Proof.
  assert (H0 : finite_rect (targetRect (VB.__init__ n))) by (vm_compute; tauto).
  revert H0. generalize (VB.__init__ n).
  induction es as [|e es IH]; intros v0 H0; simpl.
  - intros E. now injection E as <-.
  - destruct (vb_event float_pow e v0) as [v1|] eqn:E; [|discriminate].
    apply IH. destruct e; simpl in E.
    + injection E as <-. unfold VB.show_heavies. destruct (negb _); exact H0.
    + injection E as <-. exact H0.
    + exact (finite_rect_set_datasrc _ _ _ E H0).
    + unfold VB.wheelEvent in E. destruct (Num.div _ _); [|discriminate].
      exact (finite_rect_scaleRect _ _ _ _ _ E H0).
    + exact (finite_rect_scaleRect _ _ _ _ _ E H0).
    + exact (finite_rect_scaleRect _ _ _ _ _ E H0).
    + injection E as <-. exact H0.
Qed.

(** A raise strands the items.  When the toolkit's [setRange] raises
    inside [_setRange], the view box is left with every heavy item hidden
    and the counter as it was, since the counter is set only after
    [setRange].  If the counter was above zero the items come back when it
    runs out; if it was at or below zero (the items had been revealed) no
    tick ever shows them again. *)
Theorem gate_stuck_after_raise (v left : FinViewBox) (x0 y0 x1 y1 : num) :
  VB._setRange v x0 y0 x1 y1 = Raises left ->
  heavies left = map (fun _ => false) (heavies v) /\
  all_hidden left /\
  heavies_blind_cnt left = heavies_blind_cnt v /\
  (0 < heavies_blind_cnt v ->
   all_visible (ticks (Z.to_nat (heavies_blind_cnt v)) left)) /\
  (heavies_blind_cnt v <= 0 ->
   forall n, all_hidden (ticks n left) /\ reveals n left = 0%nat).
Proof.
  unfold VB._setRange. cbv zeta.
  destruct (VB.setRange (VB.hide_heavies v) _) as [w|w] eqn:E; [discriminate|].
  intros H. injection H as <-.
  apply setRange_raises in E. destruct E as (_ & _ & Hh & Hc). simpl in Hh, Hc.
  assert (Hhid : all_hidden w).
  { unfold all_hidden. rewrite Hh. apply Forall_forall. intros b Hb.
    apply in_map_iff in Hb. destruct Hb as (_ & <- & _). reflexivity. }
  split; [exact Hh|]. split; [exact Hhid|]. split; [exact Hc|]. split.
  - intros Hp.
    destruct (countdown (Nat.pred (Z.to_nat (heavies_blind_cnt v))) w) as (_ & H & _);
      [lia|].
    replace (S (Nat.pred (Z.to_nat (heavies_blind_cnt v))))
      with (Z.to_nat (heavies_blind_cnt v)) in H by lia.
    exact H.
  - intros Hz n. destruct (ticks_after_zero n w) as (Hr & Ht); [lia|].
    split; [|exact Hr]. unfold all_hidden. rewrite Ht. exact Hhid.
Qed.

Lemma gate_stuck_after_raise_witness :
  let v := ticks 60 Sample.heavy_vb in
  exists left,
    heavies v = [true; true] /\
    heavies_blind_cnt v = -10 /\
    VB._setRange v (Fin (-30)) NaN (Fin 1170) NaN = Raises left /\
    heavies left = [false; false] /\
    heavies (ticks 1000 left) = [false; false] /\
    reveals 1000 left = 0%nat.
Proof.
  intros v.
  destruct (VB._setRange v (Fin (-30)) NaN (Fin 1170) NaN) as [w|w] eqn:E;
    [vm_compute in E; discriminate|].
  destruct (gate_stuck_after_raise v w _ _ _ _ E) as (Hh & _ & _ & _ & Hz).
  destruct (Hz ltac:(vm_compute; discriminate) 1000%nat) as (_ & Hr).
  exists w. split; [vm_compute; reflexivity|]. split; [vm_compute; reflexivity|].
  split; [reflexivity|]. split; [rewrite Hh; vm_compute; reflexivity|].
  split; [|exact Hr].
  clear Hh Hz Hr. vm_compute in E. injection E as <-. vm_compute. reflexivity.
Defined.

(* ================================================================= *)
(** ** The painters                                                   *)
(* ================================================================= *)

Lemma for_rows_none (body : row -> option (list PaintOp)) (rs : list row) :
  Paint.for_rows body rs = None <-> exists r, In r rs /\ body r = None.
Proof.
  induction rs as [|r rs IH]; simpl.
  - split; [discriminate | intros (r & [] & _)].
  - destruct (body r) as [ops|] eqn:E.
    + destruct (Paint.for_rows body rs) as [rest|].
      * split; [discriminate|]. intros (x & [<- | Hx] & Hb); [congruence|].
        destruct IH as [_ IH]. specialize (IH (ex_intro _ x (conj Hx Hb))). discriminate.
      * split; [|reflexivity]. intros _. destruct IH as [IH _].
        destruct (IH eq_refl) as (x & Hx & Hb). exists x. split; [now right | exact Hb].
    + split; [|reflexivity]. intros _. exists r. split; [now left | exact E].
Qed.

Lemma for_rows_some (body : row -> option (list PaintOp)) (f : row -> list PaintOp)
      (rs : list row) :
  (forall r, In r rs -> body r = Some (f r)) ->
  Paint.for_rows body rs = Some (flat_map f rs).
Proof.
  induction rs as [|r rs IH]; intros H; simpl; [reflexivity|].
  rewrite (H r (or_introl eq_refl)), IH; [reflexivity|].
  intros x Hx. apply H. now right.
Qed.

Lemma candle_none (w : num) (r : row) :
  Paint.candle w r = None <-> List.length r <> 5%nat.
Proof.
  destruct r as [|a [|b [|c [|d [|e [|f r]]]]]]; simpl; split;
    try discriminate; try reflexivity; try lia; intros H; now elim H.
Qed.

Lemma bar_none (w : num) (r : row) :
  Paint.bar w r = None <-> List.length r <> 4%nat.
Proof.
  destruct r as [|a [|b [|c [|d [|e r]]]]]; simpl; split;
    try discriminate; try reflexivity; try lia; intros H; now elim H.
Qed.

Lemma candle_some (w : num) (r : row) :
  List.length r = 5%nat ->
  Paint.candle w r
  = Some [ drawLine (cell r 0) (cell r 4) (cell r 0) (cell r 3);
           drawRect (Num.sub (cell r 0) w) (cell r 1) (Num.mul w (Fin 2))
                    (Num.sub (cell r 2) (cell r 1)) ].
Proof.
  destruct r as [|a [|b [|c [|d [|e [|f r]]]]]]; simpl; try discriminate. reflexivity.
Qed.

Lemma bar_some (w : num) (r : row) :
  List.length r = 4%nat ->
  Paint.bar w r = Some [ drawRect (Num.sub (cell r 0) w) (Fin 0) w (cell r 3) ].
Proof.
  destruct r as [|a [|b [|c [|d [|e r]]]]]; simpl; try discriminate. reflexivity.
Qed.

Lemma rectangular_filter (d : DataFrame) (f : row -> bool) (r : row) :
  rectangular d -> In r (filter f (rows d)) -> List.length r = ncols d.
Proof.
  intros (_ & H) Hr. apply filter_In in Hr.
  exact (proj1 (Forall_forall _ _) H r (proj1 Hr)).
Qed.

Lemma bear_height (r : row) :
  DS.is_bear r = true -> Num.lt (Num.sub (cell r 2) (cell r 1)) (Fin 0).
Proof.
  unfold DS.is_bear, Num.gtb. intros H. apply ltb_lt in H.
  destruct (cell r 1), (cell r 2); simpl in *; try contradiction. lra.
Qed.

Lemma bull_height (r : row) :
  DS.is_bull r = true -> Num.le (Fin 0) (Num.sub (cell r 2) (cell r 1)).
Proof.
  unfold DS.is_bull. intros H. apply leb_le in H.
  destruct (cell r 1), (cell r 2); simpl in *; try contradiction. lra.
Qed.

Lemma flat_map_candles (w : num) (rs : list row) :
  let ops := flat_map (fun r => [ drawLine (cell r 0) (cell r 4) (cell r 0) (cell r 3);
                                  drawRect (Num.sub (cell r 0) w) (cell r 1)
                                           (Num.mul w (Fin 2))
                                           (Num.sub (cell r 2) (cell r 1)) ]) rs in
  List.length (filter is_line ops) = List.length rs /\
  List.length (filter is_rect ops) = List.length rs /\
  rect_heights ops = map (fun r => Num.sub (cell r 2) (cell r 1)) rs.
Proof.
  cbv zeta. induction rs as [|r rs (I1 & I2 & I3)]; simpl; [repeat split|].
  unfold rect_heights in *. simpl. rewrite I1, I2, I3. repeat split.
Qed.

(** On a rectangular five-column table of two rows or more the
    candlestick painter returns; it sets the bear colour, draws one wick
    and one body for every bearish row, sets the bull colour, and draws one
    wick and one body for every bullish row.  Every bearish body has a
    negative height and every bullish body a height of zero or more; when
    all opens and closes are numbers there are as many wicks, and as many
    bodies, as rows. *)
Theorem candlestick_picture (s : PandasDataSource) (bull_color bear_color : string) :
  rectangular (df s) -> ncols (df s) = 5%nat ->
  (2 <= List.length (rows (df s)))%nat ->
  exists bear_ops bull_ops,
    Paint.candlestick s bull_color bear_color
    = Some ([setPen bear_color; setBrush bear_color] ++ bear_ops
            ++ [setPen bull_color; setBrush bull_color] ++ bull_ops) /\
    List.length (filter is_line bear_ops) = List.length (filter DS.is_bear (rows (df s))) /\
    List.length (filter is_rect bear_ops) = List.length (filter DS.is_bear (rows (df s))) /\
    List.length (filter is_line bull_ops) = List.length (filter DS.is_bull (rows (df s))) /\
    List.length (filter is_rect bull_ops) = List.length (filter DS.is_bull (rows (df s))) /\
    Forall (fun h => Num.lt h (Fin 0)) (rect_heights bear_ops) /\
    Forall (fun h => Num.le (Fin 0) h) (rect_heights bull_ops) /\
    (Forall priced (rows (df s)) ->
     (List.length (filter is_line (bear_ops ++ bull_ops)) = List.length (rows (df s)) /\
      List.length (filter is_rect (bear_ops ++ bull_ops)) = List.length (rows (df s)))%nat).
Proof.
  intros Hrect Hcols Hn.
  destruct (period_defined s Hn) as (p & Hp).
  set (w := Num.lift2 Qdiv p (Fin 3)).
  set (f := fun r : row =>
              [ drawLine (cell r 0) (cell r 4) (cell r 0) (cell r 3);
                drawRect (Num.sub (cell r 0) w) (cell r 1) (Num.mul w (Fin 2))
                         (Num.sub (cell r 2) (cell r 1)) ]).
  exists (flat_map f (filter DS.is_bear (rows (df s)))),
         (flat_map f (filter DS.is_bull (rows (df s)))).
  destruct (flat_map_candles w (filter DS.is_bear (rows (df s)))) as (B1 & B2 & B3).
  destruct (flat_map_candles w (filter DS.is_bull (rows (df s)))) as (U1 & U2 & U3).
  cbv zeta in *. fold f in B1, B2, B3, U1, U2, U3.
  split; [|split; [exact B1 | split; [exact B2 | split; [exact U1 | split; [exact U2|]]]]].
  - unfold Paint.candlestick, Paint.generatePicture, DS.bear_rows, DS.bull_rows.
    rewrite Hp, Hcols. change (5 <? 3)%nat with false. cbv iota. fold w.
    rewrite (for_rows_some (Paint.candle w) f), (for_rows_some (Paint.candle w) f);
      [reflexivity | |];
      intros r Hr; apply candle_some;
      rewrite (rectangular_filter _ _ _ Hrect Hr); exact Hcols.
  - split; [|split].
    + rewrite B3. apply Forall_forall. intros h Hh. apply in_map_iff in Hh.
      destruct Hh as (r & <- & Hr). apply filter_In in Hr. now apply bear_height.
    + rewrite U3. apply Forall_forall. intros h Hh. apply in_map_iff in Hh.
      destruct Hh as (r & <- & Hr). apply filter_In in Hr. now apply bull_height.
    + intros Hpriced.
      assert (Hint : Interleave (filter DS.is_bear (rows (df s)))
                                (filter DS.is_bull (rows (df s))) (rows (df s))).
      { apply Interleave_filter. eapply Forall_impl; [|exact Hpriced].
        exact priced_bear_or_bull. }
      apply Interleave_length in Hint.
      rewrite !filter_app, !length_app, B1, B2, U1, U2. lia.
Qed.

Lemma candlestick_picture_witness :
  exists bear_ops bull_ops,
    Paint.candlestick Demo.ohlc_store "#44bb55" "#dd6666"
    = Some ([setPen "#dd6666"; setBrush "#dd6666"] ++ bear_ops
            ++ [setPen "#44bb55"; setBrush "#44bb55"] ++ bull_ops) /\
    List.length (filter is_line (bear_ops ++ bull_ops)) = 5%nat /\
    List.length (filter is_rect (bear_ops ++ bull_ops)) = 5%nat /\
    Forall (fun h => Num.lt h (Fin 0)) (rect_heights bear_ops) /\
    Forall (fun h => Num.le (Fin 0) h) (rect_heights bull_ops).
Proof.
  destruct (candlestick_picture Demo.ohlc_store "#44bb55" "#dd6666")
    as (bear_ops & bull_ops & E & _ & _ & _ & _ & Hb & Hu & Hall).
  - split; [vm_compute; lia | repeat constructor].
  - reflexivity.
  - simpl. lia.
  - exists bear_ops, bull_ops. destruct Hall as (H1 & H2); [repeat constructor|].
    split; [exact E|]. split; [exact H1|]. split; [exact H2|]. split; [exact Hb | exact Hu].
Defined.

(** On a rectangular table the candlestick painter raises exactly when
    the table has fewer than two rows (no period), fewer than three columns
    (no open or close), or a number of columns other than five together
    with at least one bearish or bullish row to unpack. *)
Theorem candlestick_raises (s : PandasDataSource) (bull_color bear_color : string) :
  rectangular (df s) ->
  (Paint.candlestick s bull_color bear_color = None <->
   (List.length (rows (df s)) < 2)%nat \/ (ncols (df s) < 3)%nat \/
   (ncols (df s) <> 5%nat /\
    exists r, In r (rows (df s)) /\ (DS.is_bear r = true \/ DS.is_bull r = true))).
Proof.
  intros Hrect.
  unfold Paint.candlestick, Paint.generatePicture, DS.bear_rows, DS.bull_rows.
  destruct (DS.period s) as [p|] eqn:Hp.
  2:{ split; [|reflexivity]. intros _. left.
      destruct (Nat.lt_ge_cases (List.length (rows (df s))) 2) as [H|H]; [exact H|].
      destruct (period_defined s H) as (p & Hp'). congruence. }
  assert (Hn : (2 <= List.length (rows (df s)))%nat).
  { unfold DS.period in Hp. destruct (rows (df s)) as [|r0 [|r1 rs]]; try discriminate.
    simpl. lia. }
  destruct (Nat.ltb_spec (ncols (df s)) 3) as [Hc|Hc].
  { split; [intros _; right; now left | reflexivity]. }
  set (w := Num.lift2 Qdiv p (Fin 3)).
  assert (Hbody : forall f r, In r (filter f (rows (df s))) ->
                              (Paint.candle w r = None <-> ncols (df s) <> 5%nat)).
  { intros f r Hr. rewrite candle_none, (rectangular_filter _ f r Hrect Hr). tauto. }
  destruct (Paint.for_rows (Paint.candle w) (filter DS.is_bear (rows (df s))))
    as [bear_ops|] eqn:Eb.
  - destruct (Paint.for_rows (Paint.candle w) (filter DS.is_bull (rows (df s))))
      as [bull_ops|] eqn:Eu.
    + split; [discriminate|]. intros [H | [H | (H5 & r & Hr & [Hb|Hu])]]; try lia.
      * assert (Hin : In r (filter DS.is_bear (rows (df s)))) by (apply filter_In; now split).
        assert (Hnone : Paint.for_rows (Paint.candle w) (filter DS.is_bear (rows (df s))) = None).
        { apply for_rows_none. exists r. split; [exact Hin|]. now apply (Hbody DS.is_bear). }
        congruence.
      * assert (Hin : In r (filter DS.is_bull (rows (df s)))) by (apply filter_In; now split).
        assert (Hnone : Paint.for_rows (Paint.candle w) (filter DS.is_bull (rows (df s))) = None).
        { apply for_rows_none. exists r. split; [exact Hin|]. now apply (Hbody DS.is_bull). }
        congruence.
    + split; [|reflexivity]. intros _. right. right.
      apply for_rows_none in Eu. destruct Eu as (r & Hr & Hnone).
      split; [now apply (Hbody DS.is_bull r Hr)|].
      apply filter_In in Hr. exists r. split; [tauto | right; tauto].
  - split; [|reflexivity]. intros _. right. right.
    apply for_rows_none in Eb. destruct Eb as (r & Hr & Hnone).
    split; [now apply (Hbody DS.is_bear r Hr)|].
    apply filter_In in Hr. exists r. split; [tauto | left; tauto].
Qed.

Lemma candlestick_raises_witness :
  Paint.candlestick Demo.volume_store "#44bb55" "#dd6666" = None.
Proof.
  apply (candlestick_raises Demo.volume_store "#44bb55" "#dd6666").
  - split; [vm_compute; lia | repeat constructor].
  - right. right. split; [discriminate|].
    exists [Fin 0; Fin 5; Fin 7; Fin 100]. split; [simpl; auto | right; reflexivity].
Defined.

Lemma flat_map_bars (w : num) (rs : list row) :
  let ops := flat_map (fun r => [ drawRect (Num.sub (cell r 0) w) (Fin 0) w (cell r 3) ]) rs in
  filter is_line ops = [] /\
  List.length (filter is_rect ops) = List.length rs /\
  rect_heights ops = map (fun r => cell r 3) rs.
Proof.
  cbv zeta. induction rs as [|r rs (I1 & I2 & I3)]; simpl; [repeat split|].
  unfold rect_heights in *. simpl. rewrite I1, I2, I3. repeat split.
Qed.

(** On a rectangular four-column table of two rows or more the volume
    painter returns and draws no line: one bar for every bearish row in the
    bear colour, then one for every bullish row in the bull colour, the
    heights being the volumes of those rows in table order; when all opens
    and closes are numbers there are as many bars as rows. *)
Theorem volume_picture (s : PandasDataSource) (bull_color bear_color : string) :
  rectangular (df s) -> ncols (df s) = 4%nat ->
  (2 <= List.length (rows (df s)))%nat ->
  exists bear_ops bull_ops,
    Paint.volume s bull_color bear_color
    = Some ([setPen bear_color; setBrush bear_color] ++ bear_ops
            ++ [setPen bull_color; setBrush bull_color] ++ bull_ops) /\
    filter is_line (bear_ops ++ bull_ops) = [] /\
    rect_heights bear_ops = map (fun r => cell r 3) (filter DS.is_bear (rows (df s))) /\
    rect_heights bull_ops = map (fun r => cell r 3) (filter DS.is_bull (rows (df s))) /\
    (Forall priced (rows (df s)) ->
     List.length (filter is_rect (bear_ops ++ bull_ops)) = List.length (rows (df s))).
Proof.
  intros Hrect Hcols Hn.
  destruct (period_defined s Hn) as (p & Hp).
  set (w := Num.mul p (Fin (7 # 10))).
  set (f := fun r : row => [ drawRect (Num.sub (cell r 0) w) (Fin 0) w (cell r 3) ]).
  exists (flat_map f (filter DS.is_bear (rows (df s)))),
         (flat_map f (filter DS.is_bull (rows (df s)))).
  destruct (flat_map_bars w (filter DS.is_bear (rows (df s)))) as (B1 & B2 & B3).
  destruct (flat_map_bars w (filter DS.is_bull (rows (df s)))) as (U1 & U2 & U3).
  cbv zeta in *. fold f in B1, B2, B3, U1, U2, U3.
  split; [|split; [|split; [exact B3 | split; [exact U3|]]]].
  - unfold Paint.volume, Paint.generatePicture, DS.bear_rows, DS.bull_rows.
    rewrite Hp, Hcols. change (4 <? 3)%nat with false. cbv iota. fold w.
    rewrite (for_rows_some (Paint.bar w) f), (for_rows_some (Paint.bar w) f);
      [reflexivity | |];
      intros r Hr; apply bar_some;
      rewrite (rectangular_filter _ _ _ Hrect Hr); exact Hcols.
  - now rewrite filter_app, B1, U1.
  - intros Hpriced.
    assert (Hint : Interleave (filter DS.is_bear (rows (df s)))
                              (filter DS.is_bull (rows (df s))) (rows (df s))).
    { apply Interleave_filter. eapply Forall_impl; [|exact Hpriced].
      exact priced_bear_or_bull. }
    apply Interleave_length in Hint.
    rewrite filter_app, length_app, B2, U2. exact Hint.
Qed.

Lemma volume_picture_witness :
  exists bear_ops bull_ops,
    Paint.volume Demo.volume_store "#44bb55" "#dd6666"
    = Some ([setPen "#dd6666"; setBrush "#dd6666"] ++ bear_ops
            ++ [setPen "#44bb55"; setBrush "#44bb55"] ++ bull_ops) /\
    rect_heights bear_ops = [Fin 250] /\
    rect_heights bull_ops = [Fin 100; Fin 80] /\
    List.length (filter is_rect (bear_ops ++ bull_ops)) = 3%nat.
Proof.
  destruct (volume_picture Demo.volume_store "#44bb55" "#dd6666")
    as (bear_ops & bull_ops & E & _ & Hb & Hu & Hall).
  - split; [vm_compute; lia | repeat constructor].
  - reflexivity.
  - simpl. lia.
  - exists bear_ops, bull_ops.
    split; [exact E|]. split; [exact Hb|]. split; [exact Hu|].
    apply Hall. repeat constructor.
Defined.

(* ================================================================= *)
(** ** Epoch conversion                                               *)
(* ================================================================= *)

(** [_pdtime2epoch] raises exactly on an empty series.  Otherwise it
    returns a series of numbers of the same length, which a second
    conversion returns unchanged; Timestamps are floored to whole seconds,
    before 1970 as after: the second [q] of a Timestamp of [z] nanoseconds
    satisfies [q * 1e9 <= z < (q + 1) * 1e9]. *)
Theorem pdtime2epoch_floors (t : Series) :
  (_pdtime2epoch t = None <-> series_length t = 0%nat) /\
  (forall t', _pdtime2epoch t = Some t' ->
              series_length t' = series_length t /\
              _pdtime2epoch t' = Some t' /\
              exists l, t' = NumberSeries l) /\
  (forall ns, t = TimestampSeries ns -> ns <> [] ->
              exists secs, _pdtime2epoch t = Some (NumberSeries (map Num.of_Z secs)) /\
                           Forall2 (fun z q => q * 10 ^ 9 <= z < (q + 1) * 10 ^ 9) ns secs).
Proof.
  split; [|split].
  - destruct t as [[|z ns] | [|x l]]; simpl; split; try reflexivity; discriminate.
  - intros t' E. destruct t as [[|z ns] | [|x l]]; simpl in E; try discriminate;
      injection E as <-; simpl; rewrite ?length_map; repeat split; eauto.
  - intros ns -> Hns. exists (map (fun z => z / 10 ^ 9) ns). split.
    + destruct ns as [|z ns]; [contradiction|]. simpl. now rewrite map_map.
    + clear Hns. induction ns as [|z ns IH]; simpl; constructor; [|exact IH].
      pose proof (Z.div_mod z (10 ^ 9) ltac:(lia)) as Hdm.
      pose proof (Z.mod_pos_bound z (10 ^ 9) ltac:(lia)) as Hm. lia.
Qed.

Lemma pdtime2epoch_floors_witness :
  exists secs,
    _pdtime2epoch (TimestampSeries [1500000000999999999; -1; 0])
    = Some (NumberSeries (map Num.of_Z secs)) /\
    Forall2 (fun z q => q * 10 ^ 9 <= z < (q + 1) * 10 ^ 9)
            [1500000000999999999; -1; 0] secs.
Proof.
  apply (proj2 (proj2 (pdtime2epoch_floors (TimestampSeries [1500000000999999999; -1; 0])))
               [1500000000999999999; -1; 0]).
  - reflexivity.
  - discriminate.
Defined.

(* ================================================================= *)
(** ** update_datasrc                                                 *)
(* ================================================================= *)

(** [get_time] with a period, on a table of two rows or more: the first
    row for every offset at or beyond it, the last row for offset 0. *)
Lemma get_time_ends (s : PandasDataSource) (r0 r1 : row) (rest : list row)
      (offset_from_end : nat) (per : Q) :
  rows (df s) = r0 :: r1 :: rest ->
  ~ (per == 0)%Q ->
  (S (List.length rest) <= offset_from_end)%nat ->
  DS.get_time s offset_from_end per
  = Some (Num.add (time r0) (Num.mul (Fin per) (Num.sub (time r1) (time r0)))) /\
  DS.get_time s 0 per
  = Some (Num.add (time (last (r1 :: rest) r1))
                  (Num.mul (Fin per) (Num.sub (time r1) (time r0)))).
Proof.
  intros Hrows Hper Hoff. unfold DS.get_time, DS.period. rewrite Hrows.
  replace (Qeq_bool per 0) with false
    by (symmetry; destruct (Qeq_bool per 0) eqn:E; [|reflexivity];
        apply Qeq_bool_iff in E; contradiction).
  cbv zeta. split.
  - replace (List.length (r0 :: r1 :: rest) - 1 -
             (if (List.length (r0 :: r1 :: rest) <=? offset_from_end)%nat
              then (List.length (r0 :: r1 :: rest) - 1)%nat else offset_from_end))%nat
      with 0%nat; [reflexivity|].
    destruct (Nat.leb_spec (List.length (r0 :: r1 :: rest)) offset_from_end);
      cbn [List.length] in *; lia.
  - replace (List.length (r0 :: r1 :: rest) - 1 -
             (if (List.length (r0 :: r1 :: rest) <=? 0)%nat
              then (List.length (r0 :: r1 :: rest) - 1)%nat else 0))%nat
      with (S (List.length rest)); [|cbn [List.length Nat.leb]; lia].
    change (nth_error (r0 :: r1 :: rest) (S (List.length rest)))
      with (nth_error (r1 :: rest) (List.length rest)).
    now rewrite nth_error_last.
Qed.

(** The first source given to a plot (two rows or more, fewer than 1e20)
    is bound as [set_datasrc] binds it, and [update_datasrc] raises when
    that binding raises; when it returns, the source is the view box's
    store and the X limits are set to the whole table: from the first time
    less half a period to the last time plus half a period.  The rectangle
    is the one [set_datasrc] seeded. *)
Theorem update_datasrc_first (v : FinViewBox) (src : PandasDataSource)
        (r0 r1 : row) (rest : list row) :
  datasrc v = None ->
  rows (df src) = r0 :: r1 :: rest ->
  (List.length (rows (df src)) <= far_offset)%nat ->
  let x0 := Num.add (time r0)
                    (Num.mul (Fin (- (1 # 2))) (Num.sub (time r1) (time r0))) in
  let x1 := Num.add (time (last (r1 :: rest) r1))
                    (Num.mul (Fin (1 # 2)) (Num.sub (time r1) (time r0))) in
  update_datasrc v src
  = match VB.set_datasrc v (Some src) with
    | None => None
    | Some v' => Some (set_x_limits v' x0 x1)
    end /\
  forall v', VB.set_datasrc v (Some src) = Some v' ->
    exists v'', update_datasrc v src = Some v'' /\
                xMin v'' = Some x0 /\ xMax v'' = Some x1 /\
                yMin v'' = yMin v' /\ yMax v'' = yMax v' /\
                targetRect v'' = targetRect v' /\
                datasrc v'' = datasrc v' /\
                heavies v'' = heavies v' /\
                heavies_blind_cnt v'' = heavies_blind_cnt v'.
Proof.
  intros Hd Hrows Hfar x0 x1.
  destruct (get_time_ends src r0 r1 rest far_offset (- (1 # 2)) Hrows) as (H0 & _);
    [discriminate | rewrite Hrows in Hfar; cbn [List.length] in Hfar; lia |].
  destruct (get_time_ends src r0 r1 rest far_offset (1 # 2) Hrows) as (_ & H1);
    [discriminate | rewrite Hrows in Hfar; cbn [List.length] in Hfar; lia |].
  assert (E : update_datasrc v src
              = match VB.set_datasrc v (Some src) with
                | None => None
                | Some v' => Some (set_x_limits v' x0 x1)
                end).
  { unfold update_datasrc. rewrite Hd, H0, H1. reflexivity. }
  split; [exact E|].
  intros v' Hv'. rewrite E, Hv'. eexists. split; [reflexivity|]. repeat split.
Qed.

Lemma far_offset_large : (100 <= far_offset)%nat.
Proof.
  unfold far_offset. change 100%nat with (10 ^ 2)%nat.
  apply Nat.pow_le_mono_r; lia.
Qed.

Lemma update_datasrc_first_witness :
  exists v'',
    update_datasrc Demo.fresh_ax Sample.line_store = Some v'' /\
    xMin v'' = Some (Num.add (Fin 0) (Num.mul (Fin (- (1 # 2))) (Num.sub (Fin 60) (Fin 0)))) /\
    xMax v'' = Some (Num.add (Fin 1440) (Num.mul (Fin (1 # 2)) (Num.sub (Fin 60) (Fin 0)))) /\
    targetRect v'' = mkRect (Fin 0) (Fin 10) (Fin 1440) (Fin 34).
Proof.
  destruct (update_datasrc_first Demo.fresh_ax Sample.line_store
              (Sample.line_row 0) (Sample.line_row 1) (map Sample.line_row (seq 2 23)))
    as (_ & H).
  - reflexivity.
  - reflexivity.
  - apply Nat.le_trans with 100%nat; [vm_compute; lia | apply far_offset_large].
  - destruct (H Sample.line_vb) as (v'' & E & Hmin & Hmax & _ & _ & Hr & _).
    + vm_compute. reflexivity.
    + exists v''. split; [exact E|]. split; [exact Hmin|]. split; [exact Hmax|].
      rewrite Hr. vm_compute. reflexivity.
Defined.

Lemma get_time_by_times (s s' : PandasDataSource) (offset_from_end : nat) (per : Q) :
  map time (rows (df s')) = map time (rows (df s)) ->
  DS.get_time s' offset_from_end per = DS.get_time s offset_from_end per.
Proof.
  intros H.
  assert (Hlen : List.length (rows (df s')) = List.length (rows (df s))).
  { rewrite <- (length_map time (rows (df s'))), H. apply length_map. }
  assert (Hnth : forall i, option_map time (nth_error (rows (df s')) i)
                           = option_map time (nth_error (rows (df s)) i)).
  { intros i. rewrite <- !nth_error_map. now rewrite H. }
  assert (Hper : DS.period s' = DS.period s).
  { unfold DS.period.
    destruct (rows (df s')) as [|a' [|b' l']], (rows (df s)) as [|a [|b l]];
      simpl in H; try discriminate; try reflexivity.
    injection H as Ha Hb _. now rewrite Ha, Hb. }
  unfold DS.get_time. rewrite Hlen, Hper.
  specialize (Hnth (List.length (rows (df s)) - 1
                    - (if (List.length (rows (df s)) <=? offset_from_end)%nat
                       then (List.length (rows (df s)) - 1)%nat
                       else offset_from_end))%nat).
  cbv zeta.
  destruct (nth_error (rows (df s')) _) as [r'|], (nth_error (rows (df s)) _) as [r|];
    simpl in Hnth; try discriminate; [|reflexivity].
  injection Hnth as ->. reflexivity.
Qed.

Lemma concat_rows_times (wa wb : nat) (a b : list row) :
  (1 <= wa)%nat -> Forall (fun r => List.length r = wa) a ->
  (List.length b <= List.length a)%nat ->
  map time (concat_rows wa wb a b) = map time a.
Proof.
  intros Hw Ha. revert b. induction Ha as [|ra a Hra _ IH]; intros b Hb.
  - destruct b; [reflexivity | simpl in Hb; lia].
  - assert (Ht : forall r', time (ra ++ r') = time ra).
    { intros r'. apply cell_app_left. lia. }
    destruct b as [|rb b]; simpl; rewrite Ht, IH; try reflexivity; simpl in *; lia.
Qed.

(** A later source given to a plot is merged into the view box's store:
    the columns [df[df.columns[1:]]] selects from it are appended and the
    column skip becomes the larger of the two.  When the store's table is
    rectangular with two rows or more, the source is no longer than it,
    and the store's cache still holds the initial window, the "update
    zoom" that follows is a cache hit: the rectangle handed to the
    toolkit's [setRange] is the one of the answer computed before the
    merge, whatever the new columns hold (none is handed over, and the
    rectangle stays, when that answer counts fewer than 20 rows).  The
    limits stay as they were. *)
Theorem update_datasrc_merge (v : FinViewBox) (own src : PandasDataSource)
        (x0 x1 : num) (a : HiLo) :
  datasrc v = Some own ->
  rectangular (df own) ->
  (List.length (rows (df src)) <= List.length (rows (df own)))%nat ->
  DS.get_time own (init_steps v) (- (1 # 2)) = Some x0 ->
  DS.get_time own 0 (1 # 2) = Some x1 ->
  cache_hilo_query own = DS.query_of x0 x1 ->
  cache_hilo_answer own = Some a ->
  let merged :=
    mkDS (concat_axis1 (df own) (drop_first_column (df src)))
         (Nat.max (skip_scale_colcnt own) (skip_scale_colcnt src))
         (cache_hilo_query own) (Some a) in
  let rect := mkRect (t0 a) (lo a) (t1 a) (hi a) in
  update_datasrc v src
  = (if (20 <=? cnt a)%nat
     then returned (VB.setRange (VB.with_datasrc v (Some merged)) rect)
     else Some (VB.with_datasrc v (Some merged))) /\
  (forall v', update_datasrc v src = Some v' ->
     datasrc v' = Some merged /\
     xMin v' = xMin v /\ xMax v' = xMax v /\
     yMin v' = yMin v /\ yMax v' = yMax v /\
     heavies v' = heavies v /\ heavies_blind_cnt v' = heavies_blind_cnt v /\
     ((cnt a < 20)%nat -> targetRect v' = targetRect v) /\
     ((20 <= cnt a)%nat -> VB.fit_rect v rect = Some (targetRect v'))) /\
  ((20 <= cnt a)%nat ->
   proper_range (t0 a) (t1 a) -> fits (xMin v) (xMax v) (t0 a) (t1 a) ->
   proper_range (lo a) (hi a) -> fits (yMin v) (yMax v) (lo a) (hi a) ->
   exists v', update_datasrc v src = Some v' /\ targetRect v' = rect).
Proof.
  intros Hd (Hw & Hrect) Hlen H0 H1 Hkey Hans merged rect.
  assert (Hm : merged = DS.set_skip_scale_colcnt (DS.addcols own (df src))
                          (Nat.max (skip_scale_colcnt (DS.addcols own (df src)))
                                   (skip_scale_colcnt src))).
  { unfold merged, DS.set_skip_scale_colcnt, DS.addcols. simpl. now rewrite Hans. }
  assert (Htimes : map time (rows (df merged)) = map time (rows (df own))).
  { simpl. apply concat_rows_times; [exact Hw | exact Hrect | now rewrite length_map]. }
  assert (H0' : DS.get_time merged (init_steps v) (- (1 # 2)) = Some x0)
    by (now rewrite (get_time_by_times own merged _ _ Htimes)).
  assert (H1' : DS.get_time merged 0 (1 # 2) = Some x1)
    by (now rewrite (get_time_by_times own merged _ _ Htimes)).
  assert (Hhit : DS.hilo merged x0 x1 = (Some a, merged)).
  { rewrite hilo_hit; [reflexivity | symmetry; exact Hkey]. }
  assert (E : update_datasrc v src
              = (if (20 <=? cnt a)%nat
                 then returned (VB.setRange (VB.with_datasrc v (Some merged)) rect)
                 else Some (VB.with_datasrc v (Some merged)))).
  { unfold update_datasrc. rewrite Hd. cbv zeta. rewrite <- Hm.
    unfold VB.set_datasrc. cbv zeta.
    change (init_steps (VB.with_datasrc v (Some merged))) with (init_steps v).
    rewrite H0', H1', Hhit. destruct (20 <=? cnt a)%nat; reflexivity. }
  split; [exact E|]. rewrite E, setRange_with_datasrc. split.
  - intros v' Hv'. destruct (Nat.leb_spec 20 (cnt a)) as [Hc|Hc].
    + destruct (VB.fit_rect v rect) as [r'|]; [|discriminate].
      injection Hv' as <-. simpl.
      split; [reflexivity|]. split; [reflexivity|]. split; [reflexivity|].
      split; [reflexivity|]. split; [reflexivity|]. split; [reflexivity|].
      split; [reflexivity|]. split; [intros; lia | reflexivity].
    + injection Hv' as <-. simpl.
      split; [reflexivity|]. split; [reflexivity|]. split; [reflexivity|].
      split; [reflexivity|]. split; [reflexivity|]. split; [reflexivity|].
      split; [reflexivity|]. split; [reflexivity | intros; lia].
  - intros Hc Hx Fx Hy Fy. destruct (Nat.leb_spec 20 (cnt a)); [|lia].
    rewrite (fit_rect_exact v rect Hx Hy Fx Fy). eexists. split; reflexivity.
Qed.

Lemma update_datasrc_merge_witness :
  let src := DS.__init__ Sample.extra_df in
  exists v' own',
    update_datasrc Sample.line_vb src = Some v' /\
    datasrc v' = Some own' /\
    ncols (df own') = 3%nat /\
    targetRect v' = mkRect (Fin 0) (Fin 10) (Fin 1440) (Fin 34) /\
    hi (DS._hilo own' (Fin 0) (Fin 1440)) = Fin 1000.
Proof.
  cbv zeta.
  destruct (update_datasrc_merge Sample.line_vb
              (snd (DS.hilo Sample.line_store
                      (Num.add (Fin 0) (Num.mul (Fin (- (1 # 2))) (Num.sub (Fin 60) (Fin 0))))
                      (Num.add (Fin 1440) (Num.mul (Fin (1 # 2)) (Num.sub (Fin 60) (Fin 0))))))
              (DS.__init__ Sample.extra_df)
              (Num.add (Fin 0) (Num.mul (Fin (- (1 # 2))) (Num.sub (Fin 60) (Fin 0))))
              (Num.add (Fin 1440) (Num.mul (Fin (1 # 2)) (Num.sub (Fin 60) (Fin 0))))
              (mkHiLo (Fin 0) (Fin 1440) (Fin 34) (Fin 10) 25))
    as (_ & Hkeep & Hexact).
  - vm_compute. reflexivity.
  - split; [vm_compute; lia | repeat constructor].
  - vm_compute. lia.
  - vm_compute. reflexivity.
  - vm_compute. reflexivity.
  - vm_compute. reflexivity.
  - vm_compute. reflexivity.
  - destruct Hexact as (v' & E & Hr).
    + vm_compute. lia.
    + split; vm_compute; reflexivity.
    + split; exact I.
    + split; vm_compute; reflexivity.
    + split; exact I.
    + destruct (Hkeep v' E) as (Hd & _).
      eexists v', _. split; [exact E|]. split; [exact Hd|].
      split; [vm_compute; reflexivity|]. split; [exact Hr|].
      vm_compute. reflexivity.
Defined.
